(** * Task-Management: task/user lifecycle and authorization

    A shallow embedding of the task-management application.  On the server:
    the Task and User schemas, with their validators, virtuals, methods,
    statics and the [pre('save')] hooks; the auth controller ([register],
    [login], [getMe], [updateProfile]); the task controller ([createTask],
    [getTasks], [getTaskById], [updateTask], [deleteTask],
    [updateTaskStatus], [getTasksByPriority]); the user controller
    ([getAllUsers], [getUserById], [createUser], [updateUser], [deleteUser],
    [getUsersForAssignment]); and the middleware [auth], [adminAuth] and
    [optionalAuth] in front of the routes.  On the client: the reducer of
    the auth context, the overdue badge, the figures of the dashboard, the
    columns of the priority board and the sort control of the task page.

    Conventions of the embedding
    - A collection is a finite map from [_id] to document (the [_id] index is
      unique); the "natural order" of a collection scan is the order of
      [map_to_list].
    - A handler [(req, res) => ...] is a function from the request data and
      the store to the response sent and the store afterwards.  A rejected
      promise is a value of [Thrown]; every handler's [catch] turns it into a
      response.
    - Dates are milliseconds since the epoch ([Z]); [now] is the reading of
      the clock ([new Date()]) during the request.  Local time is the
      language's: the instant plus [LocalTZA], the offset of the server's
      time zone, which changes with daylight saving.
    - Request fields arrive typed: an absent field ([undefined]) is [None].
      Strings are taken after the schema setters ([trim], [lowercase]).  The
      [isActive] of a user update is kept as the value received, since the
      handler compares it with [false] before the ODM casts it.
    - What the ODM and the database do (casting an id, matching a regular
      expression, ordering documents on a field) is not code of this
      repository: it is the interface [Platform], over which the server is
      defined.  Signing and verifying a token and hashing and comparing a
      password are the interface [Services].
    - Of the ODM's own behaviour the embedding uses this much: a path set to
      the value it already has is not marked modified; [save()] validates
      the document, runs the [pre('save')] hooks and writes the modified
      paths; [findByIdAndUpdate] is a query that runs the update validators
      of the paths it sets and no [pre('save')] hook; [populate] leaves
      [null] where the referenced document is missing; a value for a Boolean
      path is cast from the texts and numbers the ODM converts.
    - The [createdAt]/[updatedAt] stamps that the ODM maintains, and the
      sub-documents that [populate] puts into a response, are left out. *)

From stdpp Require Import base gmap strings list fin_maps pretty sorting.
From Stdlib Require Import ZArith Lia.

Local Open Scope string_scope.
Local Open Scope Z_scope.

(** ** Data model *)

(** An ObjectId, in its canonical 24-digit hexadecimal form ([toString()]). *)
Abbreviation ObjectId := string (only parsing).

(** [notes: [{ text, createdBy, createdAt }]] *)
Record Note := mkNote {
  note_text : string;
  note_createdBy : ObjectId;
  note_createdAt : Z
}.

(** [taskSchema] *)
Record Task := mkTask {
  title : string;
  description : string;
  dueDate : Z;
  status : string;
  priority : string;
  createdBy : ObjectId;
  assignedTo : ObjectId;
  completedAt : option Z;
  tags : list string;
  notes : list Note
}.

(** [userSchema] *)
Record User := mkUser {
  username : string;
  email : string;
  password : string;
  role : string;
  firstName : option string;
  lastName : option string;
  (** [null] once an update has stored [null] *)
  isActive : option bool
}.

(** The two collections. *)
Record Store := mkStore {
  users : gmap string User;
  tasks : gmap string Task
}.

(** [req.user], as the [auth] middleware leaves it: the controllers read
    [_id] and [role]. *)
Record ReqUser := mkReqUser {
  user_id : ObjectId;
  user_role : string
}.

(** What a handler sends: [res.status(code).json({success: true, data})] or
    [res.status(code).json({success: false, message, errors})]. *)
Inductive Response (A : Type) : Type :=
| Success (code : Z) (data : A)
| Failure (code : Z) (message : string) (errors : list string).
Arguments Success {A} code data.
Arguments Failure {A} code message errors.

(** What an awaited call can throw; the handlers tell [ValidationError]
    from the rest by [error.name]. *)
Inductive Thrown : Type :=
| ValidationError (errors : list string)
| CastError
| MongoServerError
| TypeError.

Definition statusCode {A} (r : Response A) : Z :=
  match r with Success c _ => c | Failure c _ _ => c end.

Definition isSuccess {A} (r : Response A) : bool :=
  match r with Success _ _ => true | Failure _ _ _ => false end.

(** ** JavaScript helpers *)

(** [if (s)] on an optional string: [undefined] and [''] are falsy. *)
Definition truthy (s : option string) : bool :=
  match s with
  | Some v => negb (String.eqb v "")
  | None => false
  end.

(** [if (v)] on a stored Boolean, and the match of the filter
    [{ isActive: true }]: [null] and [false] are falsy. *)
Definition isTrue (v : option bool) : bool :=
  match v with
  | Some true => true
  | _ => false
  end.

(** [!v] on a nullable date: a [Date] object is always truthy. *)
Definition isNull {A} (v : option A) : bool :=
  match v with
  | None => true
  | Some _ => false
  end.

(** [arr.includes(s)] *)
Definition includes (arr : list string) (s : string) : bool :=
  existsb (String.eqb s) arr.
Arguments includes : simpl never.

Definition strlen (s : string) : Z := Z.of_nat (String.length s).

(** [Math.ceil(a / b)] for a positive [b]. *)
Definition ceilDiv (a b : Z) : Z := - ((- a) / b).

Definition MS_PER_DAY : Z := 1000 * 60 * 60 * 24.

(** ** Task schema: enumerations and validators *)

Definition validStatuses : list string :=
  ["pending"; "in-progress"; "completed"; "cancelled"].

Definition validPriorities : list string :=
  ["low"; "medium"; "high"; "urgent"].

Definition with_status (v : string) (t : Task) : Task :=
  mkTask (title t) (description t) (dueDate t) v (priority t)
         (createdBy t) (assignedTo t) (completedAt t) (tags t) (notes t).

Definition with_completedAt (v : option Z) (t : Task) : Task :=
  mkTask (title t) (description t) (dueDate t) (status t) (priority t)
         (createdBy t) (assignedTo t) v (tags t) (notes t).

(** A path reports its first failing validator. *)
Definition title_errors (v : string) : list string :=
  if String.eqb v "" then ["Task title is required"]
  else if 100 <? strlen v then ["Task title cannot exceed 100 characters"]
  else [].

Definition description_errors (v : string) : list string :=
  if String.eqb v "" then ["Task description is required"]
  else if 1000 <? strlen v then ["Task description cannot exceed 1000 characters"]
  else [].

Definition status_errors (v : string) : list string :=
  if includes validStatuses v then [] else [(v ++ " is not a valid status")%string].

Definition priority_errors (v : string) : list string :=
  if includes validPriorities v then [] else [(v ++ " is not a valid priority")%string].

Definition tags_errors (v : list string) : list string :=
  flat_map (fun tg => if 20 <? strlen tg
                      then ["Tag cannot exceed 20 characters"] else []) v.

Definition notes_errors (v : list Note) : list string :=
  flat_map (fun n => if String.eqb (note_text n) "" then ["Path `text` is required."]
                     else if 500 <? strlen (note_text n)
                     then ["Note cannot exceed 500 characters"] else []) v.

(** ** A hydrated document and its dirty paths *)

Record Document := mkDocument {
  doc_id : ObjectId;
  fields : Task;
  modifiedPaths : list string
}.

(** A document as [findById] returns it: nothing modified yet. *)
Definition hydrate (d : string * Task) : Document :=
  mkDocument (fst d) (snd d) [].

(** [this.isModified(path)] *)
Definition isModified (path : string) (d : Document) : bool :=
  includes (modifiedPaths d) path.

(** [task.status = v]: the path becomes dirty only when the value differs. *)
Definition set_status (v : string) (d : Document) : Document :=
  if String.eqb (status (fields d)) v then d
  else mkDocument (doc_id d) (with_status v (fields d))
                  ("status" :: modifiedPaths d).

(** [taskSchema.pre('save', ...)] *)
Definition preSave (now : Z) (d : Document) : Document :=
  if isModified "status" d then
    if String.eqb (status (fields d)) "completed" && isNull (completedAt (fields d)) then
      mkDocument (doc_id d) (with_completedAt (Some now) (fields d)) (modifiedPaths d)
    else if negb (String.eqb (status (fields d)) "completed") then
      mkDocument (doc_id d) (with_completedAt None (fields d)) (modifiedPaths d)
    else d
  else d.

(** The request body of [PUT /api/tasks/:id]. *)
Record TaskBody := mkTaskBody {
  body_title : option string;
  body_description : option string;
  body_dueDate : option Z;
  body_priority : option string;
  body_status : option string;
  body_assignedTo : option string;
  body_tags : option (list string)
}.

(** The query string of [GET /api/tasks]; [page] and [limit] are modelled on
    the domain the interface gives them, the positive integers. *)
Record TaskQuery := mkTaskQuery {
  query_page : option positive;
  query_limit : option positive;
  query_status : option string;
  query_priority : option string;
  query_assignedTo : option string;
  query_search : option string;
  query_sortBy : option string;
  query_sortOrder : option string
}.

Record Pagination := mkPagination {
  currentPage : Z;
  totalPages : Z;
  totalTasks : Z;
  hasNext : bool;
  hasPrev : bool
}.

Record TaskList := mkTaskList {
  list_tasks : list (string * Task);
  list_pagination : Pagination
}.

(** A value of a JSON or form body, as far as the code and the ODM tell
    values apart; [JOther] is a fraction, an array or an object. *)
Inductive JsValue : Type :=
| JNull
| JBool (b : bool)
| JNumber (n : Z)
| JString (s : string)
| JOther.

(** [v === false] *)
Definition isFalse (v : option JsValue) : bool :=
  match v with
  | Some (JBool false) => true
  | _ => false
  end.

(** The ODM's cast to Boolean: [true], ['true'], [1], ['1'] and ['yes'] are
    true; [false], ['false'], [0], ['0'] and ['no'] are false; [null] stays
    [null]; every other value is a [CastError]. *)
Definition castBoolean (v : JsValue) : Thrown + option bool :=
  match v with
  | JNull => inr None
  | JBool b => inr (Some b)
  | JNumber n =>
      if n =? 1 then inr (Some true)
      else if n =? 0 then inr (Some false)
      else inl CastError
  | JString s =>
      if includes ["true"; "1"; "yes"] s then inr (Some true)
      else if includes ["false"; "0"; "no"] s then inr (Some false)
      else inl CastError
  | JOther => inl CastError
  end.

(** The request body of [PUT /api/users/:id]; [isActive] is the value as
    received, which the ODM casts when the update is run. *)
Record UserBody := mkUserBody {
  body_username : option string;
  body_email : option string;
  body_firstName : option string;
  body_lastName : option string;
  body_role : option string;
  body_isActive : option JsValue
}.

(** [stats] of [getUserById]: a JS object used as a map from key to count. *)
Record UserDetails := mkUserDetails {
  details_user : string * User;
  taskStats : gmap string Z
}.

(** The filter object handed to [Task.find] / [Task.countDocuments]. *)
Record TaskFilter := mkTaskFilter {
  filter_assignedTo : option ObjectId;
  filter_status : option string;
  filter_priority : option string;
  filter_or : option (string -> bool)
}.

Definition optMatches {A} (eqb : A -> A -> bool) (cond : option A) (v : A) : bool :=
  match cond with
  | Some c => eqb v c
  | None => true
  end.

Definition matches (q : TaskFilter) (d : string * Task) : bool :=
  optMatches String.eqb (filter_assignedTo q) (assignedTo d.2)
  && optMatches String.eqb (filter_status q) (status d.2)
  && optMatches String.eqb (filter_priority q) (priority d.2)
  && match filter_or q with
     | Some re => re (title d.2) || re (description d.2)
     | None => true
     end.

(** [Task.find(query)], in natural order. *)
Definition Task_find (q : TaskFilter) (db : Store) : list (string * Task) :=
  List.filter (matches q) (map_to_list (tasks db)).

(** [Task.countDocuments(query)] *)
Definition Task_countDocuments (q : TaskFilter) (db : Store) : Z :=
  Z.of_nat (length (Task_find q db)).

(** [.sort(...)]: a stable insertion sort on the order [le]. *)
Fixpoint insertDoc {A} (le : A -> A -> bool) (x : A) (l : list A) : list A :=
  match l with
  | [] => [x]
  | y :: l' => if le x y then x :: l else y :: insertDoc le x l'
  end.

Definition sortDocs {A} (le : A -> A -> bool) (l : list A) : list A :=
  foldr (insertDoc le) [] l.

(** [Task.countDocuments({ $or: [{ assignedTo: id }, { createdBy: id }] })] *)
Definition countReferencing (oid : ObjectId) (db : Store) : Z :=
  Z.of_nat (length (List.filter
    (fun d : string * Task => String.eqb (assignedTo d.2) oid || String.eqb (createdBy d.2) oid)
    (map_to_list (tasks db)))).

(** [{ $group: { _id: '$status', count: { $sum: 1 } } }] over the statuses of
    the matched documents: one entry per status.  The database does not fix
    the order of the groups; here it is the order of first occurrence, and
    [addStat_order_irrelevant] shows that the statistics do not depend on it. *)
Fixpoint bump (k : string) (acc : list (string * Z)) : list (string * Z) :=
  match acc with
  | [] => [(k, 1)]
  | (k', n) :: acc' =>
      if String.eqb k' k then (k', n + 1) :: acc' else (k', n) :: bump k acc'
  end.

Definition groupCount (l : list string) : list (string * Z) :=
  fold_left (fun acc k => bump k acc) l [].

(** ** The platform under the server

    The parts of the ODM, the driver and the database that the handlers call
    and that are not code of this repository. *)

Class Platform := mkPlatform {
  (** [mongoose.Types.ObjectId.isValid] *)
  isValid : string -> bool;
  (** The ODM's cast of a string to an ObjectId; [None] is a [CastError]. *)
  castId : string -> option string;
  (** [mongoose.Types.ObjectId(id)], the constructor called as a function;
      [None] when the call throws. *)
  toObjectId : string -> option string;
  (** [{ $regex: pattern, $options: 'i' }] as a test on strings; [None]
      when the database rejects the pattern. *)
  regexI : string -> option (string -> bool);
  (** The database's ascending order of two documents on a field. *)
  fieldLe : string -> string * Task -> string * Task -> bool;
  (** [LocalTZA(t, isUTC)] of the language: the offset of the server's local
      time from UTC in milliseconds, at the instant [t] when [isUTC] is true
      and for the local time value [t] when it is false.  It follows the
      clock changes of the server's time zone. *)
  LocalTZA : Z -> bool -> Z;
  (** The [match] pattern of the [email] path, as a test. *)
  emailFormatOk : string -> bool
}.

(** ** The server *)

Section Server.

Context `{Platform}.

(** The number of the local calendar day that holds the instant [t]. *)
Definition localDay (t : Z) : Z := (t + LocalTZA t true) / MS_PER_DAY.

(** The offset in force at the local midnight that starts the day of [t]. *)
Definition midnightOffset (t : Z) : Z := LocalTZA (localDay t * MS_PER_DAY) false.

(** [new Date(t).setHours(0, 0, 0, 0)]: local midnight of the day of [t]. *)
Definition startOfDay (t : Z) : Z := localDay t * MS_PER_DAY - midnightOffset t.

(** *** Task virtuals *)

Definition isOverdue (now : Z) (t : Task) : bool :=
  if String.eqb (status t) "completed" then false
  else dueDate t <? now.

Definition daysUntilDue (now : Z) (t : Task) : Z :=
  let today := startOfDay now in
  let due := startOfDay (dueDate t) in
  let diffTime := due - today in
  ceilDiv diffTime MS_PER_DAY.

(** The names every object inherits from [Object.prototype]: read on an
    object literal, each gives the inherited member instead of [undefined]. *)
Definition objectPrototypeKeys : list string :=
  ["constructor"; "__defineGetter__"; "__defineSetter__"; "hasOwnProperty";
   "__lookupGetter__"; "__lookupSetter__"; "isPrototypeOf"; "propertyIsEnumerable";
   "toString"; "valueOf"; "__proto__"; "toLocaleString"].

(** What the getter of [priorityColor] returns: a colour, or the member of
    [Object.prototype] that [colors[this.priority]] has found under the
    given name (a function or an object, which is truthy). *)
Inductive ColorValue : Type :=
| Color (hex : string)
| Inherited (key : string).

Definition priorityColor (t : Task) : ColorValue :=
  let colors := [("low", "#10B981"); ("medium", "#F59E0B");
                 ("high", "#F97316"); ("urgent", "#EF4444")] in
  match List.find (fun kv => String.eqb (fst kv) (priority t)) colors with
  | Some kv => Color (snd kv)
  | None =>
      if includes objectPrototypeKeys (priority t) then Inherited (priority t)
      else Color "#6B7280"
  end.

(** A task as serialised ([toJSON: { virtuals: true }]). *)
Record TaskJSON := mkTaskJSON {
  json_id : ObjectId;
  json_task : Task;
  json_isOverdue : bool;
  json_daysUntilDue : Z;
  json_priorityColor : ColorValue
}.

Definition toJSON (now : Z) (d : string * Task) : TaskJSON :=
  mkTaskJSON d.1 d.2 (isOverdue now d.2) (daysUntilDue now d.2) (priorityColor d.2).

(** *** Task validation *)

Definition dueDate_errors (now : Z) (v : Z) : list string :=
  if v <? startOfDay now then ["Due date cannot be in the past"] else [].

(** Document validation, as [save()] runs it: every path of the document. *)
Definition taskErrors (now : Z) (t : Task) : list string :=
  title_errors (title t) ++ description_errors (description t)
  ++ dueDate_errors now (dueDate t) ++ status_errors (status t)
  ++ priority_errors (priority t) ++ tags_errors (tags t)
  ++ notes_errors (notes t).

Definition onPath {A} (validate : A -> list string) (v : option A) : list string :=
  match v with
  | Some x => validate x
  | None => []
  end.

(** The [$set] of [findByIdAndUpdate], after casting. *)
Record TaskUpdate := mkTaskUpdate {
  set_title : option string;
  set_description : option string;
  set_dueDate : option Z;
  set_priority : option string;
  set_statusTo : option string;
  set_assignedTo : option ObjectId;
  set_tags : option (list string)
}.

(** Update validators ([runValidators: true]): the paths of the update only. *)
Definition updateErrors (now : Z) (u : TaskUpdate) : list string :=
  onPath title_errors (set_title u) ++ onPath description_errors (set_description u)
  ++ onPath (dueDate_errors now) (set_dueDate u) ++ onPath priority_errors (set_priority u)
  ++ onPath status_errors (set_statusTo u) ++ onPath tags_errors (set_tags u).

Definition applyUpdate (u : TaskUpdate) (t : Task) : Task :=
  mkTask (default (title t) (set_title u))
         (default (description t) (set_description u))
         (default (dueDate t) (set_dueDate u))
         (default (status t) (set_statusTo u))
         (default (priority t) (set_priority u))
         (createdBy t)
         (default (assignedTo t) (set_assignedTo u))
         (completedAt t)
         (default (tags t) (set_tags u))
         (notes t).

(** *** Model methods *)

Definition Task_findById (id : string) (db : Store) : Thrown + option (string * Task) :=
  match castId id with
  | None => inl CastError
  | Some oid => inr (pair oid <$> tasks db !! oid)
  end.

Definition User_findById (id : string) (db : Store) : Thrown + option (string * User) :=
  match castId id with
  | None => inl CastError
  | Some oid => inr (pair oid <$> users db !! oid)
  end.

(** [task.save()]: validation of the document (the schema does not set
    [validateModifiedOnly]), then the [pre('save')] hook, then the write of
    the modified paths (none modified: nothing is written). *)
Definition save (now : Z) (d : Document) (db : Store) : Thrown + Document * Store :=
  match taskErrors now (fields d) with
  | [] =>
      let d' := preSave now d in
      match modifiedPaths d' with
      | [] => inr (d', db)
      | _ => inr (d', mkStore (users db) (<[doc_id d' := fields d']> (tasks db)))
      end
  | errors => inl (ValidationError errors)
  end.

(** [Task.findByIdAndUpdate(id, updateData, { new: true, runValidators: true })]:
    a query, not a document save; no [pre('save')] hook runs. *)
Definition Task_findByIdAndUpdate (now : Z) (id : string) (u : TaskUpdate) (db : Store)
  : Thrown + option (string * Task) * Store :=
  match castId id with
  | None => inl CastError
  | Some oid =>
      match updateErrors now u with
      | [] =>
          match tasks db !! oid with
          | Some t =>
              let t' := applyUpdate u t in
              inr (Some (oid, t'), mkStore (users db) (<[oid := t']> (tasks db)))
          | None => inr (None, db)
          end
      | errors => inl (ValidationError errors)
      end
  end.

(** [Task.findByIdAndDelete(id)] *)
Definition Task_findByIdAndDelete (id : string) (db : Store) : Thrown + Store :=
  match castId id with
  | None => inl CastError
  | Some oid => inr (mkStore (users db) (delete oid (tasks db)))
  end.

(** [User.findByIdAndDelete(id)] *)
Definition User_findByIdAndDelete (id : string) (db : Store) : Thrown + Store :=
  match castId id with
  | None => inl CastError
  | Some oid => inr (mkStore (delete oid (users db)) (tasks db))
  end.

(** [.populate(path, select)]: the referenced user, [null] when there is none.
    The populated sub-document is represented by its [_id]. *)
Definition populate (db : Store) (ref : ObjectId) : option ObjectId :=
  match users db !! ref with
  | Some _ => Some ref
  | None => None
  end.

Definition isAdmin (user : ReqUser) : bool := String.eqb (user_role user) "admin".

(** *** Task controller *)

(** The permission test of [getTaskById], read on the populated task:
    [req.user.role !== 'admin' && !task.assignedTo._id.equals(req.user._id)
     && !task.createdBy._id.equals(req.user._id)].
    Reading [._id] of a reference that populated to [null] throws. *)
Definition viewDenied (user : ReqUser) (assignee creator : option ObjectId) : Thrown + bool :=
  if isAdmin user then inr false
  else match assignee with
       | None => inl TypeError
       | Some a =>
           if String.eqb a (user_id user) then inr false
           else match creator with
                | None => inl TypeError
                | Some c => inr (negb (String.eqb c (user_id user)))
                end
       end.

(** The permission test of [updateTask] and [updateTaskStatus]. *)
Definition editDenied (user : ReqUser) (task : Task) : bool :=
  negb (isAdmin user)
  && negb (String.eqb (assignedTo task) (user_id user))
  && negb (String.eqb (createdBy task) (user_id user)).

(** The permission test of [deleteTask]. *)
Definition deleteDenied (user : ReqUser) (task : Task) : bool :=
  negb (isAdmin user) && negb (String.eqb (createdBy task) (user_id user)).

(** [GET /api/tasks/:id] *)
Definition getTaskById (user : ReqUser) (id : string) (db : Store)
  : Response (string * Task) * Store :=
  if negb (isValid id) then (Failure 400 "Invalid task ID" [], db)
  else match Task_findById id db with
       | inl _ => (Failure 500 "Server error fetching task" [], db)
       | inr None => (Failure 404 "Task not found" [], db)
       | inr (Some task) =>
           match viewDenied user (populate db (assignedTo task.2))
                                 (populate db (createdBy task.2)) with
           | inl _ => (Failure 500 "Server error fetching task" [], db)
           | inr true => (Failure 403 "Access denied" [], db)
           | inr false => (Success 200 task, db)
           end
       end.

(** The cast of [updateData]: only [assignedTo] needs one. *)
Definition castUpdate (body : TaskBody) : Thrown + TaskUpdate :=
  match body_assignedTo body with
  | None =>
      inr (mkTaskUpdate (body_title body) (body_description body) (body_dueDate body)
                        (body_priority body) (body_status body) None (body_tags body))
  | Some a =>
      match castId a with
      | None => inl CastError
      | Some oid =>
          inr (mkTaskUpdate (body_title body) (body_description body) (body_dueDate body)
                            (body_priority body) (body_status body) (Some oid) (body_tags body))
      end
  end.

(** The [catch] of [updateTask]. *)
Definition updateTask_catch {A} (e : Thrown) : Response A :=
  match e with
  | ValidationError errors => Failure 400 "Validation error" errors
  | _ => Failure 500 "Server error updating task" []
  end.

(** [if (assignedTo && assignedTo !== task.assignedTo.toString())]: the
    new assignee must exist. *)
Definition checkAssignee (body : TaskBody) (task : Task) (db : Store)
  : Thrown + bool :=
  match body_assignedTo body with
  | Some a =>
      if negb (String.eqb a "") && negb (String.eqb a (assignedTo task)) then
        match User_findById a db with
        | inl e => inl e
        | inr None => inr false
        | inr (Some _) => inr true
        end
      else inr true
  | None => inr true
  end.

(** [PUT /api/tasks/:id] *)
Definition updateTask (now : Z) (user : ReqUser) (id : string) (body : TaskBody) (db : Store)
  : Response (option (string * Task)) * Store :=
  if negb (isValid id) then (Failure 400 "Invalid task ID" [], db)
  else match Task_findById id db with
       | inl e => (updateTask_catch e, db)
       | inr None => (Failure 404 "Task not found" [], db)
       | inr (Some task) =>
           if editDenied user task.2 then (Failure 403 "Access denied" [], db)
           else match checkAssignee body task.2 db with
                | inl e => (updateTask_catch e, db)
                | inr false => (Failure 400 "Assigned user not found" [], db)
                | inr true =>
                    match castUpdate body with
                    | inl e => (updateTask_catch e, db)
                    | inr updateData =>
                        match Task_findByIdAndUpdate now id updateData db with
                        | inl e => (updateTask_catch e, db)
                        | inr (updatedTask, db') => (Success 200 updatedTask, db')
                        end
                    end
                end
       end.

(** [DELETE /api/tasks/:id] *)
Definition deleteTask (user : ReqUser) (id : string) (db : Store)
  : Response unit * Store :=
  if negb (isValid id) then (Failure 400 "Invalid task ID" [], db)
  else match Task_findById id db with
       | inl _ => (Failure 500 "Server error deleting task" [], db)
       | inr None => (Failure 404 "Task not found" [], db)
       | inr (Some task) =>
           if deleteDenied user task.2
           then (Failure 403 "Only task creator or admin can delete tasks" [], db)
           else match Task_findByIdAndDelete id db with
                | inl _ => (Failure 500 "Server error deleting task" [], db)
                | inr db' => (Success 200 (), db')
                end
       end.

(** [PATCH /api/tasks/:id/status] *)
Definition updateTaskStatus (now : Z) (user : ReqUser) (id : string) (newStatus : string)
    (db : Store) : Response (string * Task) * Store :=
  if negb (isValid id) then (Failure 400 "Invalid task ID" [], db)
  else if negb (includes validStatuses newStatus)
  then (Failure 400 ("Invalid status. Must be one of: "
                       ++ String.concat ", " validStatuses)%string [], db)
  else match Task_findById id db with
       | inl _ => (Failure 500 "Server error updating task status" [], db)
       | inr None => (Failure 404 "Task not found" [], db)
       | inr (Some found) =>
           if editDenied user found.2 then (Failure 403 "Access denied" [], db)
           else match save now (set_status newStatus (hydrate found)) db with
                | inl _ => (Failure 500 "Server error updating task status" [], db)
                | inr (task, db') => (Success 200 (doc_id task, fields task), db')
                end
       end.

(** The filter of [getTasks], as the database receives it. *)
Definition buildQuery (user : ReqUser) (q : TaskQuery) : Thrown + TaskFilter :=
  let byAssignee : Thrown + option ObjectId :=
    if negb (isAdmin user) then inr (Some (user_id user))
    else if truthy (query_assignedTo q) then
      match castId (default "" (query_assignedTo q)) with
      | Some oid => inr (Some oid)
      | None => inl CastError
      end
    else inr None in
  let byStatus := if truthy (query_status q) then query_status q else None in
  let byPriority := if truthy (query_priority q) then query_priority q else None in
  let bySearch : Thrown + option (string -> bool) :=
    if truthy (query_search q) then
      match regexI (default "" (query_search q)) with
      | Some re => inr (Some re)
      | None => inl MongoServerError
      end
    else inr None in
  match byAssignee, bySearch with
  | inr a, inr s => inr (mkTaskFilter a byStatus byPriority s)
  | inl e, _ => inl e
  | _, inl e => inl e
  end.

(** [sort[sortBy] = sortOrder === 'desc' ? -1 : 1] *)
Definition sortLe (sortBy : string) (sortOrder : string) : string * Task -> string * Task -> bool :=
  if String.eqb sortOrder "desc" then fun a b => fieldLe sortBy b a
  else fieldLe sortBy.

(** [GET /api/tasks] *)
Definition getTasks (user : ReqUser) (q : TaskQuery) (db : Store)
  : Response TaskList * Store :=
  let page := Z.pos (default 1%positive (query_page q)) in
  let limit := Z.pos (default 10%positive (query_limit q)) in
  let sortBy := default "dueDate" (query_sortBy q) in
  let sortOrder := default "asc" (query_sortOrder q) in
  match buildQuery user q with
  | inl _ => (Failure 500 "Server error fetching tasks" [], db)
  | inr query =>
      let skip := (page - 1) * limit in
      let found :=
        take (Z.to_nat limit)
             (drop (Z.to_nat skip) (sortDocs (sortLe sortBy sortOrder) (Task_find query db))) in
      let total := Task_countDocuments query db in
      let totalPages := ceilDiv total limit in
      (Success 200 (mkTaskList found
         (mkPagination page totalPages total (page <? totalPages) (1 <? page))), db)
  end.

(** *** User schema validators and user controller *)

Definition username_errors (v : string) : list string :=
  if String.eqb v "" then ["Username is required"]
  else if strlen v <? 3 then ["Username must be at least 3 characters"]
  else if 30 <? strlen v then ["Username cannot exceed 30 characters"]
  else [].

Definition email_errors (v : string) : list string :=
  if String.eqb v "" then ["Email is required"]
  else if emailFormatOk v then []
  else ["Please enter a valid email"].

Definition firstName_errors (v : string) : list string :=
  if 50 <? strlen v then ["First name cannot exceed 50 characters"] else [].

Definition lastName_errors (v : string) : list string :=
  if 50 <? strlen v then ["Last name cannot exceed 50 characters"] else [].

Definition role_errors (v : string) : list string :=
  if includes ["user"; "admin"] v then []
  else [("`" ++ v ++ "` is not a valid enum value for path `role`.")%string].

Definition userUpdateErrors (body : UserBody) : list string :=
  onPath username_errors (body_username body) ++ onPath email_errors (body_email body)
  ++ onPath firstName_errors (body_firstName body)
  ++ onPath lastName_errors (body_lastName body)
  ++ onPath role_errors (body_role body).

(** The cast of [updateData]: only [isActive] needs one. *)
Definition castActive (body : UserBody) : Thrown + option (option bool) :=
  match body_isActive body with
  | None => inr None
  | Some v =>
      match castBoolean v with
      | inl e => inl e
      | inr b => inr (Some b)
      end
  end.

(** The update applied to a document; the cast has succeeded by then. *)
Definition applyUserUpdate (body : UserBody) (u : User) : User :=
  mkUser (default (username u) (body_username body))
         (default (email u) (body_email body))
         (password u)
         (default (role u) (body_role body))
         (match body_firstName body with Some v => Some v | None => firstName u end)
         (match body_lastName body with Some v => Some v | None => lastName u end)
         (match castActive body with
          | inr (Some b) => b
          | _ => isActive u
          end).

(** [User.findOne({ ..., _id: { $ne: id } })] finds a document. *)
Definition otherUserWith (test : User -> bool) (oid : ObjectId) (db : Store) : bool :=
  existsb (fun d : string * User => test d.2 && negb (String.eqb d.1 oid))
          (map_to_list (users db)).

(** [User.findByIdAndUpdate(id, updateData, { new: true, runValidators: true })] *)
Definition User_findByIdAndUpdate (id : string) (body : UserBody) (db : Store)
  : Thrown + option (string * User) * Store :=
  match castId id with
  | None => inl CastError
  | Some oid =>
      match castActive body with
      | inl e => inl e
      | inr _ =>
          match userUpdateErrors body with
          | [] =>
              match users db !! oid with
              | Some u =>
                  let u' := applyUserUpdate body u in
                  inr (Some (oid, u'), mkStore (<[oid := u']> (users db)) (tasks db))
              | None => inr (None, db)
              end
          | errors => inl (ValidationError errors)
          end
      end
  end.

(** [.select('-password')] *)
Definition withoutPassword (d : string * User) : string * User :=
  (d.1, mkUser (username d.2) (email d.2) "" (role d.2)
               (firstName d.2) (lastName d.2) (isActive d.2)).

(** [adminAuth], in front of every admin-only route. *)
Definition adminAuth {A} (req_user : option ReqUser)
    (next : ReqUser -> Response A * Store) (db : Store) : Response A * Store :=
  match req_user with
  | None => (Failure 401 "Authentication required" [], db)
  | Some user =>
      if negb (String.eqb (user_role user) "admin")
      then (Failure 403 "Admin access required" [], db)
      else next user
  end.

Definition initialStats : gmap string Z :=
  list_to_map [("total", 0); ("pending", 0); ("in-progress", 0);
               ("completed", 0); ("cancelled", 0)].

(** [stats[stat._id] = stat.count; stats.total += stat.count;] *)
Definition addStat (stats : gmap string Z) (stat : string * Z) : gmap string Z :=
  let stats1 := <[stat.1 := stat.2]> stats in
  <["total" := default 0 (stats1 !! "total") + stat.2]> stats1.

(** [Task.aggregate([{ $match: { assignedTo: oid } }, { $group: ... }])] *)
Definition aggregateByStatus (oid : ObjectId) (db : Store) : list (string * Z) :=
  groupCount (map (fun d : string * Task => status d.2)
                  (List.filter (fun d : string * Task => String.eqb (assignedTo d.2) oid)
                               (map_to_list (tasks db)))).

(** [GET /api/users/:id] *)
Definition getUserById (id : string) (db : Store) : Response UserDetails * Store :=
  if negb (isValid id) then (Failure 400 "Invalid user ID" [], db)
  else match User_findById id db with
       | inl _ => (Failure 500 "Server error fetching user" [], db)
       | inr None => (Failure 404 "User not found" [], db)
       | inr (Some user) =>
           match toObjectId id with
           | None => (Failure 500 "Server error fetching user" [], db)
           | Some oid =>
               let stats := fold_left addStat (aggregateByStatus oid db) initialStats in
               (Success 200 (mkUserDetails (withoutPassword user) stats), db)
           end
       end.

(** The [catch] of [updateUser]. *)
Definition updateUser_catch {A} (e : Thrown) : Response A :=
  match e with
  | ValidationError errors => Failure 400 "Validation error" errors
  | _ => Failure 500 "Server error updating user" []
  end.

(** [PUT /api/users/:id] *)
Definition updateUser (req_user : ReqUser) (id : string) (body : UserBody) (db : Store)
  : Response (option (string * User)) * Store :=
  if negb (isValid id) then (Failure 400 "Invalid user ID" [], db)
  else match User_findById id db with
       | inl e => (updateUser_catch e, db)
       | inr None => (Failure 404 "User not found" [], db)
       | inr (Some user) =>
           if String.eqb user.1 (user_id req_user) && isFalse (body_isActive body)
           then (Failure 400 "You cannot deactivate your own account" [], db)
           else if truthy (body_username body)
                   && negb (String.eqb (default "" (body_username body)) (username user.2))
                   && otherUserWith (fun u => String.eqb (username u) (default "" (body_username body)))
                                    user.1 db
           then (Failure 400 "Username is already taken" [], db)
           else if truthy (body_email body)
                   && negb (String.eqb (default "" (body_email body)) (email user.2))
                   && otherUserWith (fun u => String.eqb (email u) (default "" (body_email body)))
                                    user.1 db
           then (Failure 400 "Email is already taken" [], db)
           else match User_findByIdAndUpdate id body db with
                | inl e => (updateUser_catch e, db)
                | inr (updatedUser, db') => (Success 200 (withoutPassword <$> updatedUser), db')
                end
       end.

(** The refusal of [deleteUser], with the number of tasks in it. *)
Definition cannotDelete (userTasks : Z) : string :=
  ("Cannot delete user. They have " ++ pretty userTasks
   ++ " task(s) associated with them. Please reassign or delete those tasks first.")%string.

(** [DELETE /api/users/:id] *)
Definition deleteUser (req_user : ReqUser) (id : string) (db : Store)
  : Response unit * Store :=
  if negb (isValid id) then (Failure 400 "Invalid user ID" [], db)
  else match User_findById id db with
       | inl _ => (Failure 500 "Server error deleting user" [], db)
       | inr None => (Failure 404 "User not found" [], db)
       | inr (Some user) =>
           if String.eqb user.1 (user_id req_user)
           then (Failure 400 "You cannot delete your own account" [], db)
           else match castId id with
                | None => (Failure 500 "Server error deleting user" [], db)
                | Some oid =>
                    let userTasks := countReferencing oid db in
                    if 0 <? userTasks
                    then (Failure 400 (cannotDelete userTasks) [], db)
                    else match User_findByIdAndDelete id db with
                         | inl _ => (Failure 500 "Server error deleting user" [], db)
                         | inr db' => (Success 200 (), db')
                         end
                end
       end.

(** The admin-only routes of [routes/users.js]. *)
Definition route_getUserById (req_user : option ReqUser) (id : string) (db : Store) :=
  adminAuth req_user (fun _ => getUserById id db) db.

Definition route_updateUser (req_user : option ReqUser) (id : string) (body : UserBody)
    (db : Store) :=
  adminAuth req_user (fun user => updateUser user id body db) db.

Definition route_deleteUser (req_user : option ReqUser) (id : string) (db : Store) :=
  adminAuth req_user (fun user => deleteUser user id db) db.

End Server.

(** ** Accounts: tokens, passwords, registration and login

    Token signing and password hashing are library calls; the order of two
    users on [createdAt] is the database's (the stamp is not in the model). *)

Class Services := mkServices {
  (** [jwt.sign({ id }, JWT_SECRET, { expiresIn: '7d' })] at the given time *)
  jwtSign : string -> Z -> string;
  (** [jwt.verify(token, JWT_SECRET)] at the given time: [decoded.id], or the
      [name] of the error thrown *)
  jwtVerify : string -> Z -> string + string;
  (** [bcrypt.hash(password, 12)], with the salt drawn for the call *)
  bcryptHash : string -> string -> string;
  (** [bcrypt.compare(candidate, digest)] *)
  bcryptCompare : string -> string -> bool;
  (** The database's ascending order of two users on [createdAt]. *)
  createdLe : string * User -> string * User -> bool
}.

(** The user object of the responses of the auth and user controllers;
    [isActive] is sent by [getMe] and [createUser] only, as it is stored. *)
Record UserView := mkUserView {
  view_id : ObjectId;
  view_username : string;
  view_email : string;
  view_firstName : option string;
  view_lastName : option string;
  view_role : string;
  view_fullName : string;
  view_isActive : option (option bool)
}.

(** [data: { token, user }] *)
Record AuthData := mkAuthData {
  data_token : string;
  data_user : UserView
}.

(** The request body of [POST /api/auth/register] and [POST /api/users]
    ([role] is read by the latter only). *)
Record NewUserBody := mkNewUserBody {
  new_username : option string;
  new_email : option string;
  new_password : option string;
  new_firstName : option string;
  new_lastName : option string;
  new_role : option string
}.

(** The request body of [POST /api/auth/login]. *)
Record LoginBody := mkLoginBody {
  login_email : option string;
  login_password : option string
}.

(** The request body of [PUT /api/auth/profile]. *)
Record ProfileBody := mkProfileBody {
  profile_firstName : option string;
  profile_lastName : option string;
  profile_username : option string
}.

(** The request body of [POST /api/tasks]. *)
Record NewTaskBody := mkNewTaskBody {
  task_title : option string;
  task_description : option string;
  task_dueDate : option Z;
  task_priority : option string;
  task_assignedTo : option string;
  task_tags : option (list string)
}.

(** The answer of [GET /api/tasks/priority/:priority]. *)
Record PriorityList := mkPriorityList {
  by_priority : string;
  by_tasks : list (string * Task);
  by_count : Z
}.

(** The query string of [GET /api/users]. *)
Record UserQuery := mkUserQuery {
  users_page : option positive;
  users_limit : option positive;
  users_search : option string;
  users_role : option string;
  users_isActive : option string
}.

(** The filter object handed to [User.find] / [User.countDocuments]. *)
Record UserFilter := mkUserFilter {
  ufilter_role : option string;
  ufilter_isActive : option bool;
  ufilter_or : option (string -> bool)
}.

Record UserPagination := mkUserPagination {
  users_currentPage : Z;
  users_totalPages : Z;
  totalUsers : Z;
  users_hasNext : bool;
  users_hasPrev : bool
}.

Record UserList := mkUserList {
  list_users : list (string * User);
  users_pagination : UserPagination
}.

(** An entry of the assignment dropdown. *)
Record AssignableUser := mkAssignableUser {
  assignable_id : ObjectId;
  assignable_username : string;
  assignable_fullName : string;
  assignable_email : string
}.

(** [userSchema.methods.getFullName] *)
Definition getFullName (u : User) : string :=
  if truthy (firstName u) && truthy (lastName u)
  then (default "" (firstName u) ++ " " ++ default "" (lastName u))%string
  else username u.

(** The [password] path of the User schema. *)
Definition password_errors (v : string) : list string :=
  if String.eqb v "" then ["Password is required"]
  else if strlen v <? 6 then ["Password must be at least 6 characters"]
  else [].

Definition with_password (v : string) (u : User) : User :=
  mkUser (username u) (email u) v (role u) (firstName u) (lastName u) (isActive u).

(** [User.findOne(filter)]: the first match of a scan. *)
Definition User_findOne (test : User -> bool) (db : Store) : option (string * User) :=
  List.find (fun d : string * User => test d.2) (map_to_list (users db)).

(** The insertion of a new user: the [_id], [username] and [email] indexes
    are unique. *)
Definition User_insert (oid : ObjectId) (u : User) (db : Store) : Thrown + Store :=
  match users db !! oid with
  | Some _ => inl MongoServerError
  | None =>
      if existsb (fun d : string * User =>
                    String.eqb (username d.2) (username u) || String.eqb (email d.2) (email u))
                 (map_to_list (users db))
      then inl MongoServerError
      else inr (mkStore (<[oid := u]> (users db)) (tasks db))
  end.

(** The insertion of a new task. *)
Definition Task_insert (oid : ObjectId) (t : Task) (db : Store) : Thrown + Store :=
  match tasks db !! oid with
  | Some _ => inl MongoServerError
  | None => inr (mkStore (users db) (<[oid := t]> (tasks db)))
  end.

(** No two stored users share a username or an email. *)
Definition usersUnique (db : Store) : Prop :=
  forall i j (u v : User),
    users db !! i = Some u -> users db !! j = Some v ->
    username u = username v \/ email u = email v -> i = j.

(** [req.user] as the task and user controllers read it. *)
Definition reqUser (d : string * User) : ReqUser := mkReqUser d.1 (role d.2).

Definition matchesUser (q : UserFilter) (d : string * User) : bool :=
  optMatches String.eqb (ufilter_role q) (role d.2)
  && match ufilter_isActive q with
     | Some b => bool_decide (isActive d.2 = Some b)
     | None => true
     end
  && match ufilter_or q with
     | Some re =>
         re (username d.2) || re (email d.2)
         || match firstName d.2 with Some v => re v | None => false end
         || match lastName d.2 with Some v => re v | None => false end
     | None => true
     end.

(** [User.find(query)], in natural order. *)
Definition User_find (q : UserFilter) (db : Store) : list (string * User) :=
  List.filter (matchesUser q) (map_to_list (users db)).

Section Accounts.

Context `{Platform} `{Services}.

(** [generateToken] *)
Definition generateToken (userId : ObjectId) (now : Z) : string := jwtSign userId now.

(** Document validation of a user, as [save()] runs it. *)
Definition userErrors (u : User) : list string :=
  username_errors (username u) ++ email_errors (email u)
  ++ password_errors (password u) ++ role_errors (role u)
  ++ onPath firstName_errors (firstName u) ++ onPath lastName_errors (lastName u).

(** [user.save()] on a new user: validation, then the [pre('save')] hook that
    replaces the password by its hash, then the insertion. *)
Definition User_saveNew (salt : string) (oid : ObjectId) (u : User) (db : Store)
  : Thrown + (string * User) * Store :=
  match userErrors u with
  | [] =>
      let u' := with_password (bcryptHash (password u) salt) u in
      match User_insert oid u' db with
      | inl e => inl e
      | inr db' => inr ((oid, u'), db')
      end
  | errors => inl (ValidationError errors)
  end.

(** The user object of the [register], [login] and [updateProfile] answers. *)
Definition userView (d : string * User) : UserView :=
  mkUserView d.1 (username d.2) (email d.2) (firstName d.2) (lastName d.2)
             (role d.2) (getFullName d.2) None.

(** The user object of the [createUser] and [getMe] answers. *)
Definition userViewActive (d : string * User) : UserView :=
  mkUserView d.1 (username d.2) (email d.2) (firstName d.2) (lastName d.2)
             (role d.2) (getFullName d.2) (Some (isActive d.2)).

(** [User.findOne({ $or: [{ email }, { username }] })] *)
Definition existingUser (username0 email0 : string) (db : Store) : option (string * User) :=
  User_findOne (fun u => String.eqb (email u) email0 || String.eqb (username u) username0) db.

(** [POST /api/auth/register]; [newId] is the [_id] generated for the new
    document and [salt] the salt drawn by the hash. *)
Definition register (now : Z) (newId salt : string) (body : NewUserBody) (db : Store)
  : Response AuthData * Store :=
  if negb (truthy (new_username body)) || negb (truthy (new_email body))
     || negb (truthy (new_password body))
  then (Failure 400 "Username, email, and password are required" [], db)
  else match existingUser (default "" (new_username body)) (default "" (new_email body)) db with
       | Some _ => (Failure 400 "User with this email or username already exists" [], db)
       | None =>
           let user := mkUser (default "" (new_username body)) (default "" (new_email body))
                              (default "" (new_password body)) "user"
                              (new_firstName body) (new_lastName body) (Some true) in
           match User_saveNew salt newId user db with
           | inl (ValidationError errors) => (Failure 400 "Validation error" errors, db)
           | inl _ => (Failure 500 "Server error during registration" [], db)
           | inr (saved, db') =>
               (Success 201 (mkAuthData (generateToken saved.1 now) (userView saved)), db')
           end
       end.

(** [POST /api/auth/login] *)
Definition login (now : Z) (body : LoginBody) (db : Store) : Response AuthData * Store :=
  if negb (truthy (login_email body)) || negb (truthy (login_password body))
  then (Failure 400 "Email and password are required" [], db)
  else match User_findOne (fun u => String.eqb (email u) (default "" (login_email body))) db with
       | None => (Failure 401 "Invalid email or password" [], db)
       | Some user =>
           if negb (isTrue (isActive user.2))
           then (Failure 401 "Account is deactivated. Please contact administrator." [], db)
           else if negb (bcryptCompare (default "" (login_password body)) (password user.2))
           then (Failure 401 "Invalid email or password" [], db)
           else (Success 200 (mkAuthData (generateToken user.1 now) (userView user)), db)
       end.

(** [GET /api/auth/me] *)
Definition getMe (req_user : string * User) (db : Store) : Response UserView * Store :=
  (Success 200 (userViewActive req_user), db).

(** Update validators of [updateProfile], in the order of its [updateData]. *)
Definition profileErrors (body : ProfileBody) : list string :=
  onPath firstName_errors (profile_firstName body)
  ++ onPath lastName_errors (profile_lastName body)
  ++ onPath username_errors (profile_username body).

(** [PUT /api/auth/profile]; a user that is gone by the time of the update
    makes [user._id] throw. *)
Definition updateProfile (req_user : string * User) (body : ProfileBody) (db : Store)
  : Response UserView * Store :=
  let userId := req_user.1 in
  if truthy (profile_username body)
     && negb (String.eqb (default "" (profile_username body)) (username req_user.2))
     && otherUserWith (fun u => String.eqb (username u) (default "" (profile_username body)))
                      userId db
  then (Failure 400 "Username is already taken" [], db)
  else match profileErrors body with
       | [] =>
           match users db !! userId with
           | Some u =>
               let u' := applyUserUpdate
                           (mkUserBody (profile_username body) None (profile_firstName body)
                                       (profile_lastName body) None None) u in
               (Success 200 (userView (userId, u')),
                mkStore (<[userId := u']> (users db)) (tasks db))
           | None => (Failure 500 "Server error updating profile" [], db)
           end
       | errors => (Failure 400 "Validation error" errors, db)
       end.

(** The [auth] middleware: the bearer token is verified and its user loaded
    afresh on every request. *)
Definition auth {A} (authHeader : option string) (now : Z)
    (next : string * User -> Response A * Store) (db : Store) : Response A * Store :=
  match authHeader with
  | Some header =>
      if String.prefix "Bearer " header then
        let token := String.substring 7 (String.length header - 7)%nat header in
        match jwtVerify token now with
        | inl name =>
            if String.eqb name "JsonWebTokenError" then (Failure 401 "Invalid token" [], db)
            else if String.eqb name "TokenExpiredError" then (Failure 401 "Token expired" [], db)
            else (Failure 500 "Server error in authentication" [], db)
        | inr id =>
            match User_findById id db with
            | inl _ => (Failure 500 "Server error in authentication" [], db)
            | inr None => (Failure 401 "Token is valid but user not found" [], db)
            | inr (Some user) =>
                if negb (isTrue (isActive user.2))
                then (Failure 401 "User account is deactivated" [], db)
                else next (withoutPassword user)
            end
        end
      else (Failure 401 "No token provided, authorization denied" [], db)
  | None => (Failure 401 "No token provided, authorization denied" [], db)
  end.

(** [optionalAuth]: the request goes on in every case, with [req.user] set
    when the token verifies and its user is stored and active. *)
Definition optionalAuth {A} (authHeader : option string) (now : Z)
    (next : option (string * User) -> Response A * Store) (db : Store) : Response A * Store :=
  match authHeader with
  | Some header =>
      if String.prefix "Bearer " header then
        let token := String.substring 7 (String.length header - 7)%nat header in
        match jwtVerify token now with
        | inl _ => next None
        | inr id =>
            match User_findById id db with
            | inr (Some user) =>
                if isTrue (isActive user.2) then next (Some (withoutPassword user))
                else next None
            | _ => next None
            end
        end
      else next None
  | None => next None
  end.

(** [req.user] handed to a task or user controller behind [auth]. *)
Definition withAuth {A} (authHeader : option string) (now : Z)
    (handler : ReqUser -> Response A * Store) (db : Store) : Response A * Store :=
  auth authHeader now (fun user => handler (reqUser user)) db.

(** *** Creating and listing tasks *)

(** The assignee of a new task: the creator, or the user named in the body,
    who must exist. *)
Definition newAssignee (user : ReqUser) (body : NewTaskBody) (db : Store)
  : Thrown + option ObjectId :=
  if truthy (task_assignedTo body) then
    match User_findById (default "" (task_assignedTo body)) db with
    | inl e => inl e
    | inr None => inr None
    | inr (Some found) => inr (Some found.1)
    end
  else inr (Some (user_id user)).

(** [task.save()] on a new task: validation, the [pre('save')] hook (the
    default status is not a modified path) and the insertion. *)
Definition Task_saveNew (now : Z) (oid : ObjectId) (t : Task) (db : Store)
  : Thrown + (string * Task) * Store :=
  match taskErrors now t with
  | [] =>
      let d := preSave now (mkDocument oid t
                 ["title"; "description"; "dueDate"; "priority"; "createdBy";
                  "assignedTo"; "tags"]) in
      match Task_insert oid (fields d) db with
      | inl e => inl e
      | inr db' => inr ((oid, fields d), db')
      end
  | errors => inl (ValidationError errors)
  end.

(** [POST /api/tasks]; [newId] is the [_id] generated for the new document. *)
Definition createTask (now : Z) (newId : string) (user : ReqUser) (body : NewTaskBody)
    (db : Store) : Response (string * Task) * Store :=
  if negb (truthy (task_title body)) || negb (truthy (task_description body))
     || isNull (task_dueDate body)
  then (Failure 400 "Title, description, and due date are required" [], db)
  else match newAssignee user body db with
       | inl _ => (Failure 500 "Server error creating task" [], db)
       | inr None => (Failure 400 "Assigned user not found" [], db)
       | inr (Some assignedUser) =>
           let task := mkTask (default "" (task_title body))
                              (default "" (task_description body))
                              (default 0 (task_dueDate body))
                              "pending"
                              (if truthy (task_priority body)
                               then default "" (task_priority body) else "medium")
                              (user_id user) assignedUser None
                              (default [] (task_tags body)) [] in
           match Task_saveNew now newId task db with
           | inl (ValidationError errors) => (Failure 400 "Validation error" errors, db)
           | inl _ => (Failure 500 "Server error creating task" [], db)
           | inr (saved, db') => (Success 201 saved, db')
           end
       end.

(** [.sort({ dueDate: 1 })]: due dates are always set, and compare as numbers. *)
Definition dueDateLe (a b : string * Task) : bool := dueDate a.2 <=? dueDate b.2.

(** [GET /api/tasks/priority/:priority] *)
Definition getTasksByPriority (user : ReqUser) (priority0 : string) (db : Store)
  : Response PriorityList * Store :=
  if negb (includes validPriorities priority0)
  then (Failure 400 ("Invalid priority. Must be one of: "
                       ++ String.concat ", " validPriorities)%string [], db)
  else
    let query := mkTaskFilter (if negb (isAdmin user) then Some (user_id user) else None)
                              None (Some priority0) None in
    let found := sortDocs dueDateLe (Task_find query db) in
    (Success 200 (mkPriorityList priority0 found (Z.of_nat (length found))), db).

(** [taskSchema.statics.getTasksByPriority] *)
Definition Task_getTasksByPriority (priority0 : string) (db : Store) : list (string * Task) :=
  sortDocs dueDateLe (Task_find (mkTaskFilter None None (Some priority0) None) db).

(** [taskSchema.statics.getUserTasks] *)
Definition Task_getUserTasks (userId : ObjectId) (status0 : option string) (db : Store)
  : list (string * Task) :=
  sortDocs dueDateLe
    (Task_find (mkTaskFilter (Some userId) (if truthy status0 then status0 else None) None None)
               db).

(** *** The rest of the user controller *)

(** The filter of [getAllUsers]: [isActive] arrives as text and is compared
    with ['true']. *)
Definition buildUserQuery (q : UserQuery) : Thrown + UserFilter :=
  let byRole := if truthy (users_role q) then users_role q else None in
  let byActive := match users_isActive q with
                  | Some v => Some (String.eqb v "true")
                  | None => None
                  end in
  if truthy (users_search q) then
    match regexI (default "" (users_search q)) with
    | Some re => inr (mkUserFilter byRole byActive (Some re))
    | None => inl MongoServerError
    end
  else inr (mkUserFilter byRole byActive None).

(** [GET /api/users] *)
Definition getAllUsers (q : UserQuery) (db : Store) : Response UserList * Store :=
  let page := Z.pos (default 1%positive (users_page q)) in
  let limit := Z.pos (default 10%positive (users_limit q)) in
  match buildUserQuery q with
  | inl _ => (Failure 500 "Server error fetching users" [], db)
  | inr query =>
      let skip := (page - 1) * limit in
      let found :=
        map withoutPassword
            (take (Z.to_nat limit)
                  (drop (Z.to_nat skip)
                        (sortDocs (fun a b => createdLe b a) (User_find query db)))) in
      let total := Z.of_nat (length (User_find query db)) in
      let totalPages := ceilDiv total limit in
      (Success 200 (mkUserList found
         (mkUserPagination page totalPages total (page <? totalPages) (1 <? page))), db)
  end.

(** [POST /api/users] *)
Definition createUser (newId salt : string) (body : NewUserBody) (db : Store)
  : Response UserView * Store :=
  if negb (truthy (new_username body)) || negb (truthy (new_email body))
     || negb (truthy (new_password body))
  then (Failure 400 "Username, email, and password are required" [], db)
  else match existingUser (default "" (new_username body)) (default "" (new_email body)) db with
       | Some _ => (Failure 400 "User with this email or username already exists" [], db)
       | None =>
           let user := mkUser (default "" (new_username body)) (default "" (new_email body))
                              (default "" (new_password body))
                              (if truthy (new_role body)
                               then default "" (new_role body) else "user")
                              (new_firstName body) (new_lastName body) (Some true) in
           match User_saveNew salt newId user db with
           | inl (ValidationError errors) => (Failure 400 "Validation error" errors, db)
           | inl _ => (Failure 500 "Server error creating user" [], db)
           | inr (saved, db') => (Success 201 (userViewActive saved), db')
           end
       end.

(** [.sort({ username: 1 })]: strings compare byte by byte. *)
Definition usernameLe (a b : string * User) : bool := String.leb (username a.2) (username b.2).

(** [GET /api/users/for-assignment] *)
Definition getUsersForAssignment (db : Store) : Response (list AssignableUser) * Store :=
  let found := sortDocs usernameLe
                 (List.filter (fun d : string * User => isTrue (isActive d.2))
                              (map_to_list (users db))) in
  (Success 200
     (map (fun user : string * User =>
             mkAssignableUser user.1 (username user.2) (getFullName user.2) (email user.2))
          found), db).

(** The routes of [routes/users.js] and [routes/tasks.js], from the
    [Authorization] header on. *)
Definition api_getAllUsers (authHeader : option string) (now : Z) (q : UserQuery) (db : Store) :=
  withAuth authHeader now (fun user => adminAuth (Some user) (fun _ => getAllUsers q db) db) db.

Definition api_createUser (authHeader : option string) (now : Z) (newId salt : string)
    (body : NewUserBody) (db : Store) :=
  withAuth authHeader now
    (fun user => adminAuth (Some user) (fun _ => createUser newId salt body db) db) db.

Definition api_getUserById (authHeader : option string) (now : Z) (id : string) (db : Store) :=
  withAuth authHeader now (fun user => route_getUserById (Some user) id db) db.

Definition api_updateUser (authHeader : option string) (now : Z) (id : string)
    (body : UserBody) (db : Store) :=
  withAuth authHeader now (fun user => route_updateUser (Some user) id body db) db.

Definition api_deleteUser (authHeader : option string) (now : Z) (id : string) (db : Store) :=
  withAuth authHeader now (fun user => route_deleteUser (Some user) id db) db.

Definition api_updateTaskStatus (authHeader : option string) (now : Z) (id newStatus : string)
    (db : Store) :=
  withAuth authHeader now (fun user => updateTaskStatus now user id newStatus db) db.

End Accounts.

(** ** The client: session state, overdue badges, dashboard figures, priority
    board, sort control *)

(** [initialState] and the state of the auth context. *)
Record AuthState := mkAuthState {
  state_user : option UserView;
  state_token : option string;
  isAuthenticated : bool;
  isLoading : bool;
  state_error : option string
}.

Definition initialState : AuthState := mkAuthState None None false true None.

(** The actions the auth context dispatches, with the payloads its dispatch
    sites build; [OTHER] is any action type outside [AUTH_ACTIONS]. *)
Inductive AuthAction : Type :=
| LOGIN_START
| REGISTER_START
| LOGIN_SUCCESS (user : UserView) (token : string)
| REGISTER_SUCCESS (user : UserView) (token : string)
| LOGIN_FAILURE (message : string)
| REGISTER_FAILURE (message : string)
| LOGOUT
| SET_LOADING (loading : bool)
| CLEAR_ERROR
| UPDATE_USER (user : UserView)
| OTHER (type : string).

(** [authReducer] *)
Definition authReducer (state : AuthState) (action : AuthAction) : AuthState :=
  match action with
  | LOGIN_START | REGISTER_START =>
      mkAuthState (state_user state) (state_token state) (isAuthenticated state) true None
  | LOGIN_SUCCESS user token | REGISTER_SUCCESS user token =>
      mkAuthState (Some user) (Some token) true false None
  | LOGIN_FAILURE message | REGISTER_FAILURE message =>
      mkAuthState None None false false (Some message)
  | LOGOUT => mkAuthState None None false false None
  | SET_LOADING loading =>
      mkAuthState (state_user state) (state_token state) (isAuthenticated state) loading
                  (state_error state)
  | CLEAR_ERROR =>
      mkAuthState (state_user state) (state_token state) (isAuthenticated state)
                  (isLoading state) None
  | UPDATE_USER user =>
      mkAuthState (Some user) (state_token state) (isAuthenticated state) (isLoading state)
                  (state_error state)
  | OTHER _ => state
  end.

(** The overdue badge of [TaskDetails] and of a [TaskCard]:
    [new Date(task.dueDate) < new Date() && task.status !== 'completed']. *)
Definition badgeOverdue (now : Z) (task : Task) : bool :=
  (dueDate task <? now) && negb (String.eqb (status task) "completed").

(** [taskStats] of the dashboard; [today] is the local midnight the page
    computes with [today.setHours(0, 0, 0, 0)]. *)
Record DashboardStats := mkDashboardStats {
  stats_total : nat;
  stats_pending : nat;
  stats_inProgress : nat;
  stats_completed : nat;
  stats_overdue : nat
}.

Definition countedOverdue (today : Z) (t : Task) : bool :=
  negb (String.eqb (status t) "completed") && (dueDate t <? today).

Definition dashboardStats (today : Z) (allTasks : list Task) : DashboardStats :=
  mkDashboardStats
    (length allTasks)
    (length (List.filter (fun t => String.eqb (status t) "pending") allTasks))
    (length (List.filter (fun t => String.eqb (status t) "in-progress") allTasks))
    (length (List.filter (fun t => String.eqb (status t) "completed") allTasks))
    (length (List.filter (countedOverdue today) allTasks)).

(** [tasksByPriorityNew] of the priority board. *)
Record PriorityColumns := mkPriorityColumns {
  column_urgent : list Task;
  column_high : list Task;
  column_medium : list Task;
  column_low : list Task
}.

(** The body of the [forEach]: a task that is neither completed nor
    cancelled is pushed onto the column of its priority, when there is one.
    The priorities the server sends are those of the schema; the names that
    an object literal inherits are outside the model. *)
Definition pushByPriority (columns : PriorityColumns) (task : Task) : PriorityColumns :=
  if negb (String.eqb (status task) "completed") && negb (String.eqb (status task) "cancelled")
  then
    if String.eqb (priority task) "urgent" then
      mkPriorityColumns (column_urgent columns ++ [task])%list (column_high columns)
                        (column_medium columns) (column_low columns)
    else if String.eqb (priority task) "high" then
      mkPriorityColumns (column_urgent columns) (column_high columns ++ [task])%list
                        (column_medium columns) (column_low columns)
    else if String.eqb (priority task) "medium" then
      mkPriorityColumns (column_urgent columns) (column_high columns)
                        (column_medium columns ++ [task])%list (column_low columns)
    else if String.eqb (priority task) "low" then
      mkPriorityColumns (column_urgent columns) (column_high columns)
                        (column_medium columns) (column_low columns ++ [task])%list
    else columns
  else columns.

Definition groupByPriority (allTasks : list Task) : PriorityColumns :=
  fold_left pushByPriority allTasks (mkPriorityColumns [] [] [] []).

(** A task the board shows in the column [p]. *)
Definition onBoard (p : string) (task : Task) : bool :=
  negb (String.eqb (status task) "completed") && negb (String.eqb (status task) "cancelled")
  && String.eqb (priority task) p.

(** The sort control of the task page. *)
Record SortState := mkSortState {
  sort_sortBy : string;
  sort_sortOrder : string
}.

(** [handleSortChange] *)
Definition handleSortChange (sortBy : string) (prev : SortState) : SortState :=
  mkSortState sortBy
    (if String.eqb (sort_sortBy prev) sortBy && String.eqb (sort_sortOrder prev) "asc"
     then "desc" else "asc").

(** ** Functional updates of a query *)

Definition with_query_page (p : positive) (q : TaskQuery) : TaskQuery :=
  mkTaskQuery (Some p) (query_limit q) (query_status q) (query_priority q)
              (query_assignedTo q) (query_search q) (query_sortBy q) (query_sortOrder q).

Definition with_query_assignedTo (a : option string) (q : TaskQuery) : TaskQuery :=
  mkTaskQuery (query_page q) (query_limit q) (query_status q) (query_priority q)
              a (query_search q) (query_sortBy q) (query_sortOrder q).

(** The tasks a response of [getTasks] carries. *)
Definition responseTasks (r : Response TaskList * Store) : list (string * Task) :=
  match r.1 with
  | Success _ l => list_tasks l
  | Failure _ _ _ => []
  end.

(** The pagination block a response of [getTasks] carries. *)
Definition list_pagination_of (r : Response TaskList * Store) : option Pagination :=
  match r.1 with
  | Success _ l => Some (list_pagination l)
  | Failure _ _ _ => None
  end.

(** The page numbers [1 .. n]. *)
Definition pageNumbers (n : Z) : list positive :=
  map Pos.of_nat (seq 1 (Z.to_nat n)).

(** Number of stored tasks that satisfy [test]. *)
Definition countTasks (test : Task -> bool) (db : Store) : Z :=
  Z.of_nat (length (List.filter (fun d : string * Task => test d.2) (map_to_list (tasks db)))).

(** Every stored status is one of the four of the schema. *)
Definition statusesValid (db : Store) : Prop :=
  map_Forall (fun _ t => includes validStatuses (status t) = true) (tasks db).

(** Every task refers to stored users, as assignee and as creator. *)
Definition refsResolve (db : Store) : Prop :=
  map_Forall (fun _ t => is_Some (users db !! assignedTo t)
                         /\ is_Some (users db !! createdBy t)) (tasks db).

(** The count a grouping holds for a key, 0 when the key has no entry. *)
Definition groupOf (k : string) (g : list (string * Z)) : Z :=
  match List.find (fun kv : string * Z => String.eqb kv.1 k) g with
  | Some kv => kv.2
  | None => 0
  end.

Definition occurrences (k : string) (l : list string) : Z :=
  Z.of_nat (length (List.filter (String.eqb k) l)).

(** The sum of the counts of a grouping. *)
Definition sumCounts (g : list (string * Z)) : Z := foldr (fun kv acc => kv.2 + acc) 0 g.

(** ** A concrete platform and a small store, for examples *)

Module Example.

Definition isHexDigit (c : Ascii.ascii) : bool :=
  let n := Ascii.nat_of_ascii c in
  ((48 <=? n) && (n <=? 57) || (97 <=? n) && (n <=? 102) || (65 <=? n) && (n <=? 70))%nat.

Definition lowerAscii (c : Ascii.ascii) : Ascii.ascii :=
  let n := Ascii.nat_of_ascii c in
  if ((65 <=? n) && (n <=? 90))%nat then Ascii.ascii_of_nat (n + 32) else c.

Fixpoint lower (s : string) : string :=
  match s with
  | EmptyString => EmptyString
  | String c s' => String (lowerAscii c) (lower s')
  end.

(** 24 hexadecimal digits, of either case. *)
Definition isValid24 (s : string) : bool :=
  (String.length s =? 24)%nat && forallb isHexDigit (String.list_ascii_of_string s).

(** The ObjectId of 24 hexadecimal digits, in its canonical lower-case form. *)
Definition castId24 (s : string) : option string :=
  if isValid24 s then Some (lower s) else None.

Fixpoint contains (p s : string) : bool :=
  String.prefix p s
  || match s with
     | EmptyString => false
     | String _ s' => contains p s'
     end.

(** Patterns are read as literal text, matched without regard to the case
    of letters. *)
Definition literalRegex (p : string) : option (string -> bool) :=
  Some (fun s => contains (lower p) (lower s)).

Definition orderOn (field : string) (a b : string * Task) : bool :=
  if String.eqb field "dueDate" then dueDate a.2 <=? dueDate b.2
  else if String.eqb field "title" then String.leb (title a.2) (title b.2)
  else true.

(** A server on UTC.  The driver's [ObjectId] is a class: called as a
    function, without [new], it throws. *)
Definition platform : Platform :=
  mkPlatform isValid24 castId24 (fun _ => None) literalRegex orderOn (fun _ _ => 0)
             (contains "@").

Definition admin_id : string := "aaaaaaaaaaaaaaaaaaaaaaaa".
Definition alice_id : string := "bbbbbbbbbbbbbbbbbbbbbbbb".
Definition carol_id : string := "cccccccccccccccccccccccc".
Definition dave_id : string := "dddddddddddddddddddddddd".
Definition task1_id : string := "111111111111111111111111".
Definition task2_id : string := "222222222222222222222222".
Definition task3_id : string := "333333333333333333333333".

Definition admin : ReqUser := mkReqUser admin_id "admin".
Definition alice : ReqUser := mkReqUser alice_id "user".
Definition carol : ReqUser := mkReqUser carol_id "user".

Definition account (name role : string) : User :=
  mkUser name (name ++ "@example.org")%string "$2a$12$hash" role None None (Some true).

Definition day (n : Z) : Z := n * MS_PER_DAY.

(** The admin created task 1 for alice, alice created task 2 for herself and
    carol created task 3 for the admin.  Dave has no task. *)
Definition task1 : Task :=
  mkTask "Ship report" "Quarterly numbers" (day 20001) "pending" "high"
         admin_id alice_id None [] [].
Definition task2 : Task :=
  mkTask "Book room" "For the review" (day 20003) "in-progress" "low"
         alice_id alice_id None ["office"] [].
Definition task3 : Task :=
  mkTask "Sign off" "Budget" (day 20002) "pending" "medium"
         carol_id admin_id None [] [].

Definition db0 : Store :=
  mkStore
    (<[admin_id := account "root" "admin"]>
       (<[alice_id := account "alice" "user"]>
          (<[carol_id := account "carol" "user"]>
             (<[dave_id := account "dave" "user"]> ∅))))
    (<[task1_id := task1]> (<[task2_id := task2]> (<[task3_id := task3]> ∅))).

(** The clock during the examples: noon of day 20000. *)
Definition clock : Z := day 20000 + 12 * 60 * 60 * 1000.

Definition hour (n : Z) : Z := n * 60 * 60 * 1000.

(** The same server in New York in the autumn of 2026: on 1 November (day
    20758) at 06:00 UTC, 02:00 local, the clocks go back from four to five
    hours behind UTC.  A local time that occurs twice is read with the
    offset before the change. *)
Definition newYorkTZA (t : Z) (isUTC : bool) : Z :=
  if isUTC then (if t <? day 20758 + hour 6 then - hour 4 else - hour 5)
  else (if t <? day 20758 + hour 2 then - hour 4 else - hour 5).

Definition newYork : Platform :=
  mkPlatform isValid24 castId24 (fun _ => None) literalRegex orderOn newYorkTZA
             (contains "@").

(** Saturday 31 October 2026, noon in New York. *)
Definition saturdayNoon : Z := day 20757 + hour 16.

(** A task due on Monday 2 November 2026 at 09:00 in New York. *)
Definition mondayTask : Task :=
  mkTask "Send invoice" "October hours" (day 20759 + hour 14) "pending" "medium"
         alice_id alice_id None [] [].

(** A task that was due a day before [clock], in a given status. *)
Definition lateTask (s : string) : Task :=
  mkTask "File expenses" "Receipts of the trip" (clock - MS_PER_DAY) s "low"
         alice_id alice_id None [] [].

Definition noBody : TaskBody := mkTaskBody None None None None None None None.
Definition statusBody (s : string) : TaskBody :=
  mkTaskBody None None None None (Some s) None None.
Definition deactivate : UserBody := mkUserBody None None None None None (Some (JBool false)).

(** The same request with the text [false], as a form sends it. *)
Definition deactivateAsText : UserBody :=
  mkUserBody None None None None None (Some (JString "false")).
Definition defaultQuery : TaskQuery := mkTaskQuery None None None None None None None None.
Definition twoPerPage : TaskQuery :=
  mkTaskQuery None (Some 2%positive) None None None None None None.
Definition everyTask : TaskFilter := mkTaskFilter None None None None.

(** *** Toy services

    A token is the user id behind a tag and does not expire; a digest is the
    salt, a dollar sign and the password; users are as old as their ids are
    small. *)

Definition toySign (userId : string) (now : Z) : string := ("jwt." ++ userId)%string.

Definition toyVerify (token : string) (now : Z) : string + string :=
  if String.prefix "jwt." token
  then inr (String.substring 4 (String.length token - 4)%nat token)
  else inl "JsonWebTokenError".

Definition toyHash (password salt : string) : string := (salt ++ "$" ++ password)%string.

Fixpoint afterDollar (digest : string) : string :=
  match digest with
  | EmptyString => EmptyString
  | String c rest => if Ascii.eqb c (Ascii.ascii_of_nat 36) then rest else afterDollar rest
  end.

Definition toyCompare (candidate digest : string) : bool :=
  String.eqb (afterDollar digest) candidate.

Definition olderFirst (a b : string * User) : bool := String.leb a.1 b.1.

Definition services : Services :=
  mkServices toySign toyVerify toyHash toyCompare olderFirst.

Definition erin_id : string := "eeeeeeeeeeeeeeeeeeeeeeee".
Definition task4_id : string := "444444444444444444444444".

(** Erin signs up, and asks for the admin role on the way. *)
Definition erinBody : NewUserBody :=
  mkNewUserBody (Some "erin") (Some "erin@example.org") (Some "s3cret!")
                (Some "Erin") (Some "Moss") (Some "admin").

Definition erinLogin : LoginBody := mkLoginBody (Some "erin@example.org") (Some "s3cret!").

Definition bearer (token : string) : option string := Some ("Bearer " ++ token)%string.

(** The store after the admin has deactivated Dave. *)
Definition db1 : Store :=
  mkStore (<[dave_id := mkUser "dave" "dave@example.org" "$2a$12$hash" "user" None None
                               (Some false)]>
             (users db0))
          (tasks db0).

Definition daveLogin : LoginBody := mkLoginBody (Some "dave@example.org") (Some "2a$12$hash").

(** Carol hands a new task to Dave. *)
Definition offsite : NewTaskBody :=
  mkNewTaskBody (Some "Plan offsite") (Some "Venue and agenda") (Some (day 20005))
                None (Some dave_id) None.

Definition rename (name : string) : ProfileBody := mkProfileBody None None (Some name).

Definition everyUser : UserQuery := mkUserQuery None None None None None.

(** The store after Erin has signed up with the salt [salt]. *)
Definition db2 : Store :=
  mkStore (<[erin_id := mkUser "erin" "erin@example.org" "salt$s3cret!" "user"
                               (Some "Erin") (Some "Moss") (Some true)]>
             (users db0))
          (tasks db0).

(** The task that [offsite] creates for Carol. *)
Definition task4 : Task :=
  mkTask "Plan offsite" "Venue and agenda" (day 20005) "pending" "medium"
         carol_id dave_id None [] [].

End Example.

(** ** Properties *)

Section Properties.

Context `{Platform}.

Implicit Types (db : Store) (user : ReqUser) (id : string) (t : Task) (d : Document).

(** *** Lookups by id *)

Lemma Task_findById_found id oid t db :
  castId id = Some oid -> tasks db !! oid = Some t ->
  Task_findById id db = inr (Some (oid, t)).
Proof. intros Hc Ht. unfold Task_findById. now rewrite Hc, Ht. Qed.

Lemma User_findById_found id oid (u : User) db :
  castId id = Some oid -> users db !! oid = Some u ->
  User_findById id db = inr (Some (oid, u)).
Proof. intros Hc Hu. unfold User_findById. now rewrite Hc, Hu. Qed.

Lemma Task_findById_missing id db :
  Task_findById id db = inr None ->
  exists oid, castId id = Some oid /\ tasks db !! oid = None.
Proof.
  unfold Task_findById. destruct (castId id) as [oid|]; [|discriminate].
  destruct (tasks db !! oid) eqn:E; [discriminate|]. eauto.
Qed.

Lemma eqb_neq_sym (a b : string) : a <> b -> String.eqb b a = false.
Proof. intros Hne. apply String.eqb_neq. congruence. Qed.

(** *** The [pre('save')] hook *)

Lemma preSave_doc_id now d : doc_id (preSave now d) = doc_id d.
Proof. unfold preSave. repeat case_match; reflexivity. Qed.

Lemma preSave_modifiedPaths now d : modifiedPaths (preSave now d) = modifiedPaths d.
Proof. unfold preSave. repeat case_match; reflexivity. Qed.

Lemma preSave_status now d : status (fields (preSave now d)) = status (fields d).
Proof. unfold preSave. repeat case_match; reflexivity. Qed.

Lemma preSave_unmodified now d : isModified "status" d = false -> preSave now d = d.
Proof. intros Hm. unfold preSave. now rewrite Hm. Qed.

(** After the hook has run on a document whose status is dirty,
    [completedAt] is set exactly when the status is [completed]. *)
Lemma preSave_invariant now d :
  isModified "status" d = true ->
  is_Some (completedAt (fields (preSave now d))) <-> status (fields d) = "completed".
Proof.
  intros Hm. unfold preSave. rewrite Hm.
  destruct (String.eqb_spec (status (fields d)) "completed") as [He|Hne]; simpl.
  - destruct (completedAt (fields d)) as [c|] eqn:Hc; simpl.
    + rewrite Hc. split; eauto.
    + split; eauto.
  - split; [intros [? ?]; discriminate | contradiction].
Qed.




(** The hook touches [completedAt] only. *)
Lemma preSave_fields now d :
  exists c, fields (preSave now d) = with_completedAt c (fields d).
Proof.
  unfold preSave. repeat case_match; eauto.
  all: exists (completedAt (fields d)); now destruct (fields d).
Qed.

(** *** [save] *)





(** *** Ill-formed ids and missing records *)

Lemma getTaskById_404 user id db :
  statusCode (getTaskById user id db).1 = 404 ->
  isValid id = true /\ Task_findById id db = inr None.
Proof.
  unfold getTaskById.
  destruct (isValid id); simpl; [|discriminate].
  destruct (Task_findById id db) as [e|[task|]]; simpl; try discriminate; [|auto].
  destruct (viewDenied _ _ _) as [e|[|]]; simpl; discriminate.
Qed.

Lemma updateTask_404 now user id body db :
  statusCode (updateTask now user id body db).1 = 404 ->
  isValid id = true /\ Task_findById id db = inr None.
Proof.
  unfold updateTask.
  destruct (isValid id); simpl; [|discriminate].
  destruct (Task_findById id db) as [e|[task|]]; simpl; [destruct e; discriminate| |auto].
  destruct (editDenied user task.2); simpl; [discriminate|].
  destruct (checkAssignee body task.2 db) as [e|[|]]; simpl;
    [destruct e; discriminate| |discriminate].
  destruct (castUpdate body) as [e|u]; simpl; [destruct e; discriminate|].
  destruct (Task_findByIdAndUpdate now id u db) as [e|[r db']]; simpl;
    [destruct e|]; discriminate.
Qed.

Lemma updateTaskStatus_404 now user id s db :
  statusCode (updateTaskStatus now user id s db).1 = 404 ->
  isValid id = true /\ Task_findById id db = inr None.
Proof.
  unfold updateTaskStatus.
  destruct (isValid id); simpl; [|discriminate].
  destruct (includes validStatuses s); simpl; [|discriminate].
  destruct (Task_findById id db) as [e|[task|]]; simpl; try discriminate; [|auto].
  destruct (editDenied user task.2); simpl; [discriminate|].
  destruct (save _ _ _) as [e|[r db']]; simpl; discriminate.
Qed.

Lemma deleteTask_404 user id db :
  statusCode (deleteTask user id db).1 = 404 ->
  isValid id = true /\ Task_findById id db = inr None.
Proof.
  unfold deleteTask.
  destruct (isValid id); simpl; [|discriminate].
  destruct (Task_findById id db) as [e|[task|]]; simpl; try discriminate; [|auto].
  destruct (deleteDenied user task.2); simpl; [discriminate|].
  destruct (Task_findByIdAndDelete id db) as [e|db']; simpl; discriminate.
Qed.

(** C10. An id that [ObjectId.isValid] refuses is answered 400
    ["Invalid task ID"] by [getTaskById], [updateTask], [updateTaskStatus]
    and [deleteTask] alike, whatever the store holds and without changing it;
    and each of the four answers 404 only for an id that is valid, casts to
    an ObjectId, and has no task stored under it. *)
Theorem invalid_task_id_rejected_before_lookup :
  (forall id, isValid id = false ->
     forall now user body s db,
       getTaskById user id db = (Failure 400 "Invalid task ID" [], db)
       /\ updateTask now user id body db = (Failure 400 "Invalid task ID" [], db)
       /\ updateTaskStatus now user id s db = (Failure 400 "Invalid task ID" [], db)
       /\ deleteTask user id db = (Failure 400 "Invalid task ID" [], db))
  /\ (forall id now user body s db,
        statusCode (getTaskById user id db).1 = 404
        \/ statusCode (updateTask now user id body db).1 = 404
        \/ statusCode (updateTaskStatus now user id s db).1 = 404
        \/ statusCode (deleteTask user id db).1 = 404 ->
        isValid id = true
        /\ exists oid, castId id = Some oid /\ tasks db !! oid = None).
Proof.
  split.
  - intros id Hid now user body s db.
    unfold getTaskById, updateTask, updateTaskStatus, deleteTask.
    rewrite Hid. simpl. auto.
  - intros id now user body s db H404.
    assert (isValid id = true /\ Task_findById id db = inr None) as [Hv Hf].
    { destruct H404 as [H1|[H2|[H3|H4]]].
      - eapply getTaskById_404; eauto.
      - eapply updateTask_404; eauto.
      - eapply updateTaskStatus_404; eauto.
      - eapply deleteTask_404; eauto. }
    split; [assumption|]. now apply Task_findById_missing.
Qed.

(** *** Who may read, edit and delete a task *)

Lemma editDenied_stranger user t :
  isAdmin user = false -> user_id user <> assignedTo t -> user_id user <> createdBy t ->
  editDenied user t = true.
Proof.
  intros Ha Hn1 Hn2. unfold editDenied.
  now rewrite Ha, (eqb_neq_sym _ _ Hn1), (eqb_neq_sym _ _ Hn2).
Qed.

Lemma deleteDenied_not_creator user t :
  isAdmin user = false -> user_id user <> createdBy t -> deleteDenied user t = true.
Proof.
  intros Ha Hn. unfold deleteDenied. now rewrite Ha, (eqb_neq_sym _ _ Hn).
Qed.

Lemma populate_stored db (ref : string) : is_Some (users db !! ref) -> populate db ref = Some ref.
Proof. intros [u Hu]. unfold populate. now rewrite Hu. Qed.

Lemma getTaskById_readonly user id db : (getTaskById user id db).2 = db.
Proof.
  unfold getTaskById.
  destruct (negb (isValid id)); [reflexivity|].
  destruct (Task_findById id db) as [e|[task|]]; try reflexivity.
  destruct (viewDenied _ _ _) as [e|[|]]; reflexivity.
Qed.

Lemma viewDenied_stranger user (assignee creator : option string) :
  isAdmin user = false ->
  assignee <> Some (user_id user) -> creator <> Some (user_id user) ->
  viewDenied user assignee creator <> inr false.
Proof.
  intros Ha Hn1 Hn2. unfold viewDenied. rewrite Ha.
  destruct assignee as [a|]; [|discriminate].
  destruct (String.eqb_spec a (user_id user)) as [->|Hne]; [congruence|].
  destruct creator as [c|]; [|discriminate].
  destruct (String.eqb_spec c (user_id user)) as [->|Hne']; [congruence|discriminate].
Qed.

Lemma populate_ref db (ref : string) (o : string) : populate db ref = Some o -> o = ref.
Proof. unfold populate. destruct (users db !! ref); congruence. Qed.

(** C3. For an actor who is not an admin and a stored task: [deleteTask] is
    answered 403 and changes nothing whenever the actor is not the creator
    (being the assignee does not help).  When the actor is neither creator
    nor assignee, [updateTask] is answered 403 and changes nothing, and
    [getTaskById] does not succeed and changes nothing; its answer is 403
    when the assignee and the creator of the task are stored users (it reads
    the [_id] of both on the populated task). *)
Theorem stranger_is_forbidden now user id oid t body db :
  isAdmin user = false ->
  isValid id = true -> castId id = Some oid -> tasks db !! oid = Some t ->
  user_id user <> createdBy t ->
  deleteTask user id db
    = (Failure 403 "Only task creator or admin can delete tasks" [], db)
  /\ (user_id user <> assignedTo t ->
      updateTask now user id body db = (Failure 403 "Access denied" [], db)
      /\ isSuccess (getTaskById user id db).1 = false
      /\ (getTaskById user id db).2 = db
      /\ (is_Some (users db !! assignedTo t) -> is_Some (users db !! createdBy t) ->
          getTaskById user id db = (Failure 403 "Access denied" [], db))).
Proof.
  intros Ha Hv Hc Ht Hcr. split; [|intros Has; repeat apply conj].
  - unfold deleteTask. rewrite Hv, (Task_findById_found _ _ _ _ Hc Ht). simpl.
    now rewrite deleteDenied_not_creator.
  - unfold updateTask. rewrite Hv, (Task_findById_found _ _ _ _ Hc Ht). simpl.
    now rewrite editDenied_stranger.
  - unfold getTaskById. rewrite Hv, (Task_findById_found _ _ _ _ Hc Ht). cbn [negb snd].
    destruct (viewDenied user (populate db (assignedTo t)) (populate db (createdBy t)))
      as [e|[|]] eqn:Hview; try reflexivity.
    exfalso. revert Hview. apply viewDenied_stranger; [assumption| |].
    + intros Hp. apply populate_ref in Hp. congruence.
    + intros Hp. apply populate_ref in Hp. congruence.
  - apply getTaskById_readonly.
  - intros Hua Huc.
    unfold getTaskById. rewrite Hv, (Task_findById_found _ _ _ _ Hc Ht). simpl.
    rewrite (populate_stored _ _ Hua), (populate_stored _ _ Huc).
    unfold viewDenied.
    now rewrite Ha, (eqb_neq_sym _ _ Has), (eqb_neq_sym _ _ Hcr).
Qed.

(** *** Listing tasks *)

Lemma buildQuery_not_admin user q :
  isAdmin user = false ->
  buildQuery user q
  = match (if truthy (query_search q)
           then match regexI (default "" (query_search q)) with
                | Some re => inr (Some re)
                | None => inl MongoServerError
                end
           else inr None) with
    | inr s => inr (mkTaskFilter (Some (user_id user))
                      (if truthy (query_status q) then query_status q else None)
                      (if truthy (query_priority q) then query_priority q else None) s)
    | inl e => inl e
    end.
Proof. intros Ha. unfold buildQuery. rewrite Ha. reflexivity. Qed.

Lemma buildQuery_page p user q :
  buildQuery user (with_query_page p q) = buildQuery user q.
Proof. reflexivity. Qed.

Lemma Task_find_matches query db (doc : string * Task) :
  doc ∈ Task_find query db -> matches query doc = true.
Proof.
  unfold Task_find. rewrite list_elem_of_In, filter_In. tauto.
Qed.

Lemma matches_assignedTo query (doc : string * Task) a :
  filter_assignedTo query = Some a -> matches query doc = true -> assignedTo doc.2 = a.
Proof.
  unfold matches. intros ->. simpl.
  rewrite !andb_true_iff. intros [[[Ha _] _] _]. now apply String.eqb_eq.
Qed.

Lemma insertDoc_Permutation {A} (le : A -> A -> bool) x (l : list A) :
  insertDoc le x l ≡ₚ x :: l.
Proof.
  induction l as [|y l IH]; simpl; [reflexivity|].
  destruct (le x y); [reflexivity|].
  rewrite IH. apply perm_swap.
Qed.

Lemma sortDocs_Permutation {A} (le : A -> A -> bool) (l : list A) :
  sortDocs le l ≡ₚ l.
Proof.
  induction l as [|x l IH]; simpl; [reflexivity|].
  rewrite insertDoc_Permutation. now rewrite IH.
Qed.

Lemma NoDup_Task_find query db : NoDup (Task_find query db).
Proof.
  apply NoDup_ListNoDup, List.NoDup_filter, NoDup_ListNoDup, NoDup_map_to_list.
Qed.

(** C4. For an actor who is not an admin, the filter of [getTasks] pins
    [assignedTo] to the actor's own id: the [assignedTo] of the query string
    makes no difference to the answer, and every task in the answer is
    assigned to the actor. *)
Theorem list_is_scoped_to_actor user q db :
  isAdmin user = false ->
  (forall query, buildQuery user q = inr query ->
                 filter_assignedTo query = Some (user_id user))
  /\ (forall a1 a2,
        getTasks user (with_query_assignedTo a1 q) db
        = getTasks user (with_query_assignedTo a2 q) db)
  /\ (forall doc : string * Task,
        doc ∈ responseTasks (getTasks user q db) -> assignedTo doc.2 = user_id user).
Proof.
  intros Ha. split; [|split].
  - intros query. rewrite (buildQuery_not_admin _ _ Ha).
    destruct (truthy (query_search q)); [destruct (regexI _)|];
      intros [= <-]; reflexivity.
  - intros a1 a2. unfold getTasks. now rewrite !(buildQuery_not_admin _ _ Ha).
  - intros doc. unfold responseTasks, getTasks.
    destruct (buildQuery user q) as [e|query] eqn:Hq; simpl;
      [intros Hin; now apply elem_of_nil in Hin|].
    intros Hin.
    apply subseteq_take, subseteq_drop in Hin.
    rewrite sortDocs_Permutation in Hin.
    apply Task_find_matches in Hin.
    eapply matches_assignedTo; [|exact Hin].
    rewrite (buildQuery_not_admin _ _ Ha) in Hq.
    destruct (truthy (query_search q)); [destruct (regexI _)|];
      first [discriminate | injection Hq as <-; reflexivity].
Qed.

(** *** Pagination *)

Lemma ceilDiv_spec a b : 0 < b -> b * (ceilDiv a b - 1) < a <= b * ceilDiv a b.
Proof.
  intros Hb. unfold ceilDiv.
  pose proof (Z.div_mod (- a) b ltac:(lia)) as Hdm.
  pose proof (Z.mod_pos_bound (- a) b Hb) as Hm.
  lia.
Qed.

Lemma ceilDiv_nonneg a b : 0 < b -> 0 <= a -> 0 <= ceilDiv a b.
Proof. intros Hb Ha. pose proof (ceilDiv_spec a b Hb). nia. Qed.

(** Consecutive slices of length [n] rebuild a prefix. *)
Lemma slices_concat {A} (n k : nat) (l : list A) :
  concat (map (fun i => take n (drop (i * n) l)) (seq 0 k)) = take (k * n) l.
Proof.
  induction k as [|k IH]; [reflexivity|].
  rewrite seq_S, map_app, concat_app, IH. simpl.
  rewrite app_nil_r, take_take_drop. f_equal. lia.
Qed.

Section Pages.

Variables (user : ReqUser) (q : TaskQuery) (db : Store) (query : TaskFilter).
Hypothesis built : buildQuery user q = inr query.

Let limit : positive := default 10%positive (query_limit q).
Let sorted : list (string * Task) :=
  sortDocs (sortLe (default "dueDate" (query_sortBy q)) (default "asc" (query_sortOrder q)))
           (Task_find query db).

Lemma getTasks_page p :
  getTasks user (with_query_page p q) db
  = (Success 200
       (mkTaskList
          (take (Pos.to_nat limit) (drop ((Pos.to_nat p - 1) * Pos.to_nat limit) sorted))
          (mkPagination (Z.pos p)
             (ceilDiv (Task_countDocuments query db) (Z.pos limit))
             (Task_countDocuments query db)
             (Z.pos p <? ceilDiv (Task_countDocuments query db) (Z.pos limit))
             (1 <? Z.pos p))), db).
Proof.
  unfold getTasks. rewrite buildQuery_page, built.
  change (default 1%positive (query_page (with_query_page p q))) with p.
  change (query_limit (with_query_page p q)) with (query_limit q).
  change (query_sortBy (with_query_page p q)) with (query_sortBy q).
  change (query_sortOrder (with_query_page p q)) with (query_sortOrder q).
  cbv zeta. fold limit. fold sorted.
  replace (Z.to_nat ((Z.pos p - 1) * Z.pos limit))
    with ((Pos.to_nat p - 1) * Pos.to_nat limit)%nat.
  2:{ rewrite Z2Nat.inj_mul by lia. f_equal; lia. }
  replace (Z.to_nat (Z.pos limit)) with (Pos.to_nat limit) by lia.
  reflexivity.
Qed.

Lemma pages_concat :
  concat (map (fun p => responseTasks (getTasks user (with_query_page p q) db))
              (pageNumbers (ceilDiv (Task_countDocuments query db) (Z.pos limit))))
  = sorted.
Proof.
  set (total := Task_countDocuments query db).
  set (k := Z.to_nat (ceilDiv total (Z.pos limit))).
  unfold pageNumbers. fold k.
  rewrite <- seq_shift, !map_map.
  erewrite map_ext.
  2:{ intros i. rewrite getTasks_page. unfold responseTasks. cbn [fst list_tasks].
      rewrite Nat2Pos.id by lia.
      replace (S i - 1)%nat with i by lia. reflexivity. }
  rewrite slices_concat. apply take_ge.
  assert (length sorted = length (Task_find query db)) as Hlen.
  { unfold sorted. now rewrite sortDocs_Permutation. }
  pose proof (ceilDiv_spec total (Z.pos limit) ltac:(lia)) as [_ Hc].
  pose proof (ceilDiv_nonneg total (Z.pos limit) ltac:(lia)
                ltac:(unfold total, Task_countDocuments; lia)) as Hn.
  assert (Z.of_nat (length sorted) = total) as Ht.
  { rewrite Hlen. reflexivity. }
  apply Nat2Z.inj_le. rewrite Nat2Z.inj_mul, Ht. subst k.
  rewrite Z2Nat.id by exact Hn. lia.
Qed.

End Pages.

(** C5. For a query the database accepts, with [limit] and every [page]
    at least 1: [getTasks] answers page [p] with [currentPage = p],
    [totalTasks] the number of matching tasks, [totalPages] the least
    number of pages of [limit] tasks that hold them all
    ([ceil(totalTasks / limit)]), [hasNext = (p < totalPages)],
    [hasPrev = (p > 1)] and at most [limit] tasks; and the pages
    [1 .. totalPages] put one after the other hold each matching task
    exactly once. *)
Theorem pagination_partitions_result user q db query :
  buildQuery user q = inr query ->
  let limit := Z.pos (default 10%positive (query_limit q)) in
  let total := Task_countDocuments query db in
  let pages := ceilDiv total limit in
  let pageOf p := responseTasks (getTasks user (with_query_page p q) db) in
  (forall p,
      getTasks user (with_query_page p q) db
      = (Success 200 (mkTaskList (pageOf p)
           (mkPagination (Z.pos p) pages total (Z.pos p <? pages) (1 <? Z.pos p))), db)
      /\ Z.of_nat (length (pageOf p)) <= limit)
  /\ limit * (pages - 1) < total <= limit * pages
  /\ concat (map pageOf (pageNumbers pages)) ≡ₚ Task_find query db
  /\ NoDup (concat (map pageOf (pageNumbers pages))).
Proof.
  intros Hq limit total pages pageOf.
  assert (concat (map pageOf (pageNumbers pages)) ≡ₚ Task_find query db) as Hperm.
  { unfold pageOf, pages, total, limit. rewrite (pages_concat _ _ _ _ Hq).
    apply sortDocs_Permutation. }
  split; [|split; [|split]].
  - intros p. unfold pageOf. rewrite (getTasks_page _ _ _ _ Hq).
    unfold responseTasks. cbn [fst list_tasks]. split; [reflexivity|].
    rewrite length_take. unfold limit. lia.
  - apply ceilDiv_spec. unfold limit. lia.
  - exact Hperm.
  - rewrite Hperm. apply NoDup_Task_find.
Qed.

(** *** Derived fields *)

Lemma startOfDay_diff a b :
  startOfDay a - startOfDay b
  = (localDay a - localDay b) * MS_PER_DAY - (midnightOffset a - midnightOffset b).
Proof. unfold startOfDay. lia. Qed.

Lemma ceilDiv_mul x b : 0 < b -> ceilDiv (x * b) b = x.
Proof.
  intros Hb. unfold ceilDiv.
  replace (- (x * b)) with ((- x) * b) by lia.
  rewrite Z.div_mul by lia. lia.
Qed.

Lemma ceilDiv_near x r b :
  - b < r < b -> ceilDiv (x * b - r) b = x + (if r <? 0 then 1 else 0).
Proof.
  intros Hr. unfold ceilDiv.
  replace (- (x * b - r)) with (r + (- x) * b) by lia.
  rewrite Z.div_add by lia.
  destruct (Z.ltb_spec r 0) as [Hneg|Hpos].
  - assert (r / b = -1) as ->; [|lia].
    symmetry. apply (Z.div_unique r b (-1) (r + b)); lia.
  - rewrite Z.div_small by lia. lia.
Qed.

(** [daysUntilDue] is the difference of the calendar-day numbers, plus one
    when the offset at the due day's midnight is below the offset at today's
    (the clocks went back in between, or will have gone forward since the
    due day). *)
Lemma daysUntilDue_days now t :
  - MS_PER_DAY < midnightOffset (dueDate t) - midnightOffset now < MS_PER_DAY ->
  daysUntilDue now t
  = localDay (dueDate t) - localDay now
    + (if midnightOffset (dueDate t) - midnightOffset now <? 0 then 1 else 0).
Proof.
  intros Hoffsets. unfold daysUntilDue. cbv zeta. rewrite startOfDay_diff.
  now apply ceilDiv_near.
Qed.

(** Read at time [now], a task is overdue exactly when its status is not
    [completed] and [now] is past its due date, so a completed task is never
    overdue.  Where the same offset is in force at the two midnights,
    [daysUntilDue] is the number of the due date's calendar day minus the
    number of today's, negative exactly when the due day is before today.
    Both are computed from the stored task and the clock when the task is
    serialised. *)
Lemma overdue_and_days_with_steady_offset now id t :
  (isOverdue now t = true <-> status t <> "completed" /\ dueDate t < now)
  /\ (status t = "completed" -> isOverdue now t = false)
  /\ (midnightOffset (dueDate t) = midnightOffset now ->
      daysUntilDue now t = localDay (dueDate t) - localDay now
      /\ (daysUntilDue now t < 0 <-> localDay (dueDate t) < localDay now))
  /\ toJSON now (id, t)
     = mkTaskJSON id t (isOverdue now t) (daysUntilDue now t) (priorityColor t).
Proof.
  split; [|split; [|split]].
  - unfold isOverdue.
    destruct (String.eqb_spec (status t) "completed") as [Hs|Hs]; cbv iota.
    + split; [discriminate|]. intros [Hne _]. contradiction.
    + rewrite Z.ltb_lt. tauto.
  - intros Hs. unfold isOverdue. now rewrite Hs.
  - intros Hsame.
    assert (daysUntilDue now t = localDay (dueDate t) - localDay now) as Hdays.
    { rewrite daysUntilDue_days by (rewrite Hsame; unfold MS_PER_DAY; lia).
      rewrite Hsame, Z.sub_diag. cbn. lia. }
    split; [exact Hdays|]. rewrite Hdays. lia.
  - reflexivity.
Qed.

(** *** Deleting and updating users *)

Lemma filter_length_pos {A} (f : A -> bool) (l : list A) :
  (0 < length (List.filter f l))%nat <-> exists x, x ∈ l /\ f x = true.
Proof.
  split.
  - destruct (List.filter f l) as [|x l'] eqn:E; simpl; [lia|]. intros _.
    assert (In x (List.filter f l)) as Hin by (rewrite E; now left).
    apply filter_In in Hin. exists x. now rewrite list_elem_of_In.
  - intros (x & Hin & Hf).
    assert (In x (List.filter f l)) as Hx.
    { apply filter_In. now rewrite <- list_elem_of_In. }
    destruct (List.filter f l); [destruct Hx|simpl; lia].
Qed.

Lemma countReferencing_pos oid db :
  0 < countReferencing oid db
  <-> exists tid t, tasks db !! tid = Some t /\ (assignedTo t = oid \/ createdBy t = oid).
Proof.
  unfold countReferencing. rewrite <- Nat2Z.inj_0, <- Nat2Z.inj_lt, filter_length_pos.
  split.
  - intros ([tid t] & Hin & Hf). exists tid, t.
    apply elem_of_map_to_list in Hin. split; [assumption|].
    apply orb_true_iff in Hf. simpl in Hf. now rewrite !String.eqb_eq in Hf.
  - intros (tid & t & Ht & Hr). exists (tid, t). split.
    + now apply elem_of_map_to_list.
    + simpl. apply orb_true_iff. now rewrite !String.eqb_eq.
Qed.

Lemma adminAuth_admin {A} req_user (next : ReqUser -> Response A * Store) db :
  isAdmin req_user = true -> adminAuth (Some req_user) next db = next req_user.
Proof. unfold isAdmin, adminAuth. now intros ->. Qed.

Lemma route_deleteUser_referenced req_user id oid (u : User) db :
  isAdmin req_user = true ->
  isValid id = true -> castId id = Some oid -> users db !! oid = Some u ->
  oid <> user_id req_user ->
  (exists tid t, tasks db !! tid = Some t /\ (assignedTo t = oid \/ createdBy t = oid)) ->
  route_deleteUser (Some req_user) id db
  = (Failure 400 (cannotDelete (countReferencing oid db)) [], db).
Proof.
  intros Ha Hv Hc Hu Hne Href.
  unfold route_deleteUser. rewrite (adminAuth_admin _ _ _ Ha).
  unfold deleteUser.
  rewrite Hv, (User_findById_found _ _ _ _ Hc Hu). cbn [negb fst snd].
  rewrite (proj2 (String.eqb_neq _ _) Hne), Hc.
  apply countReferencing_pos in Href.
  now rewrite (proj2 (Z.ltb_lt _ _) Href).
Qed.

(** C7. For an admin and a stored user other than the admin: while some
    task has the user as assignee or as creator, [deleteUser] is answered 400
    and the store, the user included, stays as it is; when no task refers to
    the user, [deleteUser] succeeds and removes that user, and nothing else. *)
Theorem deleteUser_blocked_while_referenced req_user id oid (u : User) db :
  isAdmin req_user = true ->
  isValid id = true -> castId id = Some oid -> users db !! oid = Some u ->
  oid <> user_id req_user ->
  ((exists tid t, tasks db !! tid = Some t /\ (assignedTo t = oid \/ createdBy t = oid)) ->
   route_deleteUser (Some req_user) id db
   = (Failure 400 (cannotDelete (countReferencing oid db)) [], db))
  /\ ((forall tid t, tasks db !! tid = Some t -> assignedTo t <> oid /\ createdBy t <> oid) ->
      route_deleteUser (Some req_user) id db
      = (Success 200 (), mkStore (delete oid (users db)) (tasks db))
      /\ delete oid (users db) !! oid = None).
Proof.
  intros Ha Hv Hc Hu Hne.
  split; [now apply route_deleteUser_referenced with (u := u)|].
  unfold route_deleteUser. rewrite (adminAuth_admin _ _ _ Ha).
  unfold deleteUser.
  rewrite Hv, (User_findById_found _ _ _ _ Hc Hu). cbn [negb fst snd].
  rewrite (proj2 (String.eqb_neq _ _) Hne), Hc.
  - intros Hnone.
    destruct (0 <? countReferencing oid db) eqn:Hcnt.
    + apply Z.ltb_lt, countReferencing_pos in Hcnt.
      destruct Hcnt as (tid & t & Ht & Hr).
      destruct (Hnone _ _ Ht) as [? ?]. tauto.
    + unfold User_findByIdAndDelete. rewrite Hc.
      split; [reflexivity|apply lookup_delete_eq].
Qed.

Lemma isFalse_true (v : option JsValue) : isFalse v = true -> v = Some (JBool false).
Proof. destruct v as [[| [|] | | |]|]; first [discriminate | reflexivity]. Qed.

Lemma updateUser_refusals req_user id body db :
  let r := (updateUser req_user id body db).1 in
  statusCode r <> 401 /\ statusCode r <> 403
  /\ (forall errors, r = Failure 400 "You cannot deactivate your own account" errors ->
      castId id = Some (user_id req_user) /\ body_isActive body = Some (JBool false)).
Proof.
  unfold updateUser.
  destruct (negb (isValid id)); [cbn; repeat split; discriminate|].
  unfold User_findById, User_findByIdAndUpdate.
  destruct (castId id) as [oid|] eqn:Hc; [|cbn; repeat split; discriminate].
  destruct (users db !! oid) as [u|] eqn:Hu; [|cbn; repeat split; discriminate].
  cbn [fmap option_fmap option_map fst snd].
  destruct (String.eqb_spec oid (user_id req_user)) as [->|Hne];
    destruct (isFalse (body_isActive body)) eqn:Hb;
    cbn [andb]; [cbn; repeat split; (discriminate || auto using isFalse_true)|..].
  all: repeat match goal with
         | |- context [if ?c then _ else _] => destruct c
         end.
  all: destruct (castActive body) as [[]|active]; cbn; try (repeat split; discriminate).
  all: destruct (userUpdateErrors body); cbn; repeat split; discriminate.
Qed.

Lemma deleteUser_refusals req_user id db :
  let r := (deleteUser req_user id db).1 in
  statusCode r <> 401 /\ statusCode r <> 403
  /\ (forall errors, r = Failure 400 "You cannot delete your own account" errors ->
      castId id = Some (user_id req_user)).
Proof.
  unfold deleteUser.
  destruct (negb (isValid id)); [cbn; repeat split; discriminate|].
  unfold User_findById, User_findByIdAndDelete.
  destruct (castId id) as [oid|] eqn:Hc; [|cbn; repeat split; discriminate].
  destruct (users db !! oid) as [u|] eqn:Hu; [|cbn; repeat split; discriminate].
  cbn [fmap option_fmap option_map fst snd].
  destruct (String.eqb_spec oid (user_id req_user)) as [->|Hne];
    [cbn; repeat split; (discriminate || auto)|].
  destruct (0 <? countReferencing oid db); cbn; repeat split; discriminate.
Qed.

Lemma getUserById_refusals id db :
  let r := (getUserById id db).1 in
  statusCode r <> 401 /\ statusCode r <> 403.
Proof.
  unfold getUserById.
  destruct (negb (isValid id)); [cbn; split; discriminate|].
  unfold User_findById.
  destruct (castId id) as [oid|] eqn:Hc; [|cbn; split; discriminate].
  destruct (users db !! oid) as [u|] eqn:Hu; [|cbn; split; discriminate].
  cbn [fmap option_fmap option_map].
  destruct (toObjectId id); cbn; split; discriminate.
Qed.

(** An admin who asks [updateUser] to set [isActive] to the Boolean [false]
    on the admin's own record, or [deleteUser] to delete it, is answered 400
    and the store stays as it is.  Apart from that the admin is let through:
    [adminAuth] hands every request of an admin to its controller, no
    user-management controller answers an admin 401 or 403, and the two
    self-protection refusals are given for the admin's own record only. *)
Lemma self_protection_on_the_literal_false req_user :
  isAdmin req_user = true ->
  (forall id (u : User) body db,
      isValid id = true -> castId id = Some (user_id req_user) ->
      users db !! user_id req_user = Some u -> body_isActive body = Some (JBool false) ->
      route_updateUser (Some req_user) id body db
      = (Failure 400 "You cannot deactivate your own account" [], db))
  /\ (forall id (u : User) db,
        isValid id = true -> castId id = Some (user_id req_user) ->
        users db !! user_id req_user = Some u ->
        route_deleteUser (Some req_user) id db
        = (Failure 400 "You cannot delete your own account" [], db))
  /\ (forall A (next : ReqUser -> Response A * Store) db,
        adminAuth (Some req_user) next db = next req_user)
  /\ (forall id body db,
        let r := (route_updateUser (Some req_user) id body db).1 in
        statusCode r <> 401 /\ statusCode r <> 403
        /\ (forall errors,
              r = Failure 400 "You cannot deactivate your own account" errors ->
              castId id = Some (user_id req_user)
              /\ body_isActive body = Some (JBool false)))
  /\ (forall id db,
        let r := (route_deleteUser (Some req_user) id db).1 in
        statusCode r <> 401 /\ statusCode r <> 403
        /\ (forall errors,
              r = Failure 400 "You cannot delete your own account" errors ->
              castId id = Some (user_id req_user)))
  /\ (forall id db,
        let r := (route_getUserById (Some req_user) id db).1 in
        statusCode r <> 401 /\ statusCode r <> 403).
Proof.
  intros Ha. repeat apply conj.
  - intros id u body db Hv Hc Hu Hb.
    unfold route_updateUser. rewrite (adminAuth_admin _ _ _ Ha).
    unfold updateUser. rewrite Hv, (User_findById_found _ _ _ _ Hc Hu), Hb.
    cbn [negb fst]. now rewrite String.eqb_refl.
  - intros id u db Hv Hc Hu.
    unfold route_deleteUser. rewrite (adminAuth_admin _ _ _ Ha).
    unfold deleteUser. rewrite Hv, (User_findById_found _ _ _ _ Hc Hu).
    cbn [negb fst]. now rewrite String.eqb_refl.
  - intros A next db. now apply adminAuth_admin.
  - intros id body db. unfold route_updateUser. rewrite (adminAuth_admin _ _ _ Ha).
    apply updateUser_refusals.
  - intros id db. unfold route_deleteUser. rewrite (adminAuth_admin _ _ _ Ha).
    apply deleteUser_refusals.
  - intros id db. unfold route_getUserById. rewrite (adminAuth_admin _ _ _ Ha).
    apply getUserById_refusals.
Qed.

(** The guard of [updateUser] is [isActive === false].  Every other value
    that the ODM casts, to false or to [null], passes it, also on the
    actor's own record, and is stored. *)
Lemma updateUser_stores_what_the_cast_gives req_user id oid (u : User) v b db :
  isValid id = true -> castId id = Some oid -> users db !! oid = Some u ->
  v <> JBool false -> castBoolean v = inr b ->
  exists u',
    updateUser req_user id (mkUserBody None None None None None (Some v)) db
    = (Success 200 (Some (withoutPassword (oid, u'))),
       mkStore (<[oid := u']> (users db)) (tasks db))
    /\ isActive u' = b.
Proof.
  intros Hv Hc Hu Hne Hcast. unfold updateUser.
  rewrite Hv, (User_findById_found _ _ _ _ Hc Hu). cbn [negb fst snd body_isActive
    body_username body_email truthy andb].
  assert (isFalse (Some v) = false) as ->.
  { destruct v as [| [|] | | |]; try reflexivity. contradiction. }
  rewrite andb_false_r. unfold User_findByIdAndUpdate. rewrite Hc.
  unfold castActive at 1. cbn [body_isActive]. rewrite Hcast.
  cbn [userUpdateErrors body_username body_email body_firstName body_lastName body_role
       onPath app]. rewrite Hu.
  eexists. split; [reflexivity|].
  unfold applyUserUpdate, castActive. cbn [body_isActive isActive]. now rewrite Hcast.
Qed.

(** *** Task statistics of a user *)

Lemma groupOf_bump k k' g :
  groupOf k (bump k' g) = groupOf k g + (if String.eqb k' k then 1 else 0).
Proof.
  induction g as [|[k1 n1] g IH]; unfold groupOf in *; simpl.
  - destruct (String.eqb k' k); reflexivity.
  - destruct (String.eqb_spec k1 k') as [->|Hne]; simpl.
    + destruct (String.eqb k' k); simpl; lia.
    + destruct (String.eqb_spec k1 k) as [->|Hne']; simpl.
      * rewrite (proj2 (String.eqb_neq _ _)) by congruence. lia.
      * exact IH.
Qed.

Lemma groupOf_fold k l g :
  groupOf k (fold_left (fun acc k' => bump k' acc) l g) = groupOf k g + occurrences k l.
Proof.
  revert g. induction l as [|k' l IH]; intros g; simpl.
  - unfold occurrences. simpl. lia.
  - rewrite IH, groupOf_bump. unfold occurrences. simpl.
    rewrite (String.eqb_sym k k'). destruct (String.eqb k' k); simpl; lia.
Qed.

Lemma bump_keys_in k g : k ∈ (g.*1) -> (bump k g).*1 = g.*1.
Proof.
  induction g as [|[k1 n1] g IH]; cbn [bump fmap list_fmap fst]; intros Hin.
  - now apply elem_of_nil in Hin.
  - destruct (String.eqb_spec k1 k) as [->|Hne]; [reflexivity|].
    apply elem_of_cons in Hin. destruct Hin as [->|Hin]; [contradiction|].
    cbn [fmap list_fmap fst]. f_equal. now apply IH.
Qed.

Lemma bump_keys_notin k g : k ∉ (g.*1) -> (bump k g).*1 = (g.*1 ++ [k])%list.
Proof.
  induction g as [|[k1 n1] g IH]; cbn [bump fmap list_fmap fst]; intros Hin.
  - reflexivity.
  - apply not_elem_of_cons in Hin. destruct Hin as [Hne Hin].
    rewrite (proj2 (String.eqb_neq _ _)) by congruence.
    cbn [fmap list_fmap fst app]. f_equal. now apply IH.
Qed.

Lemma bump_NoDup k g : NoDup (g.*1) -> NoDup (bump k g).*1.
Proof.
  intros Hg. destruct (decide (k ∈ (g.*1))) as [Hin|Hin].
  - now rewrite bump_keys_in.
  - rewrite bump_keys_notin by assumption.
    apply NoDup_app. split; [assumption|]. split.
    + intros x Hx Hk. apply list_elem_of_singleton in Hk. now subst.
    + apply NoDup_singleton.
Qed.

Lemma bump_keys_incl k g x : x ∈ ((bump k g).*1) -> x = k \/ x ∈ (g.*1).
Proof.
  destruct (decide (k ∈ (g.*1))) as [Hin|Hin].
  - rewrite bump_keys_in by assumption. auto.
  - rewrite bump_keys_notin by assumption.
    rewrite elem_of_app, list_elem_of_singleton. tauto.
Qed.

Lemma groupCount_NoDup l : NoDup (groupCount l).*1.
Proof.
  unfold groupCount.
  assert (forall g, NoDup (g.*1) -> NoDup (fold_left (fun acc k => bump k acc) l g).*1) as Hgen.
  { induction l as [|k l IH]; intros g Hg; simpl; [assumption|].
    now apply IH, bump_NoDup. }
  apply Hgen, NoDup_nil_2.
Qed.

Lemma groupCount_keys l x : x ∈ ((groupCount l).*1) -> x ∈ l.
Proof.
  unfold groupCount.
  assert (forall g, x ∈ (fold_left (fun acc k => bump k acc) l g).*1 -> x ∈ l \/ x ∈ (g.*1))
    as Hgen.
  { induction l as [|k l IH]; intros g Hx; simpl in *; [auto|].
    destruct (IH _ Hx) as [Hl|Hb].
    - left. now apply list_elem_of_further.
    - destruct (bump_keys_incl _ _ _ Hb) as [->|Hg]; [left; apply list_elem_of_here|auto]. }
  intros Hx. destruct (Hgen _ Hx) as [Hl|Hnil]; [assumption|].
  now apply elem_of_nil in Hnil.
Qed.

Lemma sumCounts_bump k g : sumCounts (bump k g) = sumCounts g + 1.
Proof.
  induction g as [|[k1 n1] g IH]; simpl; [reflexivity|].
  destruct (String.eqb k1 k); simpl; lia.
Qed.

Lemma sumCounts_groupCount l : sumCounts (groupCount l) = Z.of_nat (length l).
Proof.
  unfold groupCount.
  assert (forall g, sumCounts (fold_left (fun acc k => bump k acc) l g)
                    = sumCounts g + Z.of_nat (length l)) as Hgen.
  { induction l as [|k l IH]; intros g; simpl length; simpl fold_left; [lia|].
    rewrite IH, sumCounts_bump. lia. }
  rewrite Hgen. reflexivity.
Qed.

(** The loop over the groups: [total] accumulates, each key takes its count. *)
Lemma addStat_total g stats n :
  "total" ∉ (g.*1) -> stats !! "total" = Some n ->
  fold_left addStat g stats !! "total" = Some (n + sumCounts g).
Proof.
  revert stats n.
  induction g as [|[k1 n1] g IH]; intros stats n Hk Hn; cbn [fold_left sumCounts foldr].
  - rewrite Hn. f_equal. lia.
  - cbn [fmap list_fmap fst] in Hk. apply not_elem_of_cons in Hk. destruct Hk as [Hne Hk].
    rewrite (IH _ (n + n1) Hk).
    + f_equal. unfold sumCounts. cbn [snd]. lia.
    + unfold addStat. cbn [fst snd]. rewrite lookup_insert_eq.
      rewrite lookup_insert_ne by congruence. now rewrite Hn.
Qed.

Lemma addStat_other g stats k :
  k <> "total" -> k ∉ (g.*1) -> fold_left addStat g stats !! k = stats !! k.
Proof.
  intros Hk. revert stats.
  induction g as [|[k1 n1] g IH]; intros stats Hg; cbn [fold_left]; [reflexivity|].
  cbn [fmap list_fmap fst] in Hg. apply not_elem_of_cons in Hg. destruct Hg as [Hne Hg].
  rewrite (IH _ Hg). unfold addStat. cbn [fst snd].
  rewrite lookup_insert_ne by congruence. now rewrite lookup_insert_ne by congruence.
Qed.

Lemma addStat_key g stats k :
  k <> "total" -> NoDup (g.*1) -> k ∈ (g.*1) ->
  fold_left addStat g stats !! k = Some (groupOf k g).
Proof.
  intros Hk. revert stats.
  induction g as [|[k1 n1] g IH]; intros stats Hg Hin; cbn [fold_left].
  - now apply elem_of_nil in Hin.
  - cbn [fmap list_fmap fst] in Hg, Hin.
    apply NoDup_cons in Hg. destruct Hg as [Hfresh Hg].
    unfold groupOf. cbn [List.find fst snd].
    destruct (String.eqb_spec k1 k) as [->|Hne].
    + rewrite addStat_other by assumption. unfold addStat. cbn [fst snd].
      rewrite lookup_insert_ne by congruence. now rewrite lookup_insert_eq.
    + apply elem_of_cons in Hin. destruct Hin as [->|Hin]; [contradiction|].
      now apply IH.
Qed.

Lemma groupOf_absent k g : k ∉ (g.*1) -> groupOf k g = 0.
Proof.
  intros Hk. unfold groupOf.
  destruct (List.find _ g) as [[k1 n1]|] eqn:Hf; [|reflexivity].
  apply find_some in Hf. destruct Hf as [Hin Heq]. simpl in Heq.
  apply String.eqb_eq in Heq. subst k1. exfalso. apply Hk.
  apply list_elem_of_fmap. exists (k, n1). split; [reflexivity|].
  now apply list_elem_of_In.
Qed.

Lemma groupOf_elem k n g : NoDup (g.*1) -> (k, n) ∈ g -> groupOf k g = n.
Proof.
  induction g as [|[k1 n1] g IH]; intros Hg Hin.
  - now apply elem_of_nil in Hin.
  - cbn [fmap list_fmap fst] in Hg. apply NoDup_cons in Hg. destruct Hg as [Hfresh Hg].
    unfold groupOf. cbn [List.find fst snd].
    apply elem_of_cons in Hin. destruct Hin as [[= -> ->]|Hin].
    + now rewrite String.eqb_refl.
    + destruct (String.eqb_spec k1 k) as [->|Hne]; [|now apply IH].
      exfalso. apply Hfresh. apply list_elem_of_fmap. now exists (k, n).
Qed.

Lemma sumCounts_Permutation g g' : g ≡ₚ g' -> sumCounts g = sumCounts g'.
Proof.
  induction 1 as [|x l l' _ IH|x y l|l l' l'' _ IH1 _ IH2]; unfold sumCounts in *;
    cbn [foldr]; lia.
Qed.

(** The order in which the groups reach the loop of [getUserById] does not
    matter, when no group is called [total]. *)
Lemma addStat_order_irrelevant g g' stats n :
  NoDup (g.*1) -> "total" ∉ (g.*1) -> stats !! "total" = Some n -> g ≡ₚ g' ->
  fold_left addStat g stats = fold_left addStat g' stats.
Proof.
  intros Hnd Htot Hn Hperm.
  assert (g.*1 ≡ₚ g'.*1) as Hkeys by now apply fmap_Permutation.
  assert (NoDup (g'.*1)) as Hnd' by now rewrite <- Hkeys.
  assert ("total" ∉ (g'.*1)) as Htot' by now rewrite <- Hkeys.
  apply map_eq. intros k.
  destruct (decide (k = "total")) as [->|Hk].
  - rewrite (addStat_total _ _ _ Htot Hn), (addStat_total _ _ _ Htot' Hn).
    now rewrite (sumCounts_Permutation _ _ Hperm).
  - destruct (decide (k ∈ (g.*1))) as [Hin|Hin].
    + rewrite addStat_key by assumption.
      rewrite addStat_key by (try assumption; now rewrite <- Hkeys).
      f_equal. apply list_elem_of_fmap in Hin. destruct Hin as ([k1 n1] & -> & Hin).
      cbn [fst]. rewrite (groupOf_elem _ _ _ Hnd Hin).
      symmetry. apply groupOf_elem; [assumption|]. now rewrite <- Hperm.
    + rewrite addStat_other by assumption.
      rewrite addStat_other by (try assumption; now rewrite <- Hkeys).
      reflexivity.
Qed.

Lemma occurrences_of_assigned s oid (docs : list (string * Task)) :
  occurrences s (map (fun doc : string * Task => status doc.2)
                     (List.filter (fun doc : string * Task => String.eqb (assignedTo doc.2) oid)
                                  docs))
  = Z.of_nat (length (List.filter
      (fun doc : string * Task =>
         String.eqb (assignedTo doc.2) oid && String.eqb (status doc.2) s) docs)).
Proof.
  unfold occurrences. f_equal.
  induction docs as [|doc docs IH]; [reflexivity|]. cbn [List.filter].
  destruct (String.eqb (assignedTo doc.2) oid); cbn [andb map List.filter]; [|exact IH].
  rewrite (String.eqb_sym s). destruct (String.eqb (status doc.2) s); cbn [length]; lia.
Qed.

Lemma includes_validStatuses s :
  includes validStatuses s = true ->
  s = "pending" \/ s = "in-progress" \/ s = "completed" \/ s = "cancelled".
Proof.
  unfold includes, validStatuses. cbn [existsb].
  rewrite !orb_true_iff, !String.eqb_eq. intuition discriminate.
Qed.

Lemma validStatus_not_total s : includes validStatuses s = true -> s <> "total".
Proof.
  intros Hs ->. apply includes_validStatuses in Hs.
  destruct Hs as [Hs|[Hs|[Hs|Hs]]]; discriminate.
Qed.

Lemma initialStats_status s : includes validStatuses s = true -> initialStats !! s = Some 0.
Proof.
  intros Hs. apply includes_validStatuses in Hs.
  destruct Hs as [-> | [-> | [-> | ->]]]; reflexivity.
Qed.

(** The statistics [getUserById] computes, for a store whose statuses are
    all among the four of the schema. *)
Lemma taskStats_counts oid db :
  statusesValid db ->
  let stats := fold_left addStat (aggregateByStatus oid db) initialStats in
  stats !! "total" = Some (countTasks (fun t => String.eqb (assignedTo t) oid) db)
  /\ (forall s, includes validStatuses s = true ->
                stats !! s
                = Some (countTasks (fun t => String.eqb (assignedTo t) oid
                                             && String.eqb (status t) s) db)).
Proof.
  intros Hvalid stats. subst stats. unfold aggregateByStatus, countTasks.
  set (assigned := List.filter (fun doc : string * Task => String.eqb (assignedTo doc.2) oid)
                               (map_to_list (tasks db))).
  set (l := map (fun doc : string * Task => status doc.2) assigned).
  assert (forall k, k ∈ l -> includes validStatuses k = true) as Hl.
  { intros k Hk. apply list_elem_of_fmap in Hk. destruct Hk as ([tid t] & -> & Hin).
    unfold assigned in Hin. rewrite list_elem_of_In, filter_In in Hin.
    destruct Hin as [Hin _]. rewrite <- list_elem_of_In in Hin.
    apply elem_of_map_to_list in Hin. exact (Hvalid _ _ Hin). }
  split.
  - rewrite (addStat_total _ _ 0).
    + rewrite sumCounts_groupCount. unfold l. rewrite length_map. reflexivity.
    + intros Hin. apply groupCount_keys, Hl in Hin. now apply validStatus_not_total in Hin.
    + reflexivity.
  - intros s Hs.
    rewrite <- occurrences_of_assigned. fold assigned. fold l.
    assert (groupOf s (groupCount l) = occurrences s l) as Hg.
    { unfold groupCount. rewrite groupOf_fold. unfold groupOf. cbn. lia. }
    destruct (decide (s ∈ ((groupCount l).*1))) as [Hin|Hin].
    + rewrite addStat_key; [now rewrite Hg| |apply groupCount_NoDup|assumption].
      now apply validStatus_not_total.
    + rewrite addStat_other; [|now apply validStatus_not_total|assumption].
      rewrite <- Hg, groupOf_absent by assumption. now apply initialStats_status.
Qed.

Lemma countTasks_none test db :
  (forall tid t, tasks db !! tid = Some t -> test t = false) -> countTasks test db = 0.
Proof.
  intros Hnone. unfold countTasks.
  destruct (List.filter _ _) as [|[tid t] l] eqn:E; [reflexivity|].
  assert (In (tid, t) (List.filter (fun doc : string * Task => test doc.2)
                                   (map_to_list (tasks db)))) as Hin
      by (rewrite E; now left).
  apply filter_In in Hin. destruct Hin as [Hin Ht].
  rewrite <- list_elem_of_In in Hin. apply elem_of_map_to_list in Hin.
  cbn in Ht. rewrite (Hnone _ _ Hin) in Ht. discriminate.
Qed.

(** Where the call [ObjectId(id)] returns (the driver's constructor still
    being callable as a function), for an admin, a stored user and a store
    whose statuses are all among the four of the schema: [getUserById]
    answers with [taskStats] whose [total] is the number of tasks assigned to
    the user and whose entry for each status is the number of tasks assigned
    to the user in that status; tasks the user only created are not counted.
    So for a user (other than the admin) who is assigned no task but created
    one, [total] is 0 and [deleteUser] is still refused. *)
Lemma taskStats_where_the_call_returns req_user id oid (u : User) db :
  isAdmin req_user = true ->
  isValid id = true -> castId id = Some oid -> toObjectId id = Some oid ->
  users db !! oid = Some u ->
  (forall tid t, tasks db !! tid = Some t -> includes validStatuses (status t) = true) ->
  exists stats,
    route_getUserById (Some req_user) id db
    = (Success 200 (mkUserDetails (withoutPassword (oid, u)) stats), db)
    /\ stats !! "total" = Some (countTasks (fun t => String.eqb (assignedTo t) oid) db)
    /\ (forall s, includes validStatuses s = true ->
                  stats !! s
                  = Some (countTasks (fun t => String.eqb (assignedTo t) oid
                                               && String.eqb (status t) s) db))
    /\ (oid <> user_id req_user ->
        (forall tid t, tasks db !! tid = Some t -> assignedTo t <> oid) ->
        (exists tid t, tasks db !! tid = Some t /\ createdBy t = oid) ->
        stats !! "total" = Some 0
        /\ route_deleteUser (Some req_user) id db
           = (Failure 400 (cannotDelete (countReferencing oid db)) [], db)).
Proof.
  intros Ha Hv Hc Ho Hu Hvalid.
  destruct (taskStats_counts oid db Hvalid) as [Htotal Hstatus].
  eexists. split; [|split; [exact Htotal|split; [exact Hstatus|]]].
  - unfold route_getUserById. rewrite (adminAuth_admin _ _ _ Ha).
    unfold getUserById. rewrite Hv, (User_findById_found _ _ _ _ Hc Hu), Ho. reflexivity.
  - intros Hne Hnone (tid & t & Ht & Hcr). split.
    + rewrite Htotal. f_equal. apply countTasks_none.
      intros tid' t' Ht'. apply String.eqb_neq. eauto.
    + apply route_deleteUser_referenced with (oid := oid) (u := u); eauto 6.
Qed.

(** Where the call throws, as it does for a class, no stored user can be
    fetched: the request ends in the [catch]. *)
Lemma getUserById_where_the_call_throws id oid (u : User) db :
  isValid id = true -> castId id = Some oid -> users db !! oid = Some u ->
  toObjectId id = None ->
  getUserById id db = (Failure 500 "Server error fetching user" [], db).
Proof.
  intros Hv Hc Hu Ho. unfold getUserById.
  now rewrite Hv, (User_findById_found _ _ _ _ Hc Hu), Ho.
Qed.

(** *** Statuses stay within the enumeration *)

Lemma status_errors_nil v : status_errors v = [] -> includes validStatuses v = true.
Proof. unfold status_errors. destruct (includes validStatuses v); [reflexivity|discriminate]. Qed.

Ltac split_errors :=
  repeat match goal with
         | H : (_ ++ _)%list = [] |- _ => apply app_eq_nil in H; destruct H
         end.

Lemma updateErrors_status now u v :
  updateErrors now u = [] -> set_statusTo u = Some v -> includes validStatuses v = true.
Proof.
  unfold updateErrors. intros He Hs. rewrite Hs in He. cbn [onPath] in He.
  split_errors. now apply status_errors_nil.
Qed.

Lemma taskErrors_status now t :
  taskErrors now t = [] -> includes validStatuses (status t) = true.
Proof.
  unfold taskErrors. intros He. split_errors. now apply status_errors_nil.
Qed.

Lemma updateTask_statusesValid now user id body db :
  statusesValid db -> statusesValid (updateTask now user id body db).2.
Proof.
  intros Hvalid. unfold updateTask.
  destruct (negb (isValid id)); [exact Hvalid|].
  destruct (Task_findById id db) as [e|[task|]]; [exact Hvalid| |exact Hvalid].
  destruct (editDenied user task.2); [exact Hvalid|].
  destruct (checkAssignee body task.2 db) as [e|[|]]; [exact Hvalid| |exact Hvalid].
  destruct (castUpdate body) as [e|u]; [exact Hvalid|].
  unfold Task_findByIdAndUpdate.
  destruct (castId id) as [oid|]; [|exact Hvalid].
  destruct (updateErrors now u) eqn:He; [|exact Hvalid].
  destruct (tasks db !! oid) as [t|] eqn:Ht; [|exact Hvalid].
  cbn [snd]. unfold statusesValid. cbn [tasks].
  apply map_Forall_insert_2; [|exact Hvalid].
  cbn [applyUpdate status].
  destruct (set_statusTo u) as [v|] eqn:Hs; unfold default; cbn [from_option].
  - apply (updateErrors_status _ _ _ He Hs).
  - exact (Hvalid _ _ Ht).
Qed.

Lemma updateTaskStatus_statusesValid now user id s db :
  statusesValid db -> statusesValid (updateTaskStatus now user id s db).2.
Proof.
  intros Hvalid. unfold updateTaskStatus.
  destruct (negb (isValid id)); [exact Hvalid|].
  destruct (includes validStatuses s) eqn:Hs; cbn [negb]; [|exact Hvalid].
  destruct (Task_findById id db) as [e|[found|]]; [exact Hvalid| |exact Hvalid].
  destruct (editDenied user found.2); [exact Hvalid|].
  unfold save.
  destruct (taskErrors now (fields (set_status s (hydrate found)))) eqn:He; [|exact Hvalid].
  rewrite preSave_modifiedPaths, preSave_doc_id.
  destruct (modifiedPaths (set_status s (hydrate found))); [exact Hvalid|].
  cbn [snd]. unfold statusesValid. cbn [tasks].
  apply map_Forall_insert_2; [|exact Hvalid].
  rewrite preSave_status. exact (taskErrors_status _ _ He).
Qed.

Lemma deleteTask_statusesValid user id db :
  statusesValid db -> statusesValid (deleteTask user id db).2.
Proof.
  intros Hvalid. unfold deleteTask.
  destruct (negb (isValid id)); [exact Hvalid|].
  destruct (Task_findById id db) as [e|[task|]]; [exact Hvalid| |exact Hvalid].
  destruct (deleteDenied user task.2); [exact Hvalid|].
  unfold Task_findByIdAndDelete.
  destruct (castId id) as [oid|]; [|exact Hvalid].
  cbn [snd]. unfold statusesValid. cbn [tasks]. now apply map_Forall_delete.
Qed.

(** *** A status change, through [updateTaskStatus] and through [updateTask] *)

(** X1. A successful [updateTaskStatus] that changes the status of a task
    leaves it stored with the new status and with [completedAt] set exactly
    when that status is [completed]. *)
Theorem updateTaskStatus_restores_completedAt now user id oid t s db :
  castId id = Some oid -> tasks db !! oid = Some t -> status t <> s ->
  isSuccess (updateTaskStatus now user id s db).1 = true ->
  exists t',
    tasks (updateTaskStatus now user id s db).2 !! oid = Some t'
    /\ status t' = s
    /\ (is_Some (completedAt t') <-> s = "completed").
Proof.
  intros Hc Ht Hne. unfold updateTaskStatus.
  destruct (negb (isValid id)); [discriminate|].
  destruct (negb (includes validStatuses s)); [discriminate|].
  rewrite (Task_findById_found _ _ _ _ Hc Ht). cbn [snd].
  destruct (editDenied user t); [discriminate|].
  assert (set_status s (hydrate (oid, t))
          = mkDocument oid (with_status s t) ["status"]) as Hset.
  { unfold set_status, hydrate. cbn [fields fst snd doc_id modifiedPaths].
    now rewrite (proj2 (String.eqb_neq _ _) Hne). }
  rewrite Hset. unfold save. cbn [fields].
  destruct (taskErrors now (with_status s t)); [|discriminate].
  rewrite preSave_modifiedPaths, preSave_doc_id. cbn [modifiedPaths doc_id snd tasks].
  intros _. eexists. split; [apply lookup_insert_eq|]. split.
  - now rewrite preSave_status.
  - now rewrite preSave_invariant.
Qed.

(** X2. [updateTask] never touches [completedAt]: whatever the update holds,
    its status included, the task is stored afterwards with the
    [completedAt] it had before. *)
Theorem updateTask_keeps_completedAt now user id oid t body db t' :
  castId id = Some oid -> tasks db !! oid = Some t ->
  tasks (updateTask now user id body db).2 !! oid = Some t' ->
  completedAt t' = completedAt t.
Proof.
  intros Hc Ht. unfold updateTask.
  destruct (negb (isValid id)); [cbn [snd]; congruence|].
  rewrite (Task_findById_found _ _ _ _ Hc Ht). cbn [fst snd].
  destruct (editDenied user t); [cbn [snd]; congruence|].
  destruct (checkAssignee body t db) as [e|[|]]; [cbn [snd]; congruence| |cbn [snd]; congruence].
  destruct (castUpdate body) as [e|u]; [cbn [snd]; congruence|].
  unfold Task_findByIdAndUpdate. rewrite Hc, Ht.
  destruct (updateErrors now u); [|cbn [snd]; congruence].
  cbn [snd tasks]. rewrite lookup_insert_eq. intros [= <-]. reflexivity.
Qed.

(** *** References to users stay resolved *)

Lemma refsResolve_same_users db db' :
  (forall o, is_Some (users db !! o) -> is_Some (users db' !! o)) ->
  tasks db' = tasks db -> refsResolve db -> refsResolve db'.
Proof.
  intros Hu Ht Hr. unfold refsResolve. rewrite Ht.
  intros tid t Hlook. destruct (Hr tid t Hlook) as [Ha Hc]. auto.
Qed.

Lemma updateTaskStatus_refsResolve now user id s db :
  refsResolve db -> refsResolve (updateTaskStatus now user id s db).2.
Proof.
  intros Hr. unfold updateTaskStatus.
  destruct (negb (isValid id)); [exact Hr|].
  destruct (negb (includes validStatuses s)); [exact Hr|].
  unfold Task_findById.
  destruct (castId id) as [oid|]; [|exact Hr].
  destruct (tasks db !! oid) as [t|] eqn:Ht; [|exact Hr]. cbn [fmap option_fmap option_map snd].
  destruct (editDenied user t); [exact Hr|].
  unfold save.
  destruct (taskErrors now _); [|exact Hr].
  rewrite preSave_modifiedPaths, preSave_doc_id.
  destruct (modifiedPaths _); [exact Hr|].
  cbn [snd]. unfold refsResolve. cbn [tasks users].
  apply map_Forall_insert_2; [|exact Hr].
  destruct (preSave_fields now (set_status s (hydrate (oid, t)))) as [c ->].
  cbn [with_completedAt assignedTo createdBy].
  unfold set_status, hydrate. cbn [fields fst snd].
  destruct (String.eqb (status t) s); cbn [fields with_status assignedTo createdBy];
    exact (Hr _ _ Ht).
Qed.

Lemma deleteTask_refsResolve user id db :
  refsResolve db -> refsResolve (deleteTask user id db).2.
Proof.
  intros Hr. unfold deleteTask.
  destruct (negb (isValid id)); [exact Hr|].
  destruct (Task_findById id db) as [e|[task|]]; [exact Hr| |exact Hr].
  destruct (deleteDenied user task.2); [exact Hr|].
  unfold Task_findByIdAndDelete.
  destruct (castId id) as [oid|]; [|exact Hr].
  cbn [snd]. unfold refsResolve. cbn [tasks users]. now apply map_Forall_delete.
Qed.

Lemma deleteUser_refsResolve req_user id db :
  refsResolve db -> refsResolve (deleteUser req_user id db).2.
Proof.
  intros Hr. unfold deleteUser.
  destruct (negb (isValid id)); [exact Hr|].
  unfold User_findById, User_findByIdAndDelete.
  destruct (castId id) as [oid|]; [|exact Hr].
  destruct (users db !! oid) as [u|]; [|exact Hr]. cbn [fmap option_fmap option_map fst].
  destruct (String.eqb oid (user_id req_user)); [exact Hr|].
  destruct (0 <? countReferencing oid db) eqn:Hcount; [exact Hr|].
  cbn [snd]. unfold refsResolve. cbn [tasks users].
  intros tid t Ht.
  assert (assignedTo t <> oid /\ createdBy t <> oid) as [Hna Hnc].
  { split; intros Heq; apply Z.ltb_ge in Hcount;
      assert (0 < countReferencing oid db) by (apply countReferencing_pos; eauto); lia. }
  destruct (Hr tid t Ht) as [Ha Hc].
  now rewrite !lookup_delete_ne by congruence.
Qed.

Lemma updateUser_refsResolve req_user id body db :
  refsResolve db -> refsResolve (updateUser req_user id body db).2.
Proof.
  intros Hr. unfold updateUser.
  destruct (negb (isValid id)); [exact Hr|].
  destruct (User_findById id db) as [e|[user|]]; [exact Hr| |exact Hr].
  repeat match goal with
         | |- context [if ?c then _ else _] => destruct c; [exact Hr|]
         end.
  unfold User_findByIdAndUpdate.
  destruct (castId id) as [oid|]; [|exact Hr].
  destruct (castActive body) as [e|active]; [exact Hr|].
  destruct (userUpdateErrors body); [|exact Hr].
  destruct (users db !! oid) as [u|] eqn:Hu; [|exact Hr].
  cbn [snd]. apply refsResolve_same_users with (db := db); [|reflexivity|exact Hr].
  intros o Ho. cbn [users].
  destruct (decide (oid = o)) as [->|Hne];
    [rewrite lookup_insert_eq; eauto|now rewrite lookup_insert_ne].
Qed.

Lemma updateTask_refsResolve now user id body db :
  castId "" = None ->
  (forall o, is_Some (users db !! o) -> castId o = Some o) ->
  refsResolve db -> refsResolve (updateTask now user id body db).2.
Proof.
  intros Hempty Hcanon Hr. unfold updateTask.
  destruct (negb (isValid id)); [exact Hr|].
  destruct (Task_findById id db) as [e|[task|]] eqn:Hfind; [exact Hr| |exact Hr].
  destruct (editDenied user task.2); [exact Hr|].
  destruct (checkAssignee body task.2 db) as [e|[|]] eqn:Hcheck; [exact Hr| |exact Hr].
  destruct (castUpdate body) as [e|u] eqn:Hcast; [exact Hr|].
  unfold Task_findByIdAndUpdate.
  destruct (castId id) as [oid|] eqn:Hc; [|exact Hr].
  destruct (updateErrors now u); [|exact Hr].
  destruct (tasks db !! oid) as [t|] eqn:Ht; [|exact Hr].
  assert (task = (oid, t)) as ->.
  { unfold Task_findById in Hfind. rewrite Hc, Ht in Hfind. now injection Hfind as <-. }
  cbn [snd] in *. unfold refsResolve. cbn [tasks users].
  apply map_Forall_insert_2; [|exact Hr].
  destruct (Hr _ _ Ht) as [Ha Hcr].
  cbn [applyUpdate assignedTo createdBy]. split; [|exact Hcr].
  unfold castUpdate in Hcast. unfold checkAssignee in Hcheck.
  destruct (body_assignedTo body) as [a|]; [|now injection Hcast as <-].
  destruct (castId a) as [o|] eqn:Hca; [|discriminate].
  injection Hcast as <-. cbn [set_assignedTo]. unfold default. cbn [from_option].
  destruct (String.eqb_spec a "") as [Heq|Hne]; [congruence|].
  destruct (String.eqb_spec a (assignedTo t)) as [Heq|Hne'].
  - rewrite Heq, (Hcanon _ Ha) in Hca. now injection Hca as <-.
  - cbn [negb andb] in Hcheck. unfold User_findById in Hcheck. rewrite Hca in Hcheck.
    destruct (users db !! o) eqn:Ho; [eauto|discriminate].
Qed.

(** X3. The handlers that write keep every task's assignee and creator
    stored: [updateTaskStatus], [deleteTask], [deleteUser] and [updateUser]
    as they are, and [updateTask] when the empty string casts to no ObjectId
    and the ids of stored users cast to themselves. *)
Theorem writes_keep_references_resolved now user id db :
  refsResolve db ->
  (forall s, refsResolve (updateTaskStatus now user id s db).2)
  /\ refsResolve (deleteTask user id db).2
  /\ refsResolve (deleteUser user id db).2
  /\ (forall body, refsResolve (updateUser user id body db).2)
  /\ (castId "" = None ->
      (forall o, is_Some (users db !! o) -> castId o = Some o) ->
      forall body, refsResolve (updateTask now user id body db).2).
Proof.
  intros Hr. repeat apply conj.
  - intros s. now apply updateTaskStatus_refsResolve.
  - now apply deleteTask_refsResolve.
  - now apply deleteUser_refsResolve.
  - intros body. now apply updateUser_refsResolve.
  - intros Hempty Hcanon body. now apply updateTask_refsResolve.
Qed.

End Properties.

(** ** Properties of the accounts, the middleware and the client *)

Section AccountProperties.

Context `{Platform} `{Services}.

Implicit Types (db : Store) (user : ReqUser) (id : string) (u : User) (t : Task).

(** *** Scans of the user collection *)

Lemma find_the_one {A} (P : A -> bool) (l : list A) (x : A) :
  x ∈ l -> P x = true -> (forall y, y ∈ l -> P y = true -> y = x) ->
  List.find P l = Some x.
Proof.
  intros Hin HP Huniq. destruct (List.find P l) as [y|] eqn:Hfind.
  - apply List.find_some in Hfind as [Hy HPy].
    f_equal. apply Huniq; [now apply list_elem_of_In|exact HPy].
  - apply list_elem_of_In in Hin.
    pose proof (List.find_none _ _ Hfind _ Hin) as Hno. congruence.
Qed.

Lemma User_findOne_Some test db (d : string * User) :
  User_findOne test db = Some d -> users db !! d.1 = Some d.2 /\ test d.2 = true.
Proof.
  unfold User_findOne. intros Hfind. apply List.find_some in Hfind as [Hin Htest].
  split; [|exact Htest].
  apply list_elem_of_In in Hin. destruct d as [i u]. now apply elem_of_map_to_list.
Qed.

Lemma User_findOne_None test db i u :
  User_findOne test db = None -> users db !! i = Some u -> test u = false.
Proof.
  unfold User_findOne. intros Hfind Hu.
  apply (List.find_none _ _ Hfind (i, u)).
  apply list_elem_of_In. now apply elem_of_map_to_list.
Qed.

Lemma User_findOne_the_one test db i u :
  users db !! i = Some u -> test u = true ->
  (forall j v, users db !! j = Some v -> test v = true -> j = i) ->
  User_findOne test db = Some (i, u).
Proof.
  intros Hu Htest Huniq. unfold User_findOne. apply find_the_one.
  - now apply elem_of_map_to_list.
  - exact Htest.
  - intros [j v] Hin Hv. apply elem_of_map_to_list in Hin. cbn [snd] in Hv.
    assert (j = i) as -> by eauto. congruence.
Qed.

Lemma otherUserWith_false test oid db i u :
  otherUserWith test oid db = false -> users db !! i = Some u -> test u = true -> i = oid.
Proof.
  unfold otherUserWith. intros Hnone Hu Htest.
  destruct (String.eqb_spec i oid) as [Heq|Hne]; [exact Heq|].
  assert (existsb (fun d : string * User => test d.2 && negb (String.eqb d.1 oid))
                  (map_to_list (users db)) = true) as Hex; [|congruence].
  apply List.existsb_exists. exists (i, u). split.
  - apply list_elem_of_In. now apply elem_of_map_to_list.
  - cbn [fst snd]. rewrite Htest. now rewrite (proj2 (String.eqb_neq _ _) Hne).
Qed.

(** *** Active users *)

Lemma isTrue_Some (v : option bool) : isTrue v = true <-> v = Some true.
Proof. destruct v as [[|]|]; cbn; split; congruence. Qed.

Lemma isTrue_not (v : option bool) : v <> Some true -> isTrue v = false.
Proof. destruct v as [[|]|]; cbn; congruence. Qed.

(** *** The bearer token of a header *)

Lemma substring_all (s : string) : String.substring 0 (String.length s) s = s.
Proof. induction s as [|c s IH]; [reflexivity|]. cbn. now rewrite IH. Qed.

Lemma prefix_split (p h : string) :
  String.prefix p h = true ->
  h = (p ++ String.substring (String.length p) (String.length h - String.length p) h)%string.
Proof.
  revert h. induction p as [|a p IH]; intros h Hp.
  - cbn [String.length String.substring]. rewrite Nat.sub_0_r.
    unfold String.append. now rewrite substring_all.
  - destruct h as [|b h]; [discriminate|]. cbn in Hp.
    destruct (Ascii.ascii_dec a b) as [->|]; [|discriminate].
    cbn [String.length Nat.sub String.substring].
    unfold String.append; fold String.append. f_equal. now apply IH.
Qed.

Lemma bearer_token (token : string) :
  String.prefix "Bearer " ("Bearer " ++ token) = true
  /\ String.substring 7 (String.length ("Bearer " ++ token) - 7) ("Bearer " ++ token) = token.
Proof.
  split.
  - destruct token; reflexivity.
  - unfold String.append; fold String.append.
    cbn [String.length Nat.sub String.substring]. rewrite Nat.sub_0_r. apply substring_all.
Qed.

(** *** The [auth] middleware *)

(** X4. A request passes [auth] only with a header [Bearer <token>] whose
    token verifies to the id of a stored, active user, and the handler then
    receives that user without the password; every other request is answered
    401 or 500 by the middleware itself, the store as it was. *)
Theorem auth_admits_only_stored_active_users {A} authHeader now
    (next : string * User -> Response A * Store) db :
  (exists token id oid u,
      authHeader = Some ("Bearer " ++ token)%string
      /\ jwtVerify token now = inr id
      /\ castId id = Some oid
      /\ users db !! oid = Some u
      /\ isActive u = Some true
      /\ auth authHeader now next db = next (oid, with_password "" u))
  \/ (exists code message,
        auth authHeader now next db = (Failure code message [], db)
        /\ (code = 401 \/ code = 500)).
Proof.
  unfold auth. destruct authHeader as [header|]; [|right; eauto].
  destruct (String.prefix "Bearer " header) eqn:Hprefix; [|right; eauto].
  apply prefix_split in Hprefix. cbn [String.length] in Hprefix.
  destruct (jwtVerify _ now) as [name|id] eqn:Hverify.
  { right. destruct (String.eqb name "JsonWebTokenError"); [eauto|].
    destruct (String.eqb name "TokenExpiredError"); eauto. }
  unfold User_findById. destruct (castId id) as [oid|] eqn:Hcast; [|right; eauto].
  destruct (users db !! oid) as [u|] eqn:Hu; cbn [fmap option_fmap option_map];
    [|right; eauto].
  cbn [snd]. destruct (isTrue (isActive u)) eqn:Hactive; cbn [negb]; [|right; eauto].
  apply isTrue_Some in Hactive.
  left. eexists _, id, oid, u. split; [f_equal; exact Hprefix|].
  repeat (split; [eassumption|]). reflexivity.
Qed.

(** X5. An account that is stored but deactivated is locked out on both
    ways in: where e-mails are unique, [login] with its e-mail fails whatever
    the password, and a token that still verifies to its id is refused by
    [auth] with 401 before any handler runs. *)
Theorem deactivated_account_is_locked_out {A} now oid u db :
  usersUnique db -> users db !! oid = Some u -> isActive u <> Some true ->
  (forall body, login_email body = Some (email u) ->
                exists code message, login now body db = (Failure code message [], db))
  /\ (forall token id (next : string * User -> Response A * Store),
        jwtVerify token now = inr id -> castId id = Some oid ->
        auth (Some ("Bearer " ++ token)%string) now next db
        = (Failure 401 "User account is deactivated" [], db)).
Proof.
  intros Huniq Hu Hinactive. split.
  - intros body Hemail. unfold login.
    destruct (negb (truthy (login_email body)) || negb (truthy (login_password body)));
      [eauto|].
    destruct (User_findOne _ db) as [[j v]|] eqn:Hfind; [|eauto].
    apply User_findOne_Some in Hfind as [Hv Hsame]. cbn [fst snd] in *.
    rewrite Hemail in Hsame. unfold default in Hsame. cbn [from_option] in Hsame.
    apply String.eqb_eq in Hsame.
    assert (j = oid) as -> by (apply (Huniq _ _ _ _ Hv Hu); now right).
    assert (v = u) as -> by congruence.
    rewrite (isTrue_not _ Hinactive). cbn [negb]. eauto.
  - intros token id next Hverify Hcast. unfold auth.
    destruct (bearer_token token) as [-> ->]. rewrite Hverify.
    rewrite (User_findById_found _ _ _ _ Hcast Hu). cbn [snd].
    now rewrite (isTrue_not _ Hinactive).
Qed.

(** *** Registration and login *)

Lemma register_success now newId salt body db code data db' :
  register now newId salt body db = (Success code data, db') ->
  exists name mail pw,
    new_username body = Some name /\ new_email body = Some mail
    /\ new_password body = Some pw /\ name <> "" /\ mail <> "" /\ pw <> ""
    /\ existingUser name mail db = None
    /\ users db !! newId = None
    /\ userErrors (mkUser name mail pw "user" (new_firstName body) (new_lastName body) (Some true)) = []
    /\ db' = mkStore (<[newId := mkUser name mail (bcryptHash pw salt) "user"
                                        (new_firstName body) (new_lastName body) (Some true)]>
                        (users db)) (tasks db)
    /\ code = 201
    /\ data = mkAuthData (jwtSign newId now)
                (userView (newId, mkUser name mail (bcryptHash pw salt) "user"
                                         (new_firstName body) (new_lastName body) (Some true))).
Proof.
  unfold register, truthy, default.
  destruct (new_username body) as [name|]; [|discriminate].
  destruct (String.eqb_spec name "") as [|Hname]; [discriminate|].
  destruct (new_email body) as [mail|]; [|discriminate].
  destruct (String.eqb_spec mail "") as [|Hmail]; [discriminate|].
  destruct (new_password body) as [pw|]; [|discriminate].
  destruct (String.eqb_spec pw "") as [|Hpw]; [discriminate|].
  cbn [from_option Datatypes.id negb orb].
  destruct (existingUser name mail db) eqn:Hexisting; [discriminate|].
  unfold User_saveNew.
  destruct (userErrors _) eqn:Herrors; [|discriminate].
  unfold User_insert. cbn [password username email with_password].
  destruct (users db !! newId) eqn:Hfresh; [discriminate|].
  destruct (existsb _ _); [discriminate|].
  unfold with_password, generateToken.
  cbn [fst snd username email role firstName lastName isActive password users tasks].
  intros [= <- <- <-]. exists name, mail, pw. repeat (split; [assumption || reflexivity|]).
  reflexivity.
Qed.

(** X6. A successful [register] adds one user under the new id and changes
    nothing else: the stored user has the role [user] and is active whatever
    the body asks for, its password is the digest of the one submitted, and
    the answer carries the token signed for the new id. *)
Theorem register_creates_plain_active_user now newId salt body db code data db' :
  register now newId salt body db = (Success code data, db') ->
  users db !! newId = None
  /\ (exists u pw,
        users db' !! newId = Some u
        /\ role u = "user" /\ isActive u = Some true
        /\ new_password body = Some pw /\ password u = bcryptHash pw salt
        /\ new_username body = Some (username u) /\ new_email body = Some (email u)
        /\ data = mkAuthData (jwtSign newId now) (userView (newId, u)))
  /\ (forall k, k <> newId -> users db' !! k = users db !! k)
  /\ tasks db' = tasks db
  /\ code = 201.
Proof.
  intros Hreg.
  destruct (register_success _ _ _ _ _ _ _ _ Hreg)
    as (name & mail & pw & Hn & Hm & Hp & _ & _ & _ & _ & Hfresh & _ & -> & -> & ->).
  split; [exact Hfresh|]. split.
  - eexists _, pw. cbn [users]. rewrite lookup_insert_eq. split; [reflexivity|].
    cbn [role isActive password username email]. auto 10.
  - split; [|split; reflexivity].
    intros k Hk. cbn [users]. now rewrite lookup_insert_ne.
Qed.

(** X7. [login] answers with success only for a stored, active user with
    the submitted e-mail whose stored digest matches the submitted password;
    the token is signed for that user's id, and the store is not written. *)
Theorem login_succeeds_only_on_matching_digest now body db code data db' :
  login now body db = (Success code data, db') ->
  db' = db /\ code = 200
  /\ exists oid u mail pw,
       login_email body = Some mail /\ login_password body = Some pw
       /\ users db !! oid = Some u /\ email u = mail /\ isActive u = Some true
       /\ bcryptCompare pw (password u) = true
       /\ data = mkAuthData (jwtSign oid now) (userView (oid, u)).
Proof.
  unfold login, truthy, default.
  destruct (login_email body) as [mail|]; [|discriminate].
  destruct (String.eqb_spec mail "") as [|Hmail]; [discriminate|].
  destruct (login_password body) as [pw|]; [|discriminate].
  destruct (String.eqb_spec pw "") as [|Hpw]; [discriminate|].
  cbn [from_option Datatypes.id negb orb].
  destruct (User_findOne _ db) as [[oid u]|] eqn:Hfind; [|discriminate].
  apply User_findOne_Some in Hfind as [Hu Hsame]. cbn [fst snd] in *.
  apply String.eqb_eq in Hsame.
  destruct (isTrue (isActive u)) eqn:Hactive; [|discriminate]. cbn [negb].
  apply isTrue_Some in Hactive.
  destruct (bcryptCompare _ _) eqn:Hmatch; [|discriminate]. cbn [negb].
  intros [= <- <- <-]. split; [reflexivity|]. split; [reflexivity|].
  exists oid, u, mail, pw. auto 10.
Qed.

Lemma existingUser_None name mail db i u :
  existingUser name mail db = None -> users db !! i = Some u ->
  email u <> mail /\ username u <> name.
Proof.
  intros Hnone Hu. pose proof (User_findOne_None _ _ _ _ Hnone Hu) as Hno.
  apply orb_false_elim in Hno as [Hm Hn].
  split; now apply String.eqb_neq.
Qed.

(** X8. Registration, login and authentication compose: after a successful
    [register], [login] with the same e-mail and password succeeds with a
    token for the new id, and [auth] with that token hands the new user,
    without the digest, to the handler.  The hypotheses on the libraries are
    that the digest of a password matches it, that a token just signed
    verifies to its id, and that the new id casts to itself. *)
Theorem register_login_auth_round_trip {A} now now' now'' newId salt body db code data db' pw :
  register now newId salt body db = (Success code data, db') ->
  new_password body = Some pw ->
  bcryptCompare pw (bcryptHash pw salt) = true ->
  jwtVerify (jwtSign newId now') now'' = inr newId ->
  castId newId = Some newId ->
  exists u,
    users db' !! newId = Some u
    /\ login now' (mkLoginBody (new_email body) (new_password body)) db'
       = (Success 200 (mkAuthData (jwtSign newId now') (userView (newId, u))), db')
    /\ forall next : string * User -> Response A * Store,
         auth (Some ("Bearer " ++ jwtSign newId now')%string) now'' next db'
         = next (newId, with_password "" u).
Proof.
  intros Hreg Hpw Hmatch Hverify Hcast.
  destruct (register_success _ _ _ _ _ _ _ _ Hreg)
    as (name & mail & pw' & Hn & Hm & Hp & Hname & Hmail & Hpw' & Hexisting & Hfresh & _
        & -> & _ & _).
  assert (pw' = pw) as -> by congruence.
  eexists. split; [cbn [users]; apply lookup_insert_eq|]. split.
  - unfold login. cbn [login_email login_password]. rewrite Hm, Hp.
    unfold truthy, default. cbn [from_option Datatypes.id].
    rewrite (proj2 (String.eqb_neq _ _) Hmail), (proj2 (String.eqb_neq _ _) Hpw').
    cbn [negb orb].
    match goal with
    | |- context [User_findOne ?test ?store] =>
        rewrite (User_findOne_the_one test store newId
                   (mkUser name mail (bcryptHash pw salt) "user"
                           (new_firstName body) (new_lastName body) (Some true)))
    end.
    + cbn [fst snd isActive isTrue password negb]. rewrite Hmatch. cbn [negb]. reflexivity.
    + cbn [users]. apply lookup_insert_eq.
    + cbn [email]. apply String.eqb_refl.
    + intros j v Hv Hsame. cbn [users] in Hv. apply String.eqb_eq in Hsame.
      destruct (decide (j = newId)) as [Heq|Hne]; [exact Heq|].
      rewrite lookup_insert_ne in Hv by congruence.
      destruct (existingUser_None _ _ _ _ _ Hexisting Hv). contradiction.
  - intros next. unfold auth. destruct (bearer_token (jwtSign newId now')) as [-> ->].
    rewrite Hverify. erewrite User_findById_found; [|exact Hcast|cbn [users]; apply lookup_insert_eq].
    reflexivity.
Qed.

(** *** Unique usernames and e-mails *)

Lemma insert_usersUnique db oid u' :
  usersUnique db ->
  (forall j v, users db !! j = Some v ->
               username v = username u' \/ email v = email u' -> j = oid) ->
  usersUnique (mkStore (<[oid := u']> (users db)) (tasks db)).
Proof.
  intros Huniq Hfree i j a b. cbn [users].
  destruct (decide (i = oid)) as [->|Hi], (decide (j = oid)) as [->|Hj];
    rewrite ?lookup_insert_eq, ?lookup_insert_ne by congruence.
  - reflexivity.
  - intros [= <-] Hb Hsame. symmetry. apply (Hfree _ _ Hb). intuition congruence.
  - intros Ha [= <-] Hsame. apply (Hfree _ _ Ha). exact Hsame.
  - apply Huniq.
Qed.

Lemma User_saveNew_usersUnique salt oid u db saved db' :
  usersUnique db -> existingUser (username u) (email u) db = None ->
  User_saveNew salt oid u db = inr (saved, db') -> usersUnique db'.
Proof.
  intros Huniq Hexisting. unfold User_saveNew.
  destruct (userErrors u); [|discriminate].
  unfold User_insert. destruct (users db !! oid); [discriminate|].
  destruct (existsb _ _); [discriminate|].
  intros [= _ <-]. apply insert_usersUnique; [exact Huniq|].
  intros j v Hv Hsame. exfalso.
  destruct (existingUser_None _ _ _ _ _ Hexisting Hv) as [Hm Hn].
  cbn [with_password username email] in Hsame. intuition congruence.
Qed.

Lemma register_usersUnique now newId salt body db :
  usersUnique db -> usersUnique (register now newId salt body db).2.
Proof.
  intros Huniq. unfold register.
  destruct (_ || _); [exact Huniq|].
  destruct (existingUser _ _ db) eqn:Hexisting; [exact Huniq|].
  destruct (User_saveNew _ _ _ db) as [[]|[saved db']] eqn:Hsave; try exact Huniq.
  cbn [snd]. eapply User_saveNew_usersUnique; [exact Huniq| |exact Hsave]. exact Hexisting.
Qed.

Lemma createUser_usersUnique newId salt body db :
  usersUnique db -> usersUnique (createUser newId salt body db).2.
Proof.
  intros Huniq. unfold createUser.
  destruct (_ || _); [exact Huniq|].
  destruct (existingUser _ _ db) eqn:Hexisting; [exact Huniq|].
  destruct (User_saveNew _ _ _ db) as [[]|[saved db']] eqn:Hsave; try exact Huniq.
  cbn [snd]. eapply User_saveNew_usersUnique; [exact Huniq| |exact Hsave]. exact Hexisting.
Qed.

Lemma deleteUser_usersUnique req_user id db :
  usersUnique db -> usersUnique (deleteUser req_user id db).2.
Proof.
  intros Huniq. unfold deleteUser.
  destruct (negb (isValid id)); [exact Huniq|].
  destruct (User_findById id db) as [e|[user|]]; [exact Huniq| |exact Huniq].
  destruct (String.eqb _ _); [exact Huniq|].
  destruct (castId id) as [oid|] eqn:Hcast; [|exact Huniq].
  destruct (0 <? _); [exact Huniq|].
  unfold User_findByIdAndDelete. rewrite Hcast. cbn [snd].
  intros i j a b. cbn [users]. intros Ha Hb.
  apply lookup_delete_Some in Ha as [_ Ha]. apply lookup_delete_Some in Hb as [_ Hb].
  now apply Huniq.
Qed.

(** A name that passed the test of [updateUser] and [updateProfile] is free:
    it is empty (and then refused by the validators), the user's own, or
    that of no other user. *)
Lemma taken_check (field : User -> string) (v : option string) oid u db j w :
  truthy v && negb (String.eqb (default "" v) (field u))
  && otherUserWith (fun x => String.eqb (field x) (default "" v)) oid db = false ->
  usersUnique db -> users db !! oid = Some u ->
  (field = username \/ field = email) ->
  (forall s, v = Some s -> s <> "") ->
  users db !! j = Some w -> field w = default (field u) v -> j = oid.
Proof.
  intros Hcheck Huniq Hu Hfield Hnonempty Hw Hsame.
  destruct v as [s|]; unfold default in *; cbn [from_option Datatypes.id] in *.
  - unfold truthy in Hcheck.
    rewrite (proj2 (String.eqb_neq _ _) (Hnonempty s eq_refl)) in Hcheck. cbn [negb andb] in Hcheck.
    destruct (String.eqb_spec s (field u)) as [Heq|Hne]; cbn [negb andb] in Hcheck.
    + apply (Huniq _ _ _ _ Hw Hu). destruct Hfield as [-> | ->]; [left|right]; congruence.
    + apply (otherUserWith_false _ _ _ _ _ Hcheck Hw). now apply String.eqb_eq.
  - apply (Huniq _ _ _ _ Hw Hu). destruct Hfield as [-> | ->]; [left|right]; congruence.
Qed.

Lemma username_errors_nonempty s : username_errors s = [] -> s <> "".
Proof. unfold username_errors. intros Hok ->. discriminate. Qed.

Lemma email_errors_nonempty s : email_errors s = [] -> s <> "".
Proof. unfold email_errors. intros Hok ->. discriminate. Qed.

Lemma updateUser_usersUnique req_user id body db :
  usersUnique db -> usersUnique (updateUser req_user id body db).2.
Proof.
  intros Huniq. unfold updateUser.
  destruct (negb (isValid id)); [exact Huniq|].
  unfold User_findById.
  destruct (castId id) as [oid|] eqn:Hcast; [|exact Huniq].
  destruct (users db !! oid) as [u|] eqn:Hu; [|exact Huniq].
  cbn [fmap option_fmap option_map fst snd].
  destruct (String.eqb oid (user_id req_user) && _); [exact Huniq|].
  destruct (truthy (body_username body) && _ && _) eqn:Hname; [exact Huniq|].
  destruct (truthy (body_email body) && _ && _) eqn:Hmail; [exact Huniq|].
  unfold User_findByIdAndUpdate. rewrite Hcast.
  destruct (castActive body) as [e|active] eqn:Hactive; [exact Huniq|].
  destruct (userUpdateErrors body) eqn:Herrors; [|exact Huniq].
  rewrite Hu. cbn [snd]. apply insert_usersUnique; [exact Huniq|].
  unfold userUpdateErrors in Herrors.
  apply app_eq_nil in Herrors as [Hn Herrors]. apply app_eq_nil in Herrors as [Hm _].
  intros j w Hw [Hsame|Hsame]; cbn [applyUserUpdate username email] in Hsame.
  - apply (taken_check username (body_username body) oid u db j w Hname Huniq Hu); auto.
    intros s Hs. rewrite Hs in Hn. now apply username_errors_nonempty.
  - apply (taken_check email (body_email body) oid u db j w Hmail Huniq Hu); auto.
    intros s Hs. rewrite Hs in Hm. now apply email_errors_nonempty.
Qed.

Lemma updateProfile_usersUnique (req_user : string * User) body db :
  users db !! req_user.1 = Some req_user.2 ->
  usersUnique db -> usersUnique (updateProfile req_user body db).2.
Proof.
  intros Hstored Huniq. unfold updateProfile. cbv zeta.
  destruct (truthy (profile_username body) && _ && _) eqn:Hname; [exact Huniq|].
  destruct (profileErrors body) eqn:Herrors; [|exact Huniq].
  rewrite Hstored. cbn [snd]. apply insert_usersUnique; [exact Huniq|].
  unfold profileErrors in Herrors.
  apply app_eq_nil in Herrors as [_ Herrors]. apply app_eq_nil in Herrors as [_ Hn].
  intros j w Hw [Hsame|Hsame];
    cbn [applyUserUpdate username email body_username body_email] in Hsame.
  - destruct req_user as [oid u]. cbn [fst snd] in *.
    apply (taken_check username (profile_username body) oid u db j w Hname Huniq Hstored);
      auto.
    intros s Hs. rewrite Hs in Hn. now apply username_errors_nonempty.
  - unfold default in Hsame. cbn [from_option Datatypes.id] in Hsame.
    apply (Huniq _ _ _ _ Hw Hstored). now right.
Qed.

(** X9. Usernames and e-mails stay unique without the help of the unique
    indexes: from a store in which no two users share a username or an
    e-mail, [register], [createUser], [updateUser] and [deleteUser] lead to
    such a store again, and so does [updateProfile] for a [req.user] that is
    the stored one. *)
Theorem writes_keep_users_unique now newId salt id user db :
  usersUnique db ->
  (forall body, usersUnique (register now newId salt body db).2)
  /\ (forall body, usersUnique (createUser newId salt body db).2)
  /\ (forall body, usersUnique (updateUser user id body db).2)
  /\ usersUnique (deleteUser user id db).2
  /\ (forall u body, users db !! id = Some u ->
                     usersUnique (updateProfile (id, u) body db).2).
Proof.
  intros Huniq. repeat apply conj.
  - intros body. now apply register_usersUnique.
  - intros body. now apply createUser_usersUnique.
  - intros body. now apply updateUser_usersUnique.
  - now apply deleteUser_usersUnique.
  - intros u body Hu. now apply updateProfile_usersUnique.
Qed.

(** *** Revocation *)

Lemma auth_passes {A} now token tokenId oid u db (next : string * User -> Response A * Store) :
  jwtVerify token now = inr tokenId -> castId tokenId = Some oid ->
  users db !! oid = Some u -> isActive u = Some true ->
  auth (Some ("Bearer " ++ token)%string) now next db = next (withoutPassword (oid, u)).
Proof.
  intros Hverify Hcast Hu Hactive. unfold auth.
  destruct (bearer_token token) as [-> ->]. rewrite Hverify.
  rewrite (User_findById_found _ _ _ _ Hcast Hu). cbn [snd].
  now rewrite (proj2 (isTrue_Some _) Hactive).
Qed.

(** X10. Revocation takes effect at the next request: once [updateUser] has
    succeeded with an [isActive] that is [false], or any other value that the
    ODM casts to something other than true, or [deleteUser] has succeeded, a
    token that still verifies to the id of that user is refused by [auth] on
    the resulting store, with 401 and before any handler runs. *)
Theorem revoked_accounts_lose_access {A} now req_user id oid db token tokenId
    (next : string * User -> Response A * Store) :
  castId id = Some oid -> jwtVerify token now = inr tokenId -> castId tokenId = Some oid ->
  (forall body v b,
      body_isActive body = Some v -> castBoolean v = inr b -> b <> Some true ->
      isSuccess (updateUser req_user id body db).1 = true ->
      auth (Some ("Bearer " ++ token)%string) now next (updateUser req_user id body db).2
      = (Failure 401 "User account is deactivated" [], (updateUser req_user id body db).2))
  /\ (isSuccess (deleteUser req_user id db).1 = true ->
      auth (Some ("Bearer " ++ token)%string) now next (deleteUser req_user id db).2
      = (Failure 401 "Token is valid but user not found" [], (deleteUser req_user id db).2)).
Proof.
  intros Hcast Hverify Htoken. split.
  - intros body v b Hbody Hcastv Hoff.
    assert (castActive body = inr (Some b)) as Hactive
      by (unfold castActive; now rewrite Hbody, Hcastv).
    unfold updateUser.
    destruct (negb (isValid id)); [discriminate|].
    unfold User_findById, User_findByIdAndUpdate. rewrite Hcast.
    destruct (users db !! oid) as [u|] eqn:Hu; [|discriminate].
    cbn [fmap option_fmap option_map fst snd].
    repeat match goal with
           | |- context [if ?c then (Failure _ _ _, _) else _] => destruct c; [discriminate|]
           end.
    rewrite Hactive.
    destruct (userUpdateErrors body); [|discriminate]. cbn [fst snd]. intros _.
    unfold auth. destruct (bearer_token token) as [-> ->]. rewrite Hverify.
    erewrite User_findById_found; [|exact Htoken|cbn [users]; apply lookup_insert_eq].
    cbn [snd applyUserUpdate isActive]. rewrite Hactive.
    now rewrite (isTrue_not _ Hoff).
  - unfold deleteUser.
    destruct (negb (isValid id)); [discriminate|].
    unfold User_findById, User_findByIdAndDelete. rewrite Hcast.
    destruct (users db !! oid) as [u|] eqn:Hu; [|discriminate].
    cbn [fmap option_fmap option_map fst snd].
    destruct (String.eqb oid (user_id req_user)); [discriminate|].
    destruct (0 <? countReferencing oid db); [discriminate|]. cbn [fst snd]. intros _.
    unfold auth. destruct (bearer_token token) as [-> ->]. rewrite Hverify.
    unfold User_findById. rewrite Htoken. cbn [users]. rewrite lookup_delete_eq.
    reflexivity.
Qed.

(** *** What the updates of a user leave alone *)

(** X11. No update of a user touches the credentials: a successful
    [updateProfile] stores the user with the e-mail, digest, role and
    activity it had, leaves the other users and the tasks alone, and a
    successful [updateUser] stores the user with the digest it had. *)
Theorem user_updates_keep_credentials (req_user : string * User) actor id oid body db :
  (forall profile code data db',
      updateProfile req_user profile db = (Success code data, db') ->
      exists u u',
        users db !! req_user.1 = Some u /\ users db' !! req_user.1 = Some u'
        /\ email u' = email u /\ password u' = password u
        /\ role u' = role u /\ isActive u' = isActive u
        /\ (forall k, k <> req_user.1 -> users db' !! k = users db !! k)
        /\ tasks db' = tasks db)
  /\ (castId id = Some oid ->
      isSuccess (updateUser actor id body db).1 = true ->
      exists u u',
        users db !! oid = Some u /\ users (updateUser actor id body db).2 !! oid = Some u'
        /\ password u' = password u).
Proof.
  split.
  - intros profile code data db'. unfold updateProfile. cbv zeta.
    destruct (truthy (profile_username profile) && _ && _); [discriminate|].
    destruct (profileErrors profile); [|discriminate].
    destruct (users db !! req_user.1) as [u|] eqn:Hu; [|discriminate].
    intros [= <- <- <-]. exists u. eexists. split; [reflexivity|].
    cbn [users tasks]. rewrite lookup_insert_eq. split; [reflexivity|].
    cbn [applyUserUpdate email password role isActive body_email body_role body_isActive].
    unfold default. cbn [from_option Datatypes.id].
    repeat (split; [reflexivity|]). split; [|reflexivity].
    intros k Hk. now rewrite lookup_insert_ne.
  - intros Hcast. unfold updateUser.
    destruct (negb (isValid id)); [discriminate|].
    unfold User_findById, User_findByIdAndUpdate. rewrite Hcast.
    destruct (users db !! oid) as [u|] eqn:Hu; [|discriminate].
    cbn [fmap option_fmap option_map fst snd].
    repeat match goal with
           | |- context [if ?c then (Failure _ _ _, _) else _] => destruct c; [discriminate|]
           end.
    destruct (castActive body) as [[]|active]; try discriminate.
    destruct (userUpdateErrors body); [|discriminate]. cbn [fst snd users]. intros _.
    exists u. eexists. split; [reflexivity|]. rewrite lookup_insert_eq. split; reflexivity.
Qed.

(** X12. [register] is [createUser] on the body without its role: the two
    handlers answer with the same status code and leave the same store, so
    a role sent to [register] has no effect. *)
Theorem register_is_createUser_without_role now newId salt body db :
  let plain := mkNewUserBody (new_username body) (new_email body) (new_password body)
                             (new_firstName body) (new_lastName body) None in
  (register now newId salt body db).2 = (createUser newId salt plain db).2
  /\ statusCode (register now newId salt body db).1
     = statusCode (createUser newId salt plain db).1
  /\ register now newId salt plain db = register now newId salt body db.
Proof.
  cbv zeta. unfold register, createUser.
  cbn [new_username new_email new_password new_firstName new_lastName new_role truthy].
  destruct (_ || _); [repeat split|].
  destruct (existingUser _ _ db); [repeat split|].
  destruct (User_saveNew _ _ _ db) as [[]|[saved db']]; repeat split.
Qed.

(** *** The admin-only routes *)

Lemma withAuth_passes {A} now token tokenId oid u db (handler : ReqUser -> Response A * Store) :
  jwtVerify token now = inr tokenId -> castId tokenId = Some oid ->
  users db !! oid = Some u -> isActive u = Some true ->
  withAuth (Some ("Bearer " ++ token)%string) now handler db = handler (mkReqUser oid (role u)).
Proof.
  intros Hverify Hcast Hu Hactive. unfold withAuth.
  now rewrite (auth_passes _ _ _ _ _ _ _ Hverify Hcast Hu Hactive).
Qed.

(** X13. User management is closed to everyone but admins: with the token of
    a stored, active user whose role is not [admin], each of the five routes
    behind [auth] and [adminAuth] answers 403 and leaves the store as it
    was, whatever the request holds. *)
Theorem user_management_needs_admin now token tokenId oid u db :
  jwtVerify token now = inr tokenId -> castId tokenId = Some oid ->
  users db !! oid = Some u -> isActive u = Some true -> role u <> "admin" ->
  (forall q, api_getAllUsers (Some ("Bearer " ++ token)%string) now q db
             = (Failure 403 "Admin access required" [], db))
  /\ (forall newId salt body,
         api_createUser (Some ("Bearer " ++ token)%string) now newId salt body db
         = (Failure 403 "Admin access required" [], db))
  /\ (forall id, api_getUserById (Some ("Bearer " ++ token)%string) now id db
                 = (Failure 403 "Admin access required" [], db))
  /\ (forall id body, api_updateUser (Some ("Bearer " ++ token)%string) now id body db
                      = (Failure 403 "Admin access required" [], db))
  /\ (forall id, api_deleteUser (Some ("Bearer " ++ token)%string) now id db
                 = (Failure 403 "Admin access required" [], db)).
Proof.
  intros Hverify Hcast Hu Hactive Hrole.
  assert (forall A (next : ReqUser -> Response A * Store),
             adminAuth (Some (mkReqUser oid (role u))) next db
             = (Failure 403 "Admin access required" [], db)) as Hdenied.
  { intros A next. unfold adminAuth. cbn [user_role].
    now rewrite (proj2 (String.eqb_neq _ _) Hrole). }
  unfold api_getAllUsers, api_createUser, api_getUserById, api_updateUser, api_deleteUser,
    route_getUserById, route_updateUser, route_deleteUser.
  repeat apply conj; intros;
    rewrite (withAuth_passes _ _ _ _ _ _ _ Hverify Hcast Hu Hactive); apply Hdenied.
Qed.

(** *** Creating a task *)

Lemma createTask_success now newId user body db code saved db' :
  createTask now newId user body db = (Success code saved, db') ->
  exists t,
    saved = (newId, t) /\ code = 201
    /\ tasks db !! newId = None
    /\ db' = mkStore (users db) (<[newId := t]> (tasks db))
    /\ taskErrors now t = []
    /\ createdBy t = user_id user /\ status t = "pending" /\ completedAt t = None
    /\ notes t = []
    /\ (truthy (task_assignedTo body) = false /\ assignedTo t = user_id user
        \/ exists a, task_assignedTo body = Some a /\ a <> "" /\ castId a = Some (assignedTo t)
                     /\ is_Some (users db !! assignedTo t)).
Proof.
  unfold createTask.
  destruct (_ || _); [discriminate|].
  destruct (newAssignee user body db) as [e|[assignedUser|]] eqn:Hassignee;
    [discriminate| |discriminate].
  unfold Task_saveNew.
  destruct (taskErrors now _) eqn:Hvalid; [|discriminate].
  rewrite preSave_unmodified by reflexivity. cbn [fields].
  unfold Task_insert. destruct (tasks db !! newId) eqn:Hfresh; [discriminate|].
  intros [= <- <- <-]. eexists. split; [reflexivity|]. split; [reflexivity|].
  split; [reflexivity|]. split; [reflexivity|]. split; [exact Hvalid|].
  cbn [createdBy status completedAt notes assignedTo].
  repeat (split; [reflexivity|]).
  unfold newAssignee in Hassignee.
  destruct (truthy (task_assignedTo body)) eqn:Htruthy.
  - right. destruct (task_assignedTo body) as [a|]; [|discriminate].
    unfold default in Hassignee. cbn [from_option Datatypes.id] in Hassignee.
    unfold User_findById in Hassignee.
    destruct (castId a) as [oid|] eqn:Hcast; [|discriminate].
    destruct (users db !! oid) as [u|] eqn:Hu; [|discriminate].
    cbn in Hassignee. injection Hassignee as <-.
    exists a. repeat split; [|exact Hcast|eauto].
    intros ->. discriminate.
  - left. injection Hassignee as <-. auto.
Qed.

Lemma taskErrors_nil now t :
  taskErrors now t = [] ->
  title_errors (title t) = [] /\ description_errors (description t) = []
  /\ dueDate_errors now (dueDate t) = [] /\ status_errors (status t) = []
  /\ priority_errors (priority t) = [] /\ tags_errors (tags t) = []
  /\ notes_errors (notes t) = [].
Proof.
  unfold taskErrors. intros Hnil.
  repeat (apply app_eq_nil in Hnil as [? Hnil]). auto 10.
Qed.

(** X14. A successful [createTask] adds one task under the new id and
    changes nothing else.  The task is created by the actor, pending, without
    completion date or notes; its priority is one of the four and its due
    date not before the start of today; it is assigned to the actor when the
    body names no assignee, and to a stored user otherwise. *)
Theorem createTask_adds_pending_task_of_actor now newId user body db code saved db' :
  createTask now newId user body db = (Success code saved, db') ->
  tasks db !! newId = None
  /\ saved.1 = newId /\ tasks db' !! newId = Some saved.2
  /\ createdBy saved.2 = user_id user
  /\ status saved.2 = "pending" /\ completedAt saved.2 = None /\ notes saved.2 = []
  /\ includes validPriorities (priority saved.2) = true
  /\ startOfDay now <= dueDate saved.2
  /\ (truthy (task_assignedTo body) = false -> assignedTo saved.2 = user_id user)
  /\ (truthy (task_assignedTo body) = true -> is_Some (users db !! assignedTo saved.2))
  /\ (forall k, k <> newId -> tasks db' !! k = tasks db !! k)
  /\ users db' = users db.
Proof.
  intros Hcreate.
  destruct (createTask_success _ _ _ _ _ _ _ _ Hcreate)
    as (t & -> & _ & Hfresh & -> & Hvalid & Hcreator & Hstatus & Hdone & Hnotes & Hassignee).
  destruct (taskErrors_nil _ _ Hvalid) as (_ & _ & Hdue & _ & Hpriority & _ & _).
  cbn [fst snd tasks users]. rewrite lookup_insert_eq.
  repeat (split; [assumption || reflexivity|]).
  split.
  { unfold priority_errors in Hpriority.
    now destruct (includes validPriorities (priority t)). }
  split.
  { unfold dueDate_errors in Hdue.
    destruct (dueDate t <? startOfDay now) eqn:Hlt; [discriminate|]. now apply Z.ltb_ge. }
  split; [|split; [|split; [|reflexivity]]].
  - intros Hnone. destruct Hassignee as [[_ Ha]|(a & Ha & Hne & _)]; [exact Ha|].
    rewrite Ha in Hnone. cbn in Hnone.
    now rewrite (proj2 (String.eqb_neq _ _) Hne) in Hnone.
  - intros Hsome. destruct Hassignee as [[Hnone _]|(a & _ & _ & _ & Hstored)];
      [congruence|exact Hstored].
  - intros k Hk. now rewrite lookup_insert_ne.
Qed.

(** X15. [createTask] keeps the invariants of the store: every status stays
    one of the four, and when the actor is a stored user (as behind [auth])
    every task keeps a stored assignee and a stored creator. *)
Theorem createTask_keeps_store_invariants now newId user body db :
  (statusesValid db -> statusesValid (createTask now newId user body db).2)
  /\ (is_Some (users db !! user_id user) -> refsResolve db ->
      refsResolve (createTask now newId user body db).2).
Proof.
  destruct (createTask now newId user body db) as [[code saved|code message errors] db'] eqn:Hcreate.
  - destruct (createTask_success _ _ _ _ _ _ _ _ Hcreate)
      as (t & -> & _ & Hfresh & -> & Hvalid & Hcreator & Hstatus & _ & _ & Hassignee).
    cbn [snd]. split.
    + intros Hok. unfold statusesValid. cbn [tasks].
      apply map_Forall_insert_2; [|exact Hok]. now rewrite Hstatus.
    + intros Hactor Hrefs. unfold refsResolve. cbn [tasks users].
      apply map_Forall_insert_2; [|exact Hrefs].
      rewrite Hcreator. split; [|exact Hactor].
      destruct Hassignee as [[_ ->]|(a & _ & _ & _ & Hstored)]; assumption.
  - assert (db' = db) as ->; [|cbn [snd]; tauto].
    revert Hcreate. unfold createTask.
    destruct (_ || _); [congruence|].
    destruct (newAssignee user body db) as [e|[assignedUser|]]; [congruence| |congruence].
    destruct (Task_saveNew _ _ _ db) as [[]|[saved db'']]; congruence.
Qed.

(** X16. What [createTask] has stored, its creator reads back and can take
    away again: when the new id is a valid ObjectId that casts to itself and
    the actor is a stored user, [getTaskById] by the actor returns the task
    just created, and [deleteTask] by the actor leads back to the store
    before the creation. *)
Theorem createTask_then_read_and_delete now newId user body db code saved db' :
  createTask now newId user body db = (Success code saved, db') ->
  isValid newId = true -> castId newId = Some newId ->
  is_Some (users db !! user_id user) ->
  getTaskById user newId db' = (Success 200 saved, db')
  /\ deleteTask user newId db' = (Success 200 (), db).
Proof.
  intros Hcreate Hvalid Hcast Hactor.
  destruct (createTask_success _ _ _ _ _ _ _ _ Hcreate)
    as (t & -> & _ & Hfresh & -> & _ & Hcreator & _ & _ & _ & Hassignee).
  assert (is_Some (users db !! assignedTo t)) as Hstored.
  { destruct Hassignee as [[_ ->]|(a & _ & _ & _ & Hstored)]; assumption. }
  split.
  - unfold getTaskById. rewrite Hvalid. cbn [negb].
    erewrite Task_findById_found; [|exact Hcast|cbn [tasks]; apply lookup_insert_eq].
    cbn [snd]. rewrite !populate_stored by (cbn [users]; rewrite ?Hcreator; assumption).
    unfold viewDenied. destruct (isAdmin user); [reflexivity|].
    destruct (String.eqb (assignedTo t) (user_id user)); [reflexivity|].
    rewrite Hcreator, String.eqb_refl. reflexivity.
  - unfold deleteTask. rewrite Hvalid. cbn [negb].
    erewrite Task_findById_found; [|exact Hcast|cbn [tasks]; apply lookup_insert_eq].
    cbn [snd]. unfold deleteDenied. rewrite Hcreator, String.eqb_refl, andb_false_r.
    unfold Task_findByIdAndDelete. rewrite Hcast. cbn [users tasks].
    rewrite delete_insert_id by exact Hfresh. now destruct db.
Qed.

(** *** Sorted listings *)

Lemma insertDoc_Sorted {A} (le : A -> A -> bool) x (l : list A) :
  (forall a b, le a b = true \/ le b a = true) ->
  Sorted (fun a b => le a b = true) l ->
  Sorted (fun a b => le a b = true) (insertDoc le x l).
Proof.
  intros Htotal. induction l as [|y l IH]; intros Hsorted; cbn [insertDoc].
  - repeat constructor.
  - destruct (le x y) eqn:Hxy.
    + constructor; [exact Hsorted|]. now constructor.
    + apply Sorted_inv in Hsorted as [Hl Hhd].
      constructor; [now apply IH|].
      destruct l as [|z l]; cbn [insertDoc].
      * constructor. destruct (Htotal x y); congruence.
      * destruct (le x z).
        -- constructor. destruct (Htotal x y); congruence.
        -- constructor. now apply HdRel_inv in Hhd.
Qed.

Lemma sortDocs_Sorted {A} (le : A -> A -> bool) (l : list A) :
  (forall a b, le a b = true \/ le b a = true) ->
  Sorted (fun a b => le a b = true) (sortDocs le l).
Proof.
  intros Htotal. induction l as [|x l IH]; cbn [sortDocs foldr]; [constructor|].
  now apply insertDoc_Sorted.
Qed.

Lemma Sorted_weaken {A} (R1 R2 : A -> A -> Prop) (l : list A) :
  (forall x y, R1 x y -> R2 x y) -> Sorted R1 l -> Sorted R2 l.
Proof.
  intros Himpl. induction 1 as [|x l Hl IH Hhd]; constructor; [exact IH|].
  destruct Hhd; constructor; auto.
Qed.

Lemma dueDateLe_total (a b : string * Task) : dueDateLe a b = true \/ dueDateLe b a = true.
Proof. unfold dueDateLe. rewrite !Z.leb_le. lia. Qed.

Lemma sortDocs_dueDate (l : list (string * Task)) :
  StronglySorted (fun a b : string * Task => dueDate a.2 <= dueDate b.2) (sortDocs dueDateLe l).
Proof.
  apply Sorted.Sorted_StronglySorted; [intros a b c; lia|].
  apply Sorted_weaken with (R1 := fun a b => dueDateLe a b = true).
  - intros a b. unfold dueDateLe. apply Z.leb_le.
  - apply sortDocs_Sorted, dueDateLe_total.
Qed.

Lemma filter_ext_in {A} (f g : A -> bool) (l : list A) :
  (forall x, x ∈ l -> f x = g x) -> List.filter f l = List.filter g l.
Proof.
  intros Hext. apply List.filter_ext_in. intros x Hx. apply Hext. now apply list_elem_of_In.
Qed.

(** X17. [getTasksByPriority] refuses a priority outside the four with 400,
    and otherwise lists, earliest due date first, exactly the stored tasks of
    that priority that the actor may see: all of them for an admin, where the
    answer is that of the model's static method, and those assigned to the
    actor for anyone else.  The count sent is the length of the list. *)
Theorem getTasksByPriority_lists_scoped_and_sorted user p db :
  (includes validPriorities p = false ->
   exists message, getTasksByPriority user p db = (Failure 400 message [], db))
  /\ (includes validPriorities p = true ->
      exists found,
        getTasksByPriority user p db
        = (Success 200 (mkPriorityList p found (Z.of_nat (length found))), db)
        /\ found ≡ₚ List.filter
                      (fun d : string * Task =>
                         String.eqb (priority d.2) p
                         && (isAdmin user || String.eqb (assignedTo d.2) (user_id user)))
                      (map_to_list (tasks db))
        /\ StronglySorted (fun a b : string * Task => dueDate a.2 <= dueDate b.2) found
        /\ (isAdmin user = true -> found = Task_getTasksByPriority p db)).
Proof.
  unfold getTasksByPriority. split; intros Hp; rewrite Hp; cbn [negb]; [eauto|].
  eexists. split; [reflexivity|]. split; [|split].
  - rewrite sortDocs_Permutation. unfold Task_find.
    erewrite filter_ext_in; [reflexivity|].
    intros d _. unfold matches, optMatches.
    cbn [filter_assignedTo filter_status filter_priority filter_or].
    destruct (isAdmin user); cbn [negb orb andb]; rewrite ?andb_true_r; [reflexivity|].
    apply andb_comm.
  - apply sortDocs_dueDate.
  - intros ->. reflexivity.
Qed.

(** X18. [getUsersForAssignment] lists exactly the active users, each once
    and with the name [getFullName] gives it, in ascending order of
    username. *)
Theorem getUsersForAssignment_lists_active_users db :
  exists entries,
    getUsersForAssignment db = (Success 200 entries, db)
    /\ (forall e, e ∈ entries <->
                  exists i u, users db !! i = Some u /\ isActive u = Some true
                              /\ e = mkAssignableUser i (username u) (getFullName u) (email u))
    /\ NoDup (map assignable_id entries)
    /\ Sorted (fun a b => String.leb (assignable_username a) (assignable_username b) = true)
              entries.
Proof.
  unfold getUsersForAssignment. cbv zeta. eexists. split; [reflexivity|].
  set (active := List.filter (fun d : string * User => isTrue (isActive d.2))
                             (map_to_list (users db))).
  assert (forall d, d ∈ sortDocs usernameLe active
                    <-> users db !! d.1 = Some d.2 /\ isActive d.2 = Some true) as Hin.
  { intros [i u]. rewrite sortDocs_Permutation. unfold active.
    rewrite list_elem_of_In, filter_In, <- list_elem_of_In, elem_of_map_to_list.
    cbn [fst snd]. now rewrite isTrue_Some. }
  split; [|split].
  - intros e. rewrite list_elem_of_fmap. split.
    + intros ([i u] & -> & Hd). apply Hin in Hd as [Hu Hactive]. exists i, u. auto.
    + intros (i & u & Hu & Hactive & ->). exists (i, u). split; [reflexivity|].
      apply Hin. auto.
  - rewrite <- list_fmap_compose.
    assert (NoDup (map fst (sortDocs usernameLe active))) as Hnodup.
    { rewrite sortDocs_Permutation. unfold active.
      apply NoDup_fmap_fst.
      - intros i u v Hu Hv.
        rewrite list_elem_of_In, filter_In, <- list_elem_of_In, elem_of_map_to_list in Hu, Hv.
        destruct Hu, Hv. congruence.
      - apply NoDup_ListNoDup, List.NoDup_filter, NoDup_ListNoDup, NoDup_map_to_list. }
    exact Hnodup.
  - apply Sorted_fmap with (R1 := fun a b => usernameLe a b = true).
    + intros a b Hle. exact Hle.
    + apply sortDocs_Sorted. intros a b. apply String.leb_total.
Qed.

(** *** Listing users *)



(** *** Who reaches a task *)

(** X20. For a stored task whose assignee and creator are stored users, the
    permission tests are exact: [getTaskById] returns the task precisely to
    an admin, its assignee and its creator, and [deleteTask] succeeds
    precisely for an admin and its creator. *)
Theorem task_access_is_exact user id oid t db :
  isValid id = true -> castId id = Some oid -> tasks db !! oid = Some t ->
  is_Some (users db !! assignedTo t) -> is_Some (users db !! createdBy t) ->
  (getTaskById user id db = (Success 200 (oid, t), db)
   <-> isAdmin user = true \/ assignedTo t = user_id user \/ createdBy t = user_id user)
  /\ (isSuccess (deleteTask user id db).1 = true
      <-> isAdmin user = true \/ createdBy t = user_id user).
Proof.
  intros Hvalid Hcast Ht Hassignee Hcreator. split.
  - unfold getTaskById. rewrite Hvalid, (Task_findById_found _ _ _ _ Hcast Ht).
    cbn [negb snd]. rewrite !populate_stored by assumption.
    unfold viewDenied. destruct (isAdmin user); [intuition|].
    destruct (String.eqb_spec (assignedTo t) (user_id user)) as [Ha|Ha]; [intuition|].
    destruct (String.eqb_spec (createdBy t) (user_id user)) as [Hc|Hc]; cbn [negb];
      [intuition|].
    split; [discriminate|]. intros [|[|]]; congruence.
  - unfold deleteTask. rewrite Hvalid, (Task_findById_found _ _ _ _ Hcast Ht).
    cbn [negb snd]. unfold deleteDenied, Task_findByIdAndDelete. rewrite Hcast.
    destruct (isAdmin user); cbn [negb andb fst isSuccess]; [intuition|].
    destruct (String.eqb_spec (createdBy t) (user_id user)) as [Hc|Hc];
      cbn [negb fst isSuccess]; [intuition|].
    split; [discriminate|]. intros [|]; congruence.
Qed.

(** *** Failed requests and frames *)

Ltac unchanged :=
  repeat match goal with
         | |- (_, ?db).2 = ?db => reflexivity
         | |- _ -> (_, ?db).2 = ?db => intros _; reflexivity
         | |- context [match ?c with _ => _ end] => destruct c
         end; cbn [fst isSuccess]; try discriminate; try (intros _; reflexivity).

(** X21. A request that is refused writes nothing: whenever one of the
    writing handlers answers without success, the store afterwards is the
    store before. *)
Theorem refused_requests_write_nothing now newId salt user id db :
  (forall body, isSuccess (createTask now newId user body db).1 = false ->
                (createTask now newId user body db).2 = db)
  /\ (forall body, isSuccess (updateTask now user id body db).1 = false ->
                   (updateTask now user id body db).2 = db)
  /\ (forall s, isSuccess (updateTaskStatus now user id s db).1 = false ->
                (updateTaskStatus now user id s db).2 = db)
  /\ (isSuccess (deleteTask user id db).1 = false -> (deleteTask user id db).2 = db)
  /\ (forall body, isSuccess (register now newId salt body db).1 = false ->
                   (register now newId salt body db).2 = db)
  /\ (forall body, isSuccess (createUser newId salt body db).1 = false ->
                   (createUser newId salt body db).2 = db)
  /\ (forall body, isSuccess (updateUser user id body db).1 = false ->
                   (updateUser user id body db).2 = db)
  /\ (isSuccess (deleteUser user id db).1 = false -> (deleteUser user id db).2 = db)
  /\ (forall req_user body, isSuccess (updateProfile req_user body db).1 = false ->
                            (updateProfile req_user body db).2 = db).
Proof.
  repeat apply conj; intros;
    match goal with Hrefused : isSuccess _ = false |- _ => revert Hrefused end.
  - unfold createTask. unchanged.
  - unfold updateTask, updateTask_catch. unchanged.
  - unfold updateTaskStatus. unchanged.
  - unfold deleteTask. unchanged.
  - unfold register. unchanged.
  - unfold createUser. unchanged.
  - unfold updateUser, updateUser_catch. unchanged.
  - unfold deleteUser. unchanged.
  - unfold updateProfile. cbv zeta. unchanged.
Qed.

(** X22. The two updates of a task touch what they are asked to and nothing
    else.  After [updateTask] the task has its creator and notes, and every
    field the body leaves out, as before; after [updateTaskStatus] it differs
    from before in status and completion date at most.  Neither touches
    another task or a user. *)
Theorem task_updates_touch_named_fields_only now user id oid t db :
  castId id = Some oid -> tasks db !! oid = Some t ->
  (forall body t',
      tasks (updateTask now user id body db).2 !! oid = Some t' ->
      createdBy t' = createdBy t /\ notes t' = notes t
      /\ (body_title body = None -> title t' = title t)
      /\ (body_description body = None -> description t' = description t)
      /\ (body_dueDate body = None -> dueDate t' = dueDate t)
      /\ (body_priority body = None -> priority t' = priority t)
      /\ (body_status body = None -> status t' = status t)
      /\ (body_assignedTo body = None -> assignedTo t' = assignedTo t)
      /\ (body_tags body = None -> tags t' = tags t))
  /\ (forall s t',
        tasks (updateTaskStatus now user id s db).2 !! oid = Some t' ->
        with_completedAt (completedAt t) (with_status (status t) t') = t)
  /\ (forall body k, k <> oid ->
                     tasks (updateTask now user id body db).2 !! k = tasks db !! k)
  /\ (forall s k, k <> oid ->
                  tasks (updateTaskStatus now user id s db).2 !! k = tasks db !! k)
  /\ (forall body, users (updateTask now user id body db).2 = users db)
  /\ (forall s, users (updateTaskStatus now user id s db).2 = users db).
Proof.
  intros Hcast Ht.
  assert (forall body,
             (updateTask now user id body db).2 = db
             \/ exists u : TaskUpdate, castUpdate body = inr u
                          /\ (updateTask now user id body db).2
                             = mkStore (users db) (<[oid := applyUpdate u t]> (tasks db)))
    as Hupdate.
  { intros body. unfold updateTask.
    destruct (negb (isValid id)); [now left|].
    rewrite (Task_findById_found _ _ _ _ Hcast Ht). cbn [snd].
    destruct (editDenied user t); [now left|].
    destruct (checkAssignee body t db) as [e|[|]]; [now left| |now left].
    destruct (castUpdate body) as [e|u]; [now left|].
    unfold Task_findByIdAndUpdate. rewrite Hcast, Ht.
    destruct (updateErrors now u); [|now left]. right. eauto. }
  assert (forall s,
             (updateTaskStatus now user id s db).2 = db
             \/ exists c, (updateTaskStatus now user id s db).2
                          = mkStore (users db)
                                    (<[oid := with_completedAt c (with_status s t)]> (tasks db)))
    as Hstatus.
  { intros s. unfold updateTaskStatus.
    destruct (negb (isValid id)); [now left|].
    destruct (negb (includes validStatuses s)); [now left|].
    rewrite (Task_findById_found _ _ _ _ Hcast Ht). cbn [snd].
    destruct (editDenied user t); [now left|].
    assert (doc_id (set_status s (hydrate (oid, t))) = oid) as Hid.
    { unfold set_status, hydrate. cbn [fields fst snd doc_id].
      now destruct (String.eqb (status t) s). }
    assert (fields (set_status s (hydrate (oid, t))) = with_status s t) as Hfields.
    { unfold set_status, hydrate. cbn [fields fst snd doc_id].
      destruct (String.eqb_spec (status t) s) as [<-|]; [now destruct t|reflexivity]. }
    unfold save. destruct (taskErrors now _); [|now left].
    rewrite preSave_modifiedPaths, preSave_doc_id, Hid.
    destruct (modifiedPaths _); [now left|]. right.
    destruct (preSave_fields now (set_status s (hydrate (oid, t)))) as [c ->].
    exists c. now rewrite Hfields. }
  repeat apply conj.
  - intros body t'. destruct (Hupdate body) as [->|(u & Hu & ->)].
    + rewrite Ht. intros [= <-]. auto 10.
    + cbn [tasks]. rewrite lookup_insert_eq. intros [= <-].
      unfold castUpdate in Hu.
      destruct (body_assignedTo body) as [a|]; [destruct (castId a); [|discriminate]|];
        injection Hu as <-; cbn; unfold default; cbn [from_option Datatypes.id];
        repeat split; try reflexivity; try discriminate; intros ->; reflexivity.
  - intros s t'. destruct (Hstatus s) as [->|(c & ->)].
    + rewrite Ht. intros [= <-]. now destruct t.
    + cbn [tasks]. rewrite lookup_insert_eq. intros [= <-]. now destruct t.
  - intros body k Hk. destruct (Hupdate body) as [->|(u & _ & ->)]; [reflexivity|].
    cbn [tasks]. now rewrite lookup_insert_ne.
  - intros s k Hk. destruct (Hstatus s) as [->|(c & ->)]; [reflexivity|].
    cbn [tasks]. now rewrite lookup_insert_ne.
  - intros body. destruct (Hupdate body) as [->|(u & _ & ->)]; reflexivity.
  - intros s. destruct (Hstatus s) as [->|(c & ->)]; reflexivity.
Qed.

(** *** [optionalAuth] *)

Lemma optionalAuth_outcome {A} authHeader now
    (next : option (string * User) -> Response A * Store) db :
  (exists token id oid u,
      authHeader = Some ("Bearer " ++ token)%string
      /\ jwtVerify token now = inr id
      /\ castId id = Some oid
      /\ users db !! oid = Some u
      /\ isActive u = Some true
      /\ optionalAuth authHeader now next db = next (Some (oid, with_password "" u)))
  \/ optionalAuth authHeader now next db = next None.
Proof.
  unfold optionalAuth. destruct authHeader as [header|]; [|now right].
  destruct (String.prefix "Bearer " header) eqn:Hprefix; [|now right].
  apply prefix_split in Hprefix. cbn [String.length] in Hprefix.
  destruct (jwtVerify _ now) as [name|id] eqn:Hverify; [now right|].
  unfold User_findById. destruct (castId id) as [oid|] eqn:Hcast; [|now right].
  destruct (users db !! oid) as [u|] eqn:Hu; cbn [fmap option_fmap option_map];
    [|now right].
  cbn [snd]. destruct (isTrue (isActive u)) eqn:Hactive; [|now right].
  apply isTrue_Some in Hactive.
  left. eexists _, id, oid, u. split; [f_equal; exact Hprefix|].
  repeat (split; [eassumption|]). reflexivity.
Qed.

(** X23. [optionalAuth] never answers by itself: the request always goes
    on.  When the header carries a token that verifies to the id of a
    stored, active user, the handler receives that user, without the digest;
    when the header carries no such token, the handler receives no user. *)
Theorem optionalAuth_never_refuses {A} authHeader now
    (next : option (string * User) -> Response A * Store) db :
  (forall token id oid u,
      authHeader = Some ("Bearer " ++ token)%string ->
      jwtVerify token now = inr id -> castId id = Some oid ->
      users db !! oid = Some u -> isActive u = Some true ->
      optionalAuth authHeader now next db = next (Some (oid, with_password "" u)))
  /\ ((forall token id oid u,
          authHeader = Some ("Bearer " ++ token)%string ->
          jwtVerify token now = inr id -> castId id = Some oid ->
          users db !! oid = Some u -> isActive u <> Some true) ->
      optionalAuth authHeader now next db = next None)
  /\ (exists passed, optionalAuth authHeader now next db = next passed).
Proof.
  split; [|split].
  - intros token id oid u -> Hverify Hcast Hu Hactive. unfold optionalAuth.
    destruct (bearer_token token) as [-> ->]. rewrite Hverify.
    rewrite (User_findById_found _ _ _ _ Hcast Hu). cbn [snd].
    now rewrite (proj2 (isTrue_Some _) Hactive).
  - intros Hnone.
    destruct (optionalAuth_outcome authHeader now next db)
      as [(token & id & oid & u & Hheader & Hverify & Hcast & Hu & Hactive & _)|Hskipped];
      [|exact Hskipped].
    destruct (Hnone token id oid u Hheader Hverify Hcast Hu). exact Hactive.
  - destruct (optionalAuth_outcome authHeader now next db)
      as [(token & id & oid & u & _ & _ & _ & _ & _ & Hpassed)|Hskipped]; eauto.
Qed.

(** *** The model's static listing *)

(** X24. [Task.getUserTasks] lists, earliest due date first, exactly the
    tasks assigned to the user, narrowed to a status when one is given; an
    empty status narrows nothing. *)
Theorem getUserTasks_lists_assigned_tasks userId status0 db :
  Task_getUserTasks userId status0 db
  ≡ₚ List.filter (fun d : string * Task =>
                    String.eqb (assignedTo d.2) userId
                    && (negb (truthy status0) || String.eqb (status d.2) (default "" status0)))
                 (map_to_list (tasks db))
  /\ StronglySorted (fun a b : string * Task => dueDate a.2 <= dueDate b.2)
                    (Task_getUserTasks userId status0 db)
  /\ Task_getUserTasks userId (Some "") db = Task_getUserTasks userId None db.
Proof.
  unfold Task_getUserTasks. split; [|split; [apply sortDocs_dueDate|reflexivity]].
  rewrite sortDocs_Permutation. unfold Task_find.
  erewrite filter_ext_in; [reflexivity|].
  intros d _. unfold matches, optMatches.
  cbn [filter_assignedTo filter_status filter_priority filter_or].
  rewrite !andb_true_r.
  destruct (truthy status0) eqn:Htruthy; cbn [negb orb]; [|now rewrite andb_true_r].
  destruct status0 as [s|]; [reflexivity|discriminate].
Qed.

(** *** The colour of a priority *)

(** X25. [priorityColor] over every value of the priority: the four
    priorities of the schema have four different colours, none of them the
    default grey; a name that objects inherit from [Object.prototype] yields
    the inherited member instead of a colour; and the result is the default
    grey exactly when the priority is neither one of the four nor such a
    name. *)
Theorem priorityColor_tells_priorities_apart t t' :
  (includes validPriorities (priority t) = true ->
   includes validPriorities (priority t') = true ->
   priorityColor t = priorityColor t' -> priority t = priority t')
  /\ (includes validPriorities (priority t) = true ->
      exists hex, priorityColor t = Color hex /\ hex <> "#6B7280")
  /\ (includes objectPrototypeKeys (priority t) = true ->
      priorityColor t = Inherited (priority t))
  /\ (priorityColor t = Color "#6B7280"
      <-> includes validPriorities (priority t) = false
          /\ includes objectPrototypeKeys (priority t) = false).
Proof.
  assert (forall x, includes validPriorities (priority x) = true ->
                    priority x = "low" \/ priority x = "medium"
                    \/ priority x = "high" \/ priority x = "urgent") as Hvalid.
  { intros x. unfold includes, validPriorities. cbn [existsb].
    rewrite !orb_true_iff, !String.eqb_eq. intuition discriminate. }
  split; [|split; [|split]].
  - intros Hp Hp'. unfold priorityColor. cbv zeta.
    destruct (Hvalid _ Hp) as [-> | [-> | [-> | ->]]],
             (Hvalid _ Hp') as [-> | [-> | [-> | ->]]];
      cbn; congruence.
  - intros Hp. unfold priorityColor. cbv zeta.
    destruct (Hvalid _ Hp) as [-> | [-> | [-> | ->]]];
      cbn; eexists; (split; [reflexivity|discriminate]).
  - unfold includes at 1. unfold objectPrototypeKeys at 1. cbn [existsb].
    rewrite !orb_true_iff, !String.eqb_eq. unfold priorityColor. cbv zeta.
    intros Hkey. repeat destruct Hkey as [Hkey|Hkey]; try discriminate;
      rewrite Hkey; reflexivity.
  - unfold priorityColor. cbv zeta. unfold includes at 2. unfold validPriorities.
    cbn [List.find existsb fst snd].
    rewrite (String.eqb_sym (priority t) "low"), (String.eqb_sym (priority t) "medium"),
      (String.eqb_sym (priority t) "high"), (String.eqb_sym (priority t) "urgent").
    destruct (String.eqb "low" (priority t)); [cbn; split; [discriminate|intros []; discriminate]|].
    destruct (String.eqb "medium" (priority t)); [cbn; split; [discriminate|intros []; discriminate]|].
    destruct (String.eqb "high" (priority t)); [cbn; split; [discriminate|intros []; discriminate]|].
    destruct (String.eqb "urgent" (priority t)); [cbn; split; [discriminate|intros []; discriminate]|].
    cbn [orb]. destruct (includes objectPrototypeKeys (priority t)).
    + split; [discriminate|intros []; discriminate].
    + split; [auto|reflexivity].
Qed.

(** *** The session state of the client *)

Lemma authReducer_consistent (state : AuthState) (action : AuthAction) :
  (isAuthenticated state = true <-> is_Some (state_token state))
  /\ (isAuthenticated state = true -> is_Some (state_user state))
  /\ (is_Some (state_error state) -> isAuthenticated state = false) ->
  (isAuthenticated (authReducer state action) = true
   <-> is_Some (state_token (authReducer state action)))
  /\ (isAuthenticated (authReducer state action) = true
      -> is_Some (state_user (authReducer state action)))
  /\ (is_Some (state_error (authReducer state action))
      -> isAuthenticated (authReducer state action) = false).
Proof.
  intros (Htoken & Huser & Herror).
  destruct action; cbn [authReducer isAuthenticated state_token state_user state_error];
    repeat split; intros; eauto; try tauto; try discriminate;
    try (exfalso; eapply is_Some_None; eassumption).
Qed.

(** X26. Whatever the actions dispatched since the start, the session state
    is consistent: it is authenticated exactly when it holds a token, an
    authenticated state holds a user, and a state with an error is not
    authenticated. *)
Theorem session_state_is_consistent (actions : list AuthAction) :
  (isAuthenticated (fold_left authReducer actions initialState) = true
   <-> is_Some (state_token (fold_left authReducer actions initialState)))
  /\ (isAuthenticated (fold_left authReducer actions initialState) = true
      -> is_Some (state_user (fold_left authReducer actions initialState)))
  /\ (is_Some (state_error (fold_left authReducer actions initialState))
      -> isAuthenticated (fold_left authReducer actions initialState) = false).
Proof.
  assert ((isAuthenticated initialState = true <-> is_Some (state_token initialState))
          /\ (isAuthenticated initialState = true -> is_Some (state_user initialState))
          /\ (is_Some (state_error initialState) -> isAuthenticated initialState = false))
    as Hinit.
  { cbn. repeat split; intros; try discriminate; try reflexivity.
    exfalso; eapply is_Some_None; eassumption. }
  revert Hinit. generalize initialState.
  induction actions as [|action actions IH]; intros state Hstate; cbn [fold_left];
    [exact Hstate|].
  apply IH. now apply authReducer_consistent.
Qed.

(** *** Overdue tasks on the client *)

(** X27. The overdue badge of the client is the [isOverdue] of the server
    read at the same instant.  The overdue count of the dashboard is
    narrower: with [today] not after [now], every task it counts is overdue,
    and a task that is not completed and fell due between [today] and [now]
    is overdue without being counted. *)
Theorem overdue_badge_and_dashboard_count now today t :
  badgeOverdue now t = isOverdue now t
  /\ (today <= now -> countedOverdue today t = true -> isOverdue now t = true)
  /\ (status t <> "completed" -> today <= dueDate t < now ->
      isOverdue now t = true /\ countedOverdue today t = false).
Proof.
  unfold badgeOverdue, isOverdue, countedOverdue.
  destruct (String.eqb_spec (status t) "completed") as [Hdone|Hopen]; cbn [negb andb].
  - rewrite andb_false_r. repeat split; try discriminate; contradiction.
  - rewrite andb_true_r. split; [reflexivity|]. split.
    + intros Htoday Hcounted. apply Z.ltb_lt in Hcounted. apply Z.ltb_lt. lia.
    + intros _ [Hfrom Hto]. split; [apply Z.ltb_lt|apply Z.ltb_ge]; lia.
Qed.

Lemma dashboard_counts (today : Z) (l : list Task) :
  (length (List.filter (fun t => String.eqb (status t) "pending") l)
   + length (List.filter (fun t => String.eqb (status t) "in-progress") l)
   + length (List.filter (fun t => String.eqb (status t) "completed") l)
   + length (List.filter (fun t => String.eqb (status t) "cancelled") l)
   + length (List.filter (fun t => negb (includes validStatuses (status t))) l)
   = length l)%nat
  /\ (length (List.filter (countedOverdue today) l)
      + length (List.filter (fun t => String.eqb (status t) "completed") l)
      <= length l)%nat.
Proof.
  induction l as [|t l [IHsum IHoverdue]]; [split; reflexivity|].
  cbn [List.filter length]. unfold countedOverdue at 1.
  unfold includes, validStatuses. cbn [existsb].
  unfold includes, validStatuses in IHsum. cbn [existsb] in IHsum.
  destruct (String.eqb_spec (status t) "pending"),
           (String.eqb_spec (status t) "in-progress"),
           (String.eqb_spec (status t) "completed"),
           (String.eqb_spec (status t) "cancelled"); try congruence;
    cbn [negb andb orb]; destruct (dueDate t <? today); cbn [length]; lia.
Qed.

(** X28. The figures of the dashboard add up: the pending, in-progress and
    completed tasks are never more than the total, and fall short of it by
    the cancelled tasks exactly when every status is one of the four; the
    overdue and the completed tasks together are never more than the total. *)
Theorem dashboard_figures_add_up today allTasks :
  (stats_pending (dashboardStats today allTasks)
   + stats_inProgress (dashboardStats today allTasks)
   + stats_completed (dashboardStats today allTasks)
   <= stats_total (dashboardStats today allTasks))%nat
  /\ (stats_overdue (dashboardStats today allTasks)
      + stats_completed (dashboardStats today allTasks)
      <= stats_total (dashboardStats today allTasks))%nat
  /\ (Forall (fun t => includes validStatuses (status t) = true) allTasks ->
      (stats_pending (dashboardStats today allTasks)
       + stats_inProgress (dashboardStats today allTasks)
       + stats_completed (dashboardStats today allTasks)
       + length (List.filter (fun t => String.eqb (status t) "cancelled") allTasks)
       = stats_total (dashboardStats today allTasks))%nat).
Proof.
  destruct (dashboard_counts today allTasks) as [Hsum Hoverdue].
  cbn [dashboardStats stats_pending stats_inProgress stats_completed stats_total stats_overdue].
  split; [lia|]. split; [exact Hoverdue|].
  intros Hvalid.
  assert (List.filter (fun t => negb (includes validStatuses (status t))) allTasks = [])
    as Hnone; [|rewrite Hnone in Hsum; cbn [length] in Hsum; lia].
  clear -Hvalid. induction Hvalid as [|t l Ht Hl IH]; [reflexivity|].
  cbn [List.filter]. rewrite Ht. cbn [negb]. exact IH.
Qed.

(** *** The priority board and the sort control *)

Lemma pushByPriority_columns (columns : PriorityColumns) (task : Task) :
  pushByPriority columns task
  = mkPriorityColumns
      (column_urgent columns ++ List.filter (onBoard "urgent") [task])%list
      (column_high columns ++ List.filter (onBoard "high") [task])%list
      (column_medium columns ++ List.filter (onBoard "medium") [task])%list
      (column_low columns ++ List.filter (onBoard "low") [task])%list.
Proof.
  unfold pushByPriority, onBoard. cbn [List.filter].
  destruct (negb (String.eqb (status task) "completed")
            && negb (String.eqb (status task) "cancelled")); cbn [andb].
  - destruct (String.eqb_spec (priority task) "urgent"),
             (String.eqb_spec (priority task) "high"),
             (String.eqb_spec (priority task) "medium"),
             (String.eqb_spec (priority task) "low"); try congruence;
      rewrite !app_nil_r; try reflexivity. now destruct columns.
  - rewrite !app_nil_r. now destruct columns.
Qed.

Lemma fold_pushByPriority (l : list Task) (columns : PriorityColumns) :
  fold_left pushByPriority l columns
  = mkPriorityColumns
      (column_urgent columns ++ List.filter (onBoard "urgent") l)%list
      (column_high columns ++ List.filter (onBoard "high") l)%list
      (column_medium columns ++ List.filter (onBoard "medium") l)%list
      (column_low columns ++ List.filter (onBoard "low") l)%list.
Proof.
  revert columns. induction l as [|task l IH]; intros columns; cbn [fold_left].
  - cbn [List.filter]. rewrite !app_nil_r. now destruct columns.
  - rewrite IH, pushByPriority_columns.
    cbn [column_urgent column_high column_medium column_low].
    rewrite <- !app_assoc.
    change (task :: l) with ([task] ++ l)%list. now rewrite !List.filter_app.
Qed.

(** X29. The priority board sorts the tasks without losing their order:
    for tasks with priorities of the schema, each of the four columns is the
    list of all tasks, in the order received, cut down to those of the
    column's priority that are neither completed nor cancelled.  So every
    such task is in exactly one column, and the columns together hold as many
    tasks as are neither completed nor cancelled. *)
Theorem priority_board_columns_are_filters allTasks :
  Forall (fun t => includes validPriorities (priority t) = true) allTasks ->
  groupByPriority allTasks
  = mkPriorityColumns (List.filter (onBoard "urgent") allTasks)
                      (List.filter (onBoard "high") allTasks)
                      (List.filter (onBoard "medium") allTasks)
                      (List.filter (onBoard "low") allTasks)
  /\ (length (column_urgent (groupByPriority allTasks))
      + length (column_high (groupByPriority allTasks))
      + length (column_medium (groupByPriority allTasks))
      + length (column_low (groupByPriority allTasks))
      = length (List.filter
                  (fun t => negb (String.eqb (status t) "completed")
                            && negb (String.eqb (status t) "cancelled"))
                  allTasks))%nat.
Proof.
  intros Hvalid.
  assert (groupByPriority allTasks
          = mkPriorityColumns (List.filter (onBoard "urgent") allTasks)
                              (List.filter (onBoard "high") allTasks)
                              (List.filter (onBoard "medium") allTasks)
                              (List.filter (onBoard "low") allTasks)) as Hcolumns.
  { unfold groupByPriority. now rewrite fold_pushByPriority. }
  split; [exact Hcolumns|]. rewrite Hcolumns.
  cbn [column_urgent column_high column_medium column_low]. clear Hcolumns.
  induction Hvalid as [|t l Ht Hl IH]; [reflexivity|].
  cbn [List.filter].
  assert (forall p, onBoard p t
                    = negb (String.eqb (status t) "completed")
                      && negb (String.eqb (status t) "cancelled")
                      && String.eqb (priority t) p) as Hon by reflexivity.
  rewrite !Hon. clear Hon.
  unfold includes, validPriorities in Ht. cbn [existsb] in Ht.
  destruct (negb (String.eqb (status t) "completed")
            && negb (String.eqb (status t) "cancelled")); cbn [andb length]; [|exact IH].
  destruct (String.eqb_spec (priority t) "urgent"),
           (String.eqb_spec (priority t) "high"),
           (String.eqb_spec (priority t) "medium"),
           (String.eqb_spec (priority t) "low"); try congruence; try discriminate;
    cbn [length]; lia.
Qed.

(** X30. The sort control of the task page: choosing a column sorts by it,
    ascending unless the page was already sorted by it ascending, so the
    order sent is always [asc] or [desc]; choosing the same column twice in
    a row gives back the state before. *)
Theorem sort_control_toggles sortBy (prev : SortState) :
  sort_sortBy (handleSortChange sortBy prev) = sortBy
  /\ (sort_sortOrder (handleSortChange sortBy prev) = "asc"
      \/ sort_sortOrder (handleSortChange sortBy prev) = "desc")
  /\ (sort_sortBy prev <> sortBy -> sort_sortOrder (handleSortChange sortBy prev) = "asc")
  /\ (sort_sortOrder prev = "asc" \/ sort_sortOrder prev = "desc" ->
      handleSortChange (sort_sortBy prev) (handleSortChange (sort_sortBy prev) prev) = prev).
Proof.
  unfold handleSortChange. cbn [sort_sortBy sort_sortOrder].
  split; [reflexivity|]. split; [|split].
  - destruct (_ && _); auto.
  - intros Hother. now rewrite (proj2 (String.eqb_neq _ _) Hother).
  - rewrite String.eqb_refl. cbn [andb]. destruct prev as [col order]. cbn [sort_sortBy sort_sortOrder].
    intros [-> | ->]; reflexivity.
Qed.

End AccountProperties.

(** ** The properties on the example store *)

#[local] Existing Instance Example.platform.

#[local] Existing Instance Example.services.

Import Example.

(** C1. A status change sent through the general update reaches the store
    without its completion date: [updateTask] by the assignee of pending
    task 1 with [{ status: 'completed' }] succeeds and stores the status
    [completed] next to [completedAt = null], where [updateTaskStatus] with
    the same status on the same store stamps [completedAt] with the clock. *)
Theorem updateTask_completes_without_completedAt :
  isSuccess (updateTask clock alice task1_id (statusBody "completed") db0).1 = true
  /\ tasks (updateTask clock alice task1_id (statusBody "completed") db0).2 !! task1_id
     = Some (with_status "completed" task1)
  /\ completedAt (with_status "completed" task1) = None
  /\ tasks (updateTaskStatus clock alice task1_id "completed" db0).2 !! task1_id
     = Some (with_completedAt (Some clock) (with_status "completed" task1)).
Proof. repeat split; vm_compute; reflexivity. Qed.

(** C6. [daysUntilDue] is a day off after a clock change.  On a server in
    New York, at noon of Saturday 31 October 2026, a task due on Monday
    2 November at 09:00 is due two calendar days ahead; the clocks go back
    in between, the two local midnights are 49 hours apart, and
    [Math.ceil(49 / 24)] makes [daysUntilDue] 3.  On a server on UTC the same
    task at the same instant has [daysUntilDue] 2. *)
Theorem daysUntilDue_is_a_day_off_after_a_clock_change :
  @localDay newYork (dueDate mondayTask) - @localDay newYork saturdayNoon = 2
  /\ @startOfDay newYork (dueDate mondayTask) - @startOfDay newYork saturdayNoon = hour 49
  /\ @daysUntilDue newYork saturdayNoon mondayTask = 3
  /\ @daysUntilDue platform saturdayNoon mondayTask = 2.
Proof. repeat split; vm_compute; reflexivity. Qed.

(** C8. The admin deactivates the admin's own account after all.  The guard
    of [updateUser] tests [isActive === false]: the Boolean [false] is refused
    with 400, but sent as the text [false], as a form sends it, the value
    passes the guard, the ODM casts it to false, and the request is answered
    200 with the admin's record stored inactive, so that the admin's token is
    refused from then on.  The admin's deletion of the own record is
    refused. *)
Theorem admin_deactivates_own_account_with_text_false :
  route_updateUser (Some admin) admin_id deactivate db0
  = (Failure 400 "You cannot deactivate your own account" [], db0)
  /\ isSuccess (route_updateUser (Some admin) admin_id deactivateAsText db0).1 = true
  /\ users (route_updateUser (Some admin) admin_id deactivateAsText db0).2 !! admin_id
     = Some (mkUser "root" "root@example.org" "$2a$12$hash" "admin" None None (Some false))
  /\ api_getAllUsers (bearer (toySign admin_id clock)) clock everyUser
       (route_updateUser (Some admin) admin_id deactivateAsText db0).2
     = (Failure 401 "User account is deactivated" [],
        (route_updateUser (Some admin) admin_id deactivateAsText db0).2)
  /\ route_deleteUser (Some admin) admin_id db0
     = (Failure 400 "You cannot delete your own account" [], db0).
Proof. repeat split; vm_compute; reflexivity. Qed.

(** C9. No statistics are returned at all: [getUserById] converts the id
    with [mongoose.Types.ObjectId(id)], a call without [new], which throws
    where [ObjectId] is a class.  The admin's request for Carol, a stored
    user, then ends in the [catch] with 500 instead of statistics, as does
    the request for every other stored user, while [deleteUser] goes on
    counting the task that Carol created and refuses to delete her. *)
Theorem getUserById_fails_at_the_ObjectId_call :
  users db0 !! carol_id = Some (account "carol" "user")
  /\ route_getUserById (Some admin) carol_id db0
     = (Failure 500 "Server error fetching user" [], db0)
  /\ (forall id, is_Some (users db0 !! id) ->
                 route_getUserById (Some admin) id db0
                 = (Failure 500 "Server error fetching user" [], db0))
  /\ route_deleteUser (Some admin) carol_id db0
     = (Failure 400 (cannotDelete 1) [], db0).
Proof.
  split; [reflexivity|]. split; [reflexivity|]. split; [|reflexivity].
  intros id [u Hu].
  assert (map_Forall (fun k _ => isValid k = true /\ castId k = Some k) (users db0)) as Hids
    by (apply (bool_decide_unpack _); vm_compute; reflexivity).
  destruct (Hids id u Hu) as [Hvalid Hcast].
  unfold route_getUserById. rewrite adminAuth_admin by reflexivity.
  now apply getUserById_where_the_call_throws with (oid := id) (u := u).
Qed.

Lemma db0_statuses : statusesValid db0.
Proof. apply (bool_decide_unpack _). vm_compute. reflexivity. Defined.

Lemma db0_dave_unreferenced tid t :
  tasks db0 !! tid = Some t -> assignedTo t <> dave_id /\ createdBy t <> dave_id.
Proof.
  revert tid t. apply map_Forall_lookup.
  apply (bool_decide_unpack _). vm_compute. reflexivity.
Defined.

Lemma db0_carol_unassigned tid t :
  tasks db0 !! tid = Some t -> assignedTo t <> carol_id.
Proof.
  revert tid t. apply map_Forall_lookup.
  apply (bool_decide_unpack _). vm_compute. reflexivity.
Defined.


(** Carol is neither creator nor assignee of task 1. *)
Lemma stranger_is_forbidden_witness :
  deleteTask carol task1_id db0
    = (Failure 403 "Only task creator or admin can delete tasks" [], db0)
  /\ updateTask clock carol task1_id (statusBody "completed") db0
     = (Failure 403 "Access denied" [], db0)
  /\ getTaskById carol task1_id db0 = (Failure 403 "Access denied" [], db0).
Proof.
  assert (user_id carol <> createdBy task1) as Hcreator by discriminate.
  assert (user_id carol <> assignedTo task1) as Hassignee by discriminate.
  assert (isAdmin carol = false) as Hrole by reflexivity.
  assert (isValid task1_id = true) as Hvalid by reflexivity.
  assert (castId task1_id = Some task1_id) as Hcast by reflexivity.
  assert (tasks db0 !! task1_id = Some task1) as Hstored by reflexivity.
  destruct (stranger_is_forbidden clock carol task1_id task1_id task1
              (statusBody "completed") db0 Hrole Hvalid Hcast Hstored Hcreator)
    as [Hdelete Hrest].
  destruct (Hrest Hassignee) as (Hupdate & _ & _ & Hget).
  split; [exact Hdelete|]. split; [exact Hupdate|].
  apply Hget; eexists; reflexivity.
Defined.

(** Alice lists her tasks. *)
Lemma list_is_scoped_to_actor_witness :
  isAdmin alice = false
  /\ getTasks alice (with_query_assignedTo (Some admin_id) defaultQuery) db0
     = getTasks alice (with_query_assignedTo None defaultQuery) db0
  /\ map fst (responseTasks (getTasks alice defaultQuery db0)) = [task1_id; task2_id]
  /\ (forall doc : string * Task,
        doc ∈ responseTasks (getTasks alice defaultQuery db0) ->
        assignedTo doc.2 = user_id alice).
Proof.
  destruct (list_is_scoped_to_actor alice defaultQuery db0) as (_ & Hsame & Hmine);
    [reflexivity|].
  split; [reflexivity|]. split; [apply Hsame|]. split; [reflexivity|exact Hmine].
Defined.

(** The admin lists all three tasks, two to a page. *)
Lemma pagination_partitions_result_witness :
  buildQuery admin twoPerPage = inr everyTask
  /\ list_pagination_of (getTasks admin (with_query_page 1 twoPerPage) db0)
     = Some (mkPagination 1 2 3 true false)
  /\ list_pagination_of (getTasks admin (with_query_page 2 twoPerPage) db0)
     = Some (mkPagination 2 2 3 false true)
  /\ concat (map (fun p => responseTasks (getTasks admin (with_query_page p twoPerPage) db0))
                 (pageNumbers 2))
     ≡ₚ Task_find everyTask db0.
Proof.
  destruct (pagination_partitions_result admin twoPerPage db0 everyTask)
    as (Hpage & _ & Hperm & _); [reflexivity|].
  split; [reflexivity|]. split; [|split; [|exact Hperm]].
  - destruct (Hpage 1%positive) as [-> _]. reflexivity.
  - destruct (Hpage 2%positive) as [-> _]. reflexivity.
Defined.

(** Alice has tasks, Dave has none. *)
Lemma deleteUser_blocked_while_referenced_witness :
  route_deleteUser (Some admin) alice_id db0
  = (Failure 400 (cannotDelete (countReferencing alice_id db0)) [], db0)
  /\ countReferencing alice_id db0 = 2
  /\ route_deleteUser (Some admin) dave_id db0
     = (Success 200 (), mkStore (delete dave_id (users db0)) (tasks db0)).
Proof.
  split.
  - apply (deleteUser_blocked_while_referenced admin alice_id alice_id
             (account "alice" "user") db0); try reflexivity; try discriminate.
    exists task1_id, task1. split; [reflexivity|]. left. reflexivity.
  - split; [reflexivity|].
    apply (deleteUser_blocked_while_referenced admin dave_id dave_id
             (account "dave" "user") db0); try reflexivity; try discriminate.
    apply db0_dave_unreferenced.
Defined.

(** An id that is not 24 hexadecimal digits. *)
Lemma invalid_task_id_rejected_before_lookup_witness :
  isValid "not-an-id" = false
  /\ getTaskById alice "not-an-id" db0 = (Failure 400 "Invalid task ID" [], db0)
  /\ updateTask clock alice "not-an-id" noBody db0 = (Failure 400 "Invalid task ID" [], db0)
  /\ updateTaskStatus clock alice "not-an-id" "completed" db0
     = (Failure 400 "Invalid task ID" [], db0)
  /\ deleteTask alice "not-an-id" db0 = (Failure 400 "Invalid task ID" [], db0).
Proof.
  split; [reflexivity|].
  apply (proj1 invalid_task_id_rejected_before_lookup "not-an-id"). reflexivity.
Defined.

(** Alice completes pending task 1 through the status route. *)
Lemma updateTaskStatus_restores_completedAt_witness :
  exists t',
    tasks (updateTaskStatus clock alice task1_id "completed" db0).2 !! task1_id = Some t'
    /\ status t' = "completed"
    /\ (is_Some (completedAt t') <-> "completed" = "completed").
Proof.
  apply (updateTaskStatus_restores_completedAt clock alice task1_id task1_id task1
           "completed" db0); try reflexivity.
  discriminate.
Defined.

(** Alice completes pending task 1 through the general update. *)
Lemma updateTask_keeps_completedAt_witness :
  tasks (updateTask clock alice task1_id (statusBody "completed") db0).2 !! task1_id
  = Some (with_status "completed" task1)
  /\ completedAt (with_status "completed" task1) = completedAt task1.
Proof.
  split; [reflexivity|].
  apply (updateTask_keeps_completedAt clock alice task1_id task1_id task1
           (statusBody "completed") db0); reflexivity.
Defined.

Lemma db0_refs : refsResolve db0.
Proof. apply (bool_decide_unpack _). vm_compute. reflexivity. Defined.

(** The admin deletes Dave, to whom no task refers. *)
Lemma writes_keep_references_resolved_witness :
  refsResolve db0
  /\ isSuccess (deleteUser admin dave_id db0).1 = true
  /\ refsResolve (deleteUser admin dave_id db0).2.
Proof.
  split; [exact db0_refs|]. split; [reflexivity|].
  apply (writes_keep_references_resolved clock admin dave_id db0 db0_refs).
Defined.

(** A task due yesterday is overdue while pending and not once completed;
    its due day is one day back. *)
Example overdue_scenario :
  isOverdue clock (lateTask "pending") = true
  /\ isOverdue clock (lateTask "completed") = false
  /\ daysUntilDue clock (lateTask "pending") = -1.
Proof. repeat split; reflexivity. Qed.

(** The status route refuses a status outside the enumeration. *)
Example invalid_status_refused :
  updateTaskStatus clock alice task1_id "done" db0
  = (Failure 400 "Invalid status. Must be one of: pending, in-progress, completed, cancelled"
       [], db0).
Proof. reflexivity. Qed.

(** The general update refuses it too, through the update validators. *)
Example invalid_status_refused_on_update :
  updateTask clock alice task1_id (statusBody "done") db0
  = (Failure 400 "Validation error" ["done is not a valid status"], db0).
Proof. reflexivity. Qed.

(** ** The accounts, the middleware and the client on the example store *)

Lemma db0_unique : usersUnique db0.
Proof.
  assert (map_Forall
            (fun i u => map_Forall
                          (fun j v => username u = username v \/ email u = email v -> i = j)
                          (users db0))
            (users db0)) as Hall
    by (apply (bool_decide_unpack _); vm_compute; reflexivity).
  intros i j u v Hi Hj. exact (Hall i u Hi j v Hj).
Defined.

Lemma db1_unique : usersUnique db1.
Proof.
  assert (map_Forall
            (fun i u => map_Forall
                          (fun j v => username u = username v \/ email u = email v -> i = j)
                          (users db1))
            (users db1)) as Hall
    by (apply (bool_decide_unpack _); vm_compute; reflexivity).
  intros i j u v Hi Hj. exact (Hall i u Hi j v Hj).
Defined.

(** Dave, deactivated, tries his password and then an old token. *)
Lemma deactivated_account_is_locked_out_witness :
  (exists code message, login clock daveLogin db1 = (Failure code message [], db1))
  /\ api_updateTaskStatus (bearer (toySign dave_id clock)) clock task1_id "completed" db1
     = (Failure 401 "User account is deactivated" [], db1).
Proof.
  assert (users db1 !! dave_id
          = Some (mkUser "dave" "dave@example.org" "$2a$12$hash" "user" None None
                         (Some false)))
    as Hdave by reflexivity.
  assert (isActive (mkUser "dave" "dave@example.org" "$2a$12$hash" "user" None None
                           (Some false))
          <> Some true) as Hoff by discriminate.
  destruct (deactivated_account_is_locked_out (A := string * Task) clock dave_id _ db1
              db1_unique Hdave Hoff) as [Hlogin Hauth].
  split.
  - apply Hlogin. reflexivity.
  - apply (Hauth (toySign dave_id clock) dave_id); reflexivity.
Defined.

Lemma erin_registers :
  register clock erin_id "salt" erinBody db0
  = (Success 201
       (mkAuthData (toySign erin_id clock)
          (userView (erin_id, mkUser "erin" "erin@example.org" "salt$s3cret!" "user"
                                     (Some "Erin") (Some "Moss") (Some true)))),
     db2).
Proof. vm_compute. reflexivity. Defined.

(** Erin signs up and asks for the admin role. *)
Lemma register_creates_plain_active_user_witness :
  new_role erinBody = Some "admin"
  /\ exists u,
       users db2 !! erin_id = Some u /\ role u = "user" /\ isActive u = Some true
       /\ password u = toyHash "s3cret!" "salt".
Proof.
  split; [reflexivity|].
  destruct (register_creates_plain_active_user clock erin_id "salt" erinBody db0 _ _ _
              erin_registers) as (_ & (u & pw & Hu & Hrole & Hactive & Hpw & Hdigest & _) & _).
  exists u. split; [exact Hu|]. split; [exact Hrole|]. split; [exact Hactive|].
  assert (pw = "s3cret!") as <- by (cbn in Hpw; congruence). exact Hdigest.
Defined.

Lemma erin_logs_in :
  login (clock + 1000) erinLogin db2
  = (Success 200
       (mkAuthData (toySign erin_id (clock + 1000))
          (userView (erin_id, mkUser "erin" "erin@example.org" "salt$s3cret!" "user"
                                     (Some "Erin") (Some "Moss") (Some true)))),
     db2).
Proof. vm_compute. reflexivity. Defined.

(** Erin logs in a second after signing up. *)
Lemma login_succeeds_only_on_matching_digest_witness :
  exists oid u,
    users db2 !! oid = Some u /\ email u = "erin@example.org" /\ isActive u = Some true
    /\ toyCompare "s3cret!" (password u) = true.
Proof.
  destruct (login_succeeds_only_on_matching_digest (clock + 1000) erinLogin db2 _ _ _
              erin_logs_in) as (_ & _ & oid & u & mail & pw & Hmail & Hpw & Hu & He & Ha & Hc & _).
  exists oid, u. split; [exact Hu|].
  assert (mail = "erin@example.org") as <- by (cbn in Hmail; congruence).
  assert (pw = "s3cret!") as <- by (cbn in Hpw; congruence).
  split; [exact He|]. split; [exact Ha|exact Hc].
Defined.

(** Erin signs up, logs in and reads her group's tasks. *)
Lemma register_login_auth_round_trip_witness :
  exists u,
    users db2 !! erin_id = Some u
    /\ login (clock + 1000) (mkLoginBody (new_email erinBody) (new_password erinBody)) db2
       = (Success 200 (mkAuthData (toySign erin_id (clock + 1000)) (userView (erin_id, u))), db2)
    /\ withAuth (bearer (toySign erin_id (clock + 1000))) (clock + 2000)
                (fun user => getTasks user defaultQuery db2) db2
       = getTasks (mkReqUser erin_id "user") defaultQuery db2.
Proof.
  assert (new_password erinBody = Some "s3cret!") as Hpw by reflexivity.
  assert (bcryptCompare "s3cret!" (bcryptHash "s3cret!" "salt") = true) as Hmatch by reflexivity.
  assert (jwtVerify (jwtSign erin_id (clock + 1000)) (clock + 2000) = inr erin_id)
    as Hverify by reflexivity.
  assert (castId erin_id = Some erin_id) as Hcast by reflexivity.
  destruct (register_login_auth_round_trip (A := TaskList) clock (clock + 1000) (clock + 2000)
              erin_id "salt" erinBody db0 _ _ db2 "s3cret!"
              erin_registers Hpw Hmatch Hverify Hcast) as (u & Hu & Hlogin & Hauth).
  exists u. split; [exact Hu|]. split; [exact Hlogin|].
  unfold withAuth, bearer. rewrite Hauth.
  assert (role u = "user") as Hrole
    by (change (users db2 !! erin_id) with
            (Some (mkUser "erin" "erin@example.org" "salt$s3cret!" "user"
                          (Some "Erin") (Some "Moss") (Some true))) in Hu;
        injection Hu as <-; reflexivity).
  unfold reqUser. cbn [fst snd with_password role]. now rewrite Hrole.
Defined.

(** Erin's registration on the example store. *)
Lemma writes_keep_users_unique_witness :
  usersUnique db0 /\ usersUnique db2.
Proof.
  split; [exact db0_unique|].
  destruct (writes_keep_users_unique clock erin_id "salt" dave_id admin db0 db0_unique)
    as (Hregister & _).
  pose proof (Hregister erinBody) as Hunique.
  rewrite erin_registers in Hunique. exact Hunique.
Defined.

(** The admin deactivates Dave, or deletes him; Dave's token is then refused. *)
Lemma revoked_accounts_lose_access_witness :
  isSuccess (updateUser admin dave_id deactivate db0).1 = true
  /\ api_updateTaskStatus (bearer (toySign dave_id clock)) clock task1_id "completed"
       (updateUser admin dave_id deactivate db0).2
     = (Failure 401 "User account is deactivated" [], (updateUser admin dave_id deactivate db0).2)
  /\ isSuccess (deleteUser admin dave_id db0).1 = true
  /\ api_updateTaskStatus (bearer (toySign dave_id clock)) clock task1_id "completed"
       (deleteUser admin dave_id db0).2
     = (Failure 401 "Token is valid but user not found" [], (deleteUser admin dave_id db0).2).
Proof.
  assert (castId dave_id = Some dave_id) as Hcast by reflexivity.
  assert (jwtVerify (jwtSign dave_id clock) clock = inr dave_id) as Hverify by reflexivity.
  assert (isSuccess (updateUser admin dave_id deactivate db0).1 = true) as Hupdated
    by reflexivity.
  assert (isSuccess (deleteUser admin dave_id db0).1 = true) as Hdeleted by reflexivity.
  assert (body_isActive deactivate = Some (JBool false)) as Hbody by reflexivity.
  assert (castBoolean (JBool false) = inr (Some false)) as Hfalse by reflexivity.
  assert (Some false <> Some true) as Hoff by discriminate.
  split; [exact Hupdated|]. split; [|split; [exact Hdeleted|]].
  - destruct (revoked_accounts_lose_access (A := string * Task) clock admin dave_id dave_id
                db0 (toySign dave_id clock) dave_id
                (fun user => updateTaskStatus clock (reqUser user) task1_id "completed"
                               (updateUser admin dave_id deactivate db0).2)
                Hcast Hverify Hcast) as [Hrevoked _].
    exact (Hrevoked deactivate (JBool false) (Some false) Hbody Hfalse Hoff Hupdated).
  - destruct (revoked_accounts_lose_access (A := string * Task) clock admin dave_id dave_id
                db0 (toySign dave_id clock) dave_id
                (fun user => updateTaskStatus clock (reqUser user) task1_id "completed"
                               (deleteUser admin dave_id db0).2)
                Hcast Hverify Hcast) as [_ Hrevoked].
    exact (Hrevoked Hdeleted).
Defined.

Lemma alice_renames :
  exists data db',
    updateProfile (alice_id, account "alice" "user") (rename "alicia") db0
    = (Success 200 data, db').
Proof. eexists _, _. vm_compute. reflexivity. Defined.

(** Alice changes her username. *)
Lemma user_updates_keep_credentials_witness :
  exists u',
    users (updateProfile (alice_id, account "alice" "user") (rename "alicia") db0).2 !! alice_id
    = Some u'
    /\ username u' = "alicia" /\ email u' = "alice@example.org" /\ role u' = "user"
    /\ password u' = "$2a$12$hash".
Proof.
  destruct alice_renames as (data & db' & Hrenamed).
  destruct (user_updates_keep_credentials (alice_id, account "alice" "user") admin alice_id
              alice_id deactivate db0) as [Hprofile _].
  destruct (Hprofile _ _ _ _ Hrenamed) as (u & u' & Hu & Hu' & Hmail & Hdigest & Hrole & _).
  rewrite Hrenamed. cbn [fst snd] in *. exists u'. split; [exact Hu'|].
  assert (Some u = Some (account "alice" "user")) as Hsame by (rewrite <- Hu; reflexivity).
  injection Hsame as ->.
  split; [|split; [exact Hmail|split; [exact Hrole|exact Hdigest]]].
  pose proof Hrenamed as Hcomputed. vm_compute in Hcomputed.
  injection Hcomputed as _ <-. vm_compute in Hu'. now injection Hu' as <-.
Defined.

(** Alice, who is no admin, calls the five routes of user management. *)
Lemma user_management_needs_admin_witness :
  api_getAllUsers (bearer (toySign alice_id clock)) clock everyUser db0
  = (Failure 403 "Admin access required" [], db0)
  /\ api_createUser (bearer (toySign alice_id clock)) clock erin_id "salt" erinBody db0
     = (Failure 403 "Admin access required" [], db0)
  /\ api_getUserById (bearer (toySign alice_id clock)) clock dave_id db0
     = (Failure 403 "Admin access required" [], db0)
  /\ api_updateUser (bearer (toySign alice_id clock)) clock dave_id deactivate db0
     = (Failure 403 "Admin access required" [], db0)
  /\ api_deleteUser (bearer (toySign alice_id clock)) clock dave_id db0
     = (Failure 403 "Admin access required" [], db0).
Proof.
  assert (jwtVerify (jwtSign alice_id clock) clock = inr alice_id) as Hverify by reflexivity.
  assert (castId alice_id = Some alice_id) as Hcast by reflexivity.
  assert (users db0 !! alice_id = Some (account "alice" "user")) as Halice by reflexivity.
  assert (isActive (account "alice" "user") = Some true) as Hactive by reflexivity.
  assert (role (account "alice" "user") <> "admin") as Hrole by discriminate.
  destruct (user_management_needs_admin clock (toySign alice_id clock) alice_id alice_id
              (account "alice" "user") db0 Hverify Hcast Halice Hactive Hrole)
    as (Hlist & Hcreate & Hget & Hupdate & Hdelete).
  split; [apply Hlist|]. split; [apply Hcreate|]. split; [apply Hget|].
  split; [apply Hupdate|apply Hdelete].
Defined.

Lemma carol_creates_offsite :
  createTask clock task4_id carol offsite db0
  = (Success 201 (task4_id, task4),
     mkStore (users db0) (<[task4_id := task4]> (tasks db0))).
Proof. vm_compute. reflexivity. Defined.

(** Carol creates a task for Dave. *)
Lemma createTask_adds_pending_task_of_actor_witness :
  tasks db0 !! task4_id = None
  /\ createdBy task4 = user_id carol
  /\ status task4 = "pending" /\ completedAt task4 = None
  /\ is_Some (users db0 !! assignedTo task4).
Proof.
  destruct (createTask_adds_pending_task_of_actor clock task4_id carol offsite db0 _ _ _
              carol_creates_offsite)
    as (Hfresh & _ & _ & Hcreator & Hstatus & Hdone & _ & _ & _ & _ & Hassignee & _).
  split; [exact Hfresh|]. split; [exact Hcreator|]. split; [exact Hstatus|].
  split; [exact Hdone|]. apply Hassignee. reflexivity.
Defined.

(** The store after Carol's task still has valid statuses and references. *)
Lemma createTask_keeps_store_invariants_witness :
  statusesValid (createTask clock task4_id carol offsite db0).2
  /\ refsResolve (createTask clock task4_id carol offsite db0).2.
Proof.
  destruct (createTask_keeps_store_invariants clock task4_id carol offsite db0)
    as [Hstatuses Hrefs].
  split; [exact (Hstatuses db0_statuses)|].
  apply Hrefs; [|exact db0_refs]. eexists. reflexivity.
Defined.

(** Carol reads her new task back and deletes it. *)
Lemma createTask_then_read_and_delete_witness :
  getTaskById carol task4_id (mkStore (users db0) (<[task4_id := task4]> (tasks db0)))
  = (Success 200 (task4_id, task4), mkStore (users db0) (<[task4_id := task4]> (tasks db0)))
  /\ deleteTask carol task4_id (mkStore (users db0) (<[task4_id := task4]> (tasks db0)))
     = (Success 200 (), db0).
Proof.
  assert (isValid task4_id = true) as Hvalid by reflexivity.
  assert (castId task4_id = Some task4_id) as Hcast by reflexivity.
  assert (is_Some (users db0 !! user_id carol)) as Hcarol by (eexists; reflexivity).
  exact (createTask_then_read_and_delete clock task4_id carol offsite db0 _ _ _
           carol_creates_offsite Hvalid Hcast Hcarol).
Defined.

(** Alice asks for the tasks of high priority, and for those of no priority. *)
Lemma getTasksByPriority_lists_scoped_and_sorted_witness :
  (exists message, getTasksByPriority alice "asap" db0 = (Failure 400 message [], db0))
  /\ exists found,
       getTasksByPriority alice "high" db0
       = (Success 200 (mkPriorityList "high" found (Z.of_nat (length found))), db0)
       /\ map fst found = [task1_id].
Proof.
  destruct (getTasksByPriority_lists_scoped_and_sorted alice "asap" db0) as [Hrefused _].
  destruct (getTasksByPriority_lists_scoped_and_sorted alice "high" db0) as [_ Hlisted].
  split; [apply Hrefused; reflexivity|].
  destruct Hlisted as (found & Hanswer & _); [reflexivity|].
  exists found. split; [exact Hanswer|].
  assert (getTasksByPriority alice "high" db0
          = (Success 200 (mkPriorityList "high" [(task1_id, task1)] 1), db0)) as Hcomputed
    by (vm_compute; reflexivity).
  rewrite Hcomputed in Hanswer. now injection Hanswer as <-.
Defined.


(** Alice is the assignee of task 1, which the admin created. *)
Lemma task_access_is_exact_witness :
  getTaskById alice task1_id db0 = (Success 200 (task1_id, task1), db0)
  /\ isSuccess (deleteTask alice task1_id db0).1 = false.
Proof.
  assert (isValid task1_id = true) as Hvalid by reflexivity.
  assert (castId task1_id = Some task1_id) as Hcast by reflexivity.
  assert (tasks db0 !! task1_id = Some task1) as Hstored by reflexivity.
  assert (is_Some (users db0 !! assignedTo task1)) as Hassignee by (eexists; reflexivity).
  assert (is_Some (users db0 !! createdBy task1)) as Hcreator by (eexists; reflexivity).
  destruct (task_access_is_exact alice task1_id task1_id task1 db0
              Hvalid Hcast Hstored Hassignee Hcreator) as [Hread Hdelete].
  split.
  - apply Hread. right. left. reflexivity.
  - destruct (isSuccess (deleteTask alice task1_id db0).1) eqn:Hdeleted; [|reflexivity].
    destruct (proj1 Hdelete eq_refl) as [Hadmin|Hmine]; discriminate.
Defined.

(** Carol may not delete task 1, and the refusal leaves the store alone. *)
Lemma refused_requests_write_nothing_witness :
  isSuccess (deleteTask carol task1_id db0).1 = false
  /\ (deleteTask carol task1_id db0).2 = db0.
Proof.
  assert (isSuccess (deleteTask carol task1_id db0).1 = false) as Hrefused by reflexivity.
  split; [exact Hrefused|].
  destruct (refused_requests_write_nothing clock erin_id "salt" carol task1_id db0)
    as (_ & _ & _ & Hdelete & _).
  exact (Hdelete Hrefused).
Defined.

(** Alice sets task 1 to completed through the general update. *)
Lemma task_updates_touch_named_fields_only_witness :
  exists t',
    tasks (updateTask clock alice task1_id (statusBody "completed") db0).2 !! task1_id = Some t'
    /\ title t' = title task1 /\ assignedTo t' = assignedTo task1
    /\ createdBy t' = createdBy task1
    /\ tasks (updateTask clock alice task1_id (statusBody "completed") db0).2 !! task2_id
       = tasks db0 !! task2_id.
Proof.
  assert (castId task1_id = Some task1_id) as Hcast by reflexivity.
  assert (tasks db0 !! task1_id = Some task1) as Hstored by reflexivity.
  destruct (task_updates_touch_named_fields_only clock alice task1_id task1_id task1 db0
              Hcast Hstored) as (Hfields & _ & Hothers & _).
  assert (tasks (updateTask clock alice task1_id (statusBody "completed") db0).2 !! task1_id
          = Some (with_status "completed" task1)) as Hafter by reflexivity.
  exists (with_status "completed" task1). split; [exact Hafter|].
  destruct (Hfields _ _ Hafter) as (Hcreator & _ & Htitle & _ & _ & _ & _ & Hassignee & _).
  split; [apply Htitle; reflexivity|]. split; [apply Hassignee; reflexivity|].
  split; [exact Hcreator|]. apply Hothers. discriminate.
Defined.

(** A route that lists the tasks of whoever is logged in, called with
    Alice's token and with the token of deactivated Dave. *)
Lemma optionalAuth_never_refuses_witness :
  optionalAuth (bearer (toySign alice_id clock)) clock
    (fun passed => (Success 200 (fst <$> passed), db1)) db1
  = (Success 200 (Some alice_id), db1)
  /\ optionalAuth (bearer (toySign dave_id clock)) clock
       (fun passed => (Success 200 (fst <$> passed), db1)) db1
     = (Success 200 None, db1).
Proof.
  destruct (optionalAuth_never_refuses (bearer (toySign alice_id clock)) clock
              (fun passed => (Success 200 (fst <$> passed), db1)) db1) as [Hpassed _].
  destruct (optionalAuth_never_refuses (bearer (toySign dave_id clock)) clock
              (fun passed => (Success 200 (fst <$> passed), db1)) db1) as (_ & Hskipped & _).
  assert (jwtVerify (jwtSign alice_id clock) clock = inr alice_id) as Hverify by reflexivity.
  assert (castId alice_id = Some alice_id) as Hcast by reflexivity.
  assert (users db1 !! alice_id = Some (account "alice" "user")) as Halice by reflexivity.
  assert (isActive (account "alice" "user") = Some true) as Hactive by reflexivity.
  split.
  - rewrite (Hpassed (toySign alice_id clock) alice_id alice_id (account "alice" "user")
               eq_refl Hverify Hcast Halice Hactive).
    reflexivity.
  - apply Hskipped. intros token id oid u Hheader Htoken Hid Hu.
    vm_compute in Hheader. injection Hheader as <-.
    vm_compute in Htoken. injection Htoken as <-.
    vm_compute in Hid. injection Hid as <-.
    vm_compute in Hu. injection Hu as <-.
    discriminate.
Defined.

(** Tasks 1 and 2 have the priorities high and low; a task could only get
    the priority [toString] past the validators. *)
Lemma priorityColor_tells_priorities_apart_witness :
  priorityColor task1 <> priorityColor task2
  /\ priorityColor task1 <> Color "#6B7280"
  /\ priorityColor (mkTask "Odd" "One" (day 20001) "pending" "toString"
                           alice_id alice_id None [] [])
     = Inherited "toString".
Proof.
  destruct (priorityColor_tells_priorities_apart task1 task2) as (Hapart & _ & _ & Hgrey).
  destruct (priorityColor_tells_priorities_apart
              (mkTask "Odd" "One" (day 20001) "pending" "toString"
                      alice_id alice_id None [] []) task2) as (_ & _ & Hinherited & _).
  split; [|split].
  - intros Hsame. assert (priority task1 = priority task2) as Hp; [|discriminate Hp].
    apply Hapart; [reflexivity|reflexivity|exact Hsame].
  - intros Hdefault. apply Hgrey in Hdefault. destruct Hdefault as [Hdefault _].
    discriminate Hdefault.
  - apply Hinherited. reflexivity.
Defined.

(** A pending task that fell due at nine this morning, seen at noon. *)
Lemma overdue_badge_and_dashboard_count_witness :
  isOverdue clock (with_status "pending" (lateTask "pending")) = true
  /\ badgeOverdue clock task1 = isOverdue clock task1
  /\ isOverdue clock (mkTask "Call back" "The supplier" (day 20000 + 9 * 60 * 60 * 1000)
                             "pending" "low" alice_id alice_id None [] []) = true
  /\ countedOverdue (day 20000)
       (mkTask "Call back" "The supplier" (day 20000 + 9 * 60 * 60 * 1000)
               "pending" "low" alice_id alice_id None [] []) = false.
Proof.
  split; [reflexivity|].
  destruct (overdue_badge_and_dashboard_count clock (day 20000) task1) as [Hbadge _].
  split; [exact Hbadge|].
  destruct (overdue_badge_and_dashboard_count clock (day 20000)
              (mkTask "Call back" "The supplier" (day 20000 + 9 * 60 * 60 * 1000)
                      "pending" "low" alice_id alice_id None [] [])) as (_ & _ & Hmorning).
  apply Hmorning; [discriminate|]. split; [discriminate|reflexivity].
Defined.

(** The three tasks of the example store, and the late one. *)
Lemma dashboard_figures_add_up_witness :
  (stats_pending (dashboardStats (day 20000) [task1; task2; task3; lateTask "cancelled"])
   + stats_inProgress (dashboardStats (day 20000) [task1; task2; task3; lateTask "cancelled"])
   + stats_completed (dashboardStats (day 20000) [task1; task2; task3; lateTask "cancelled"])
   + 1
   = stats_total (dashboardStats (day 20000) [task1; task2; task3; lateTask "cancelled"]))%nat.
Proof.
  destruct (dashboard_figures_add_up (day 20000) [task1; task2; task3; lateTask "cancelled"])
    as (_ & _ & Hsum).
  apply Hsum. repeat constructor.
Defined.

(** The board of the three tasks of the example store and a cancelled one. *)
Lemma priority_board_columns_are_filters_witness :
  groupByPriority [task1; task2; task3; lateTask "cancelled"]
  = mkPriorityColumns [] [task1] [task3] [task2].
Proof.
  assert (Forall (fun t => includes validPriorities (priority t) = true)
                 [task1; task2; task3; lateTask "cancelled"]) as Hvalid
    by (repeat constructor).
  destruct (priority_board_columns_are_filters _ Hvalid) as [Hcolumns _].
  rewrite Hcolumns. reflexivity.
Defined.

(** The title column, chosen twice on a page sorted by due date. *)
Lemma sort_control_toggles_witness :
  handleSortChange "title" (mkSortState "dueDate" "asc") = mkSortState "title" "asc"
  /\ handleSortChange "title" (handleSortChange "title" (mkSortState "title" "desc"))
     = mkSortState "title" "desc".
Proof.
  split; [reflexivity|].
  destruct (sort_control_toggles "title" (mkSortState "title" "desc")) as (_ & _ & _ & Htwice).
  apply Htwice. right. reflexivity.
Defined.
